(** * KodeKey chatbot: conversation store and streaming pipeline

    A shallow embedding of [chatbot.py]: the session state (an ordered
    dictionary of conversations and the active conversation id), the
    store operations (create, delete, export, import, clear-all, settings
    update), the title deriver, the streaming generator
    [ChatBot.stream_response] and the turn processing of [main].

    Python values are dynamically typed: a conversation is whatever
    dictionary was put into the store, and [import_conversation] stores
    the parsed JSON document as it is.  The store therefore holds [pyval]
    values and every subscript can fail, as in the source. *)

From Stdlib Require Import List Bool Arith NArith ZArith QArith Lia.
From Stdlib Require Import Ascii.
From Stdlib Require String.
Import String.StringSyntax.
Delimit Scope string_scope with string.
Import ListNotations.

#[local] Set Warnings "-register-all".

Close Scope Q_scope.
Local Open Scope list_scope.

(** ** Python strings

    A [str] is a sequence of Unicode code points; [len] and slicing count
    code points. *)

Definition char := N.
Definition str := list char.

Bind Scope N_scope with char.

(** A string literal of the source, for ASCII text. *)
Fixpoint U (s : String.string) : str :=
  match s with
  | String.EmptyString => []
  | String.String a rest => N_of_ascii a :: U rest
  end.

Arguments U s%_string : simpl never.

Module PyStr.

Definition eqb (a b : str) : bool :=
  if list_eq_dec N.eq_dec a b then true else false.

(** [str.isspace] on one code point: the characters that [str.strip()]
    removes when called without arguments. *)
Definition isspace (c : char) : bool :=
  ((9 <=? c) && (c <=? 13)
   || (28 <=? c) && (c <=? 32)
   || (c =? 133) || (c =? 160) || (c =? 5760)
   || (8192 <=? c) && (c <=? 8202)
   || (c =? 8232) || (c =? 8233) || (c =? 8239) || (c =? 8287)
   || (c =? 12288))%N.

Fixpoint lstrip (s : str) : str :=
  match s with
  | [] => []
  | c :: rest => if isspace c then lstrip rest else s
  end.

Definition rstrip (s : str) : str := rev (lstrip (rev s)).

(** [s.strip()] *)
Definition strip (s : str) : str := rstrip (lstrip s).

(** Truth value of a string: non-empty. *)
Definition truthy (s : str) : bool :=
  match s with [] => false | _ :: _ => true end.

(** [s[:n]] for a non-negative [n] *)
Definition slice_to (n : nat) (s : str) : str := firstn n s.

(** [s.startswith(p)] *)
Fixpoint startswith (p s : str) : bool :=
  match p, s with
  | [], _ => true
  | _ :: _, [] => false
  | a :: p', b :: s' => N.eqb a b && startswith p' s'
  end.

End PyStr.


(** ** Python values

    The values that the program stores and that [json] can read and write.
    A [dict] keeps its insertion order and has string keys here (the only
    keys the program and a JSON document use).  A [float] is represented
    by the decimal number that [repr] and [json] write for it, as a
    fraction ([0.7] is [7 # 10]); the program only stores floats, passes
    them on and relies on the slider widget for their range. *)

Inductive pyval : Type :=
| PNone
| PBool (b : bool)
| PInt (z : Z)
| PFloat (q : Q)
| PStr (s : str)
| PList (l : list pyval)
| PDict (d : list (str * pyval)).

(** ** Exceptions

    The classes of [Exception] that the modelled code can raise.
    [JSONDecodeError] and [APIError] come from the [json] library and
    from the completion client and carry their message. *)

Inductive exn : Type :=
| KeyError (key : pyval)
| TypeError
| AttributeError
| ValueError (msg : str)
| IndexError
| JSONDecodeError (msg : str)
| APIError (msg : str).

Inductive result (A : Type) : Type :=
| Ok (a : A)
| Err (e : exn).

Arguments Ok {A} a.
Arguments Err {A} e.

Definition bind {A B : Type} (r : result A) (k : A -> result B) : result B :=
  match r with
  | Ok a => k a
  | Err e => Err e
  end.

Notation "x <- r ;; k" := (bind r (fun x => k))
  (at level 61, r at next level, right associativity).

(** ** Ordered dictionaries *)

Module PyDict.

Section Ops.
Context {V : Type}.

Definition dict := list (str * V).

Fixpoint get (d : dict) (k : str) : option V :=
  match d with
  | [] => None
  | (k', v) :: rest => if PyStr.eqb k' k then Some v else get rest k
  end.

(** [k in d] *)
Definition contains (d : dict) (k : str) : bool :=
  match get d k with Some _ => true | None => false end.

(** [d[k]] *)
Definition getitem (d : dict) (k : str) : result V :=
  match get d k with
  | Some v => Ok v
  | None => Err (KeyError (PStr k))
  end.

(** [d[k] = v]: an existing key keeps its position, a new key goes
    to the end. *)
Fixpoint setitem (d : dict) (k : str) (v : V) : dict :=
  match d with
  | [] => [(k, v)]
  | (k', v') :: rest =>
      if PyStr.eqb k' k then (k', v) :: rest
      else (k', v') :: setitem rest k v
  end.

Fixpoint remove (d : dict) (k : str) : dict :=
  match d with
  | [] => []
  | (k', v') :: rest =>
      if PyStr.eqb k' k then rest else (k', v') :: remove rest k
  end.

(** [del d[k]] *)
Definition delitem (d : dict) (k : str) : result dict :=
  if contains d k then Ok (remove d k) else Err (KeyError (PStr k)).

(** [list(d.keys())] *)
Definition keys (d : dict) : list str := map fst d.

(** [d.update(other)] *)
Definition update (d other : dict) : dict :=
  fold_left (fun acc kv => setitem acc (fst kv) (snd kv)) other d.

End Ops.

Arguments dict V : clear implicits.

End PyDict.


(** ** Operations on dynamically typed values *)

(** Truth value of an object, as tested by [if x] and [not x]. *)
Definition truthy (v : pyval) : bool :=
  match v with
  | PNone => false
  | PBool b => b
  | PInt z => negb (Z.eqb z 0)
  | PFloat q => negb (Qeq_bool q 0)
  | PStr s => PyStr.truthy s
  | PList l => match l with [] => false | _ => true end
  | PDict d => match d with [] => false | _ => true end
  end.

(** [v[k]] for a string key [k]: only a dictionary can be subscripted by
    a string. *)
Definition subscript (v : pyval) (k : str) : result pyval :=
  match v with
  | PDict d => PyDict.getitem d k
  | _ => Err TypeError
  end.

(** [v == s] for a string [s] *)
Definition eq_str (v : pyval) (s : str) : bool :=
  match v with
  | PStr s' => PyStr.eqb s' s
  | _ => false
  end.

(** [l[-n:]]: the last [n] elements, all of them when there are fewer. *)
Definition last_n {A : Type} (n : nat) (l : list A) : list A :=
  skipn (length l - n) l.

(** A chat message [{"role": role, "content": content}]. *)
Definition message (role content : str) : pyval :=
  PDict [(U "role", PStr role); (U "content", PStr content)].

(** ** Title deriver *)

(** [next((msg for msg in messages if msg["role"] == "user"), None)]:
    the generator is advanced until the first match, so the subscript
    fails on a message before the match only. *)
Fixpoint first_user_message (msgs : list pyval) : result (option pyval) :=
  match msgs with
  | [] => Ok None
  | msg :: rest =>
      role <- subscript msg (U "role") ;;
      if eq_str role (U "user") then Ok (Some msg) else first_user_message rest
  end.

Definition new_chat : str := U "New Chat".
Definition ellipsis : str := U "...".

(** [get_conversation_title(messages)].  Iterating a value that is not
    a list (a string, a dictionary, a number) ends in a [TypeError],
    at the iteration or at the subscript of its first element.  A content
    that is not a string ends in an exception as well: a list can be
    sliced but has no [strip], the other values cannot be sliced. *)
Definition get_conversation_title (messages : pyval) : result str :=
  if negb (truthy messages) then Ok new_chat
  else
    match messages with
    | PList msgs =>
        first_message <- first_user_message msgs ;;
        match first_message with
        | Some m =>
            if truthy m then
              content <- subscript m (U "content") ;;
              match content with
              | PStr c =>
                  let title := PyStr.strip (PyStr.slice_to 30 c) in
                  Ok (if (30 <? length c)%nat then title ++ ellipsis else title)
              | PList _ => Err AttributeError
              | _ => Err TypeError
              end
            else Ok new_chat
        | None => Ok new_chat
        end
    | _ => Err TypeError
    end.

(** ** Generators

    A generator that ends: it stops, yields a value and goes on, or
    raises.  The consumer's [for] loop sees the yields in order. *)

Inductive gen (A : Type) : Type :=
| GStop
| GYield (a : A) (next : gen A)
| GRaise (e : exn).

Arguments GStop {A}.
Arguments GYield {A} a next.
Arguments GRaise {A} e.

(** The values a generator yields, in order, and the exception that ends
    it, if any. *)
Fixpoint run_gen {A : Type} (g : gen A) : list A * option exn :=
  match g with
  | GStop => ([], None)
  | GYield a next => let (l, e) := run_gen next in (a :: l, e)
  | GRaise e => ([], Some e)
  end.

(** ** The completion client

    [client.chat.completions.create] is the external capability.  In
    streaming mode it raises or returns an iterator of chunks; a chunk is
    represented by its [choices[0].delta.content], which can be [None].
    An exception raised while a chunk is read or inspected ends the
    iterator with [GRaise]. *)

Record request : Type := {
  req_model : pyval;
  req_messages : list pyval;
  req_temperature : pyval;
  req_max_tokens : Z;
  req_stream : bool
}.

Definition backend := request -> result (gen (option str)).

Record ChatBot : Type := {
  api_key : str;
  base_url : option str;
  client : backend;
  models : PyDict.dict str;
  system_prompts : PyDict.dict str
}.

Definition available_models : PyDict.dict str :=
  [ (U "Claude Sonnet 4", U "anthropic/claude-sonnet-4");
    (U "GPT-4o", U "openai/gpt-4o");
    (U "Gemini 2.0 Flash", U "google/gemini-2.0-flash-thinking-exp") ].

Definition personalities : PyDict.dict str :=
  [ (U "Assistant", U "You are a helpful AI assistant. Provide clear, accurate, and helpful responses to user queries.");
    (U "Developer", U "You are an expert software developer. Help with coding questions, debugging, and best practices.");
    (U "Teacher", U "You are a patient and knowledgeable teacher. Explain concepts clearly with examples and encourage learning.");
    (U "Creative", U "You are a creative AI assistant. Help with writing, brainstorming, and creative projects with imagination and flair.");
    (U "Analyst", U "You are a data analyst and researcher. Provide detailed analysis, insights, and evidence-based responses.") ].

(** [a or b] on optional strings: [a] when it is a non-empty string. *)
Definition or_else (a b : option str) : option str :=
  match a with
  | Some s => if PyStr.truthy s then a else b
  | None => b
  end.

(** [ChatBot.__init__]; [env_key] and [env_url] are the values of the
    environment variables, [OpenAI] builds the client. *)
Definition ChatBot_init (OpenAI : str -> option str -> backend)
    (env_key env_url : option str) (key url : option str) : result ChatBot :=
  match or_else key env_key with
  | Some k =>
      if PyStr.truthy k then
        Ok {| api_key := k;
              base_url := or_else url env_url;
              client := OpenAI k (or_else url env_url);
              models := available_models;
              system_prompts := personalities |}
      else Err (ValueError (U "KodeKey API key is required"))
  | None => Err (ValueError (U "KodeKey API key is required"))
  end.

(** Code points of the symbols used in the messages. *)
Definition cross_mark : char := 10060%N.
Definition check_mark : char := 9989%N.
Definition cursor : char := 9612%N.

(** The marker that opens an error message of the client. *)
Definition error_marker : str := cross_mark :: U " Error: ".

(** ** Session state and user interface *)

(** What a call shows: [st.success], [st.error] and the [markdown] of
    the response container. *)
Inductive ui_event : Type :=
| StSuccess (text : str)
| StError (text : str)
| StMarkdown (text : str).

(** [st.session_state] once it is initialised. *)
Record session : Type := {
  conversations : PyDict.dict pyval;
  active_conversation : str;
  chatbot : option ChatBot
}.

(** [st.session_state] before initialisation: an attribute can be
    missing. *)
Record raw_session : Type := {
  raw_conversations : option (PyDict.dict pyval);
  raw_active_conversation : option str;
  raw_chatbot : option (option ChatBot)
}.

(** How a call ends: it returns, it asks for a rerun of the script
    ([st.rerun()], which is not an [Exception] and passes every
    [except Exception]), or it raises. *)
Inductive control : Type :=
| Returned
| Rerun
| Raised (e : exn).

Record outcome : Type := {
  state : session;
  shown : list ui_event;
  ctl : control
}.

Definition set_conversations (s : session) (c : PyDict.dict pyval) : session :=
  {| conversations := c;
     active_conversation := active_conversation s;
     chatbot := chatbot s |}.

Definition set_active (s : session) (a : str) : session :=
  {| conversations := conversations s;
     active_conversation := a;
     chatbot := chatbot s |}.

Definition default_model : str := U "anthropic/claude-sonnet-4".
Definition default_personality : str := U "Assistant".
Definition default_temperature : Q := 7 # 10.

(** The dictionary of a new conversation; [now] is
    [datetime.now().isoformat()]. *)
Definition new_conversation (now : str) : pyval :=
  PDict [ (U "title", PStr new_chat);
          (U "messages", PList []);
          (U "created_at", PStr now);
          (U "model", PStr default_model);
          (U "personality", PStr default_personality);
          (U "temperature", PFloat default_temperature) ].

(** ** A reference [json]

    The [json] library is a parameter of the program below.  This
    module is an executable reference for it, used to run the program on
    concrete documents: [dumps] writes a value as
    [json.dumps(_, indent=2)] does, [loads] reads a document as
    [json.load] does.  [NaN] and the infinities are left out, and the
    text of a decoding error is not reproduced. *)

Module Json.

(** *** Writing *)

Fixpoint digits_of (fuel : nat) (n : N) (acc : str) : str :=
  match fuel with
  | O => acc
  | S f =>
      let acc' := (48 + n mod 10)%N :: acc in
      if (n / 10 =? 0)%N then acc' else digits_of f (n / 10)%N acc'
  end.

Definition print_nat (n : N) : str := digits_of (S (N.size_nat n)) n [].

Definition print_int (z : Z) : str :=
  if (z <? 0)%Z then U "-" ++ print_nat (Z.abs_N z) else print_nat (Z.abs_N z).

(** The least [k] up to [fuel] such that [d] divides [10^k]. *)
Fixpoint decimal_scale (fuel : nat) (k : N) (d : N) : N :=
  match fuel with
  | O => k
  | S f => if ((10 ^ k) mod d =? 0)%N then k else decimal_scale f (k + 1)%N d
  end.

(** The [k] digits of [fr] after the point, with their leading zeros; one
    zero when there is none. *)
Definition frac_digits (k fr : N) : str :=
  if (k =? 0)%N then U "0"
  else repeat 48%N (N.to_nat k - length (print_nat fr)) ++ print_nat fr.

(** A float in positional notation, with at least one digit after the
    point. *)
Definition print_float (q : Q) : str :=
  let d := Npos (Qden q) in
  let k := decimal_scale (N.size_nat d) 0 d in
  let scaled := (Z.abs_N (Qnum q) * 10 ^ k / d)%N in
  (if (Qnum q <? 0)%Z then U "-" else [])
    ++ print_nat (scaled / 10 ^ k)%N ++ U "." ++ frac_digits k (scaled mod 10 ^ k)%N.

Definition hex_digit (n : N) : char :=
  if (n <? 10)%N then (48 + n)%N else (87 + n)%N.

(** [\uXXXX] for a code unit below [65536] *)
Definition escape_unit (c : N) : str :=
  U "\u" ++ [ hex_digit (c / 4096); hex_digit (c / 256 mod 16);
              hex_digit (c / 16 mod 16); hex_digit (c mod 16) ]%N.

Definition quote : char := 34%N.

(** One character of a string, with [ensure_ascii]. *)
Definition escape_char (c : char) : str :=
  if (c =? 34)%N then [92; 34]%N
  else if (c =? 92)%N then U "\\"
  else if (c =? 10)%N then U "\n"
  else if (c =? 13)%N then U "\r"
  else if (c =? 9)%N then U "\t"
  else if (c =? 8)%N then U "\b"
  else if (c =? 12)%N then U "\f"
  else if ((32 <=? c) && (c <=? 126))%N then [c]
  else if (c <? 65536)%N then escape_unit c
  else
    let v := (c - 65536)%N in
    escape_unit (55296 + v / 1024)%N ++ escape_unit (56320 + v mod 1024)%N.

Definition print_string (s : str) : str :=
  quote :: flat_map escape_char s ++ [quote].

Definition newline_indent (level : nat) : str :=
  10%N :: repeat 32%N (2 * level).

(** The items of a container, one per line at [level]. *)
Fixpoint join_items (level : nat) (items : list str) : str :=
  match items with
  | [] => []
  | [x] => newline_indent level ++ x
  | x :: rest => newline_indent level ++ x ++ U "," ++ join_items level rest
  end.

Fixpoint print_value (level : nat) (v : pyval) : str :=
  match v with
  | PNone => U "null"
  | PBool true => U "true"
  | PBool false => U "false"
  | PInt z => print_int z
  | PFloat q => print_float q
  | PStr s => print_string s
  | PList [] => U "[]"
  | PList l =>
      U "[" ++ join_items (S level) (map (print_value (S level)) l)
        ++ newline_indent level ++ U "]"
  | PDict [] => U "{}"
  | PDict d =>
      U "{" ++ join_items (S level)
                 (map (fun kv => print_string (fst kv) ++ U ": "
                                 ++ print_value (S level) (snd kv)) d)
        ++ newline_indent level ++ U "}"
  end.

(** [json.dumps(v, indent=2)] *)
Definition dumps (v : pyval) : str := print_value 0 v.

(** *** Reading *)

Definition decode_error : exn := JSONDecodeError (U "Expecting value").

(** Whitespace between tokens: space, tab, line feed, carriage return. *)
Definition is_ws (c : char) : bool :=
  ((c =? 32) || (c =? 9) || (c =? 10) || (c =? 13))%N.

Fixpoint skip_ws (s : str) : str :=
  match s with
  | c :: rest => if is_ws c then skip_ws rest else s
  | [] => []
  end.

Definition is_digit (c : char) : bool := ((48 <=? c) && (c <=? 57))%N.

(** The number [a] followed by the digit [c] *)
Definition digit_step (a : N) (c : char) : N := (10 * a + (c - 48))%N.

(** The longest prefix of digits, as a number, with its length. *)
Fixpoint read_digits (s : str) (acc : N) (count : nat) : N * nat * str :=
  match s with
  | c :: rest =>
      if is_digit c then read_digits rest (digit_step acc c) (S count)
      else (acc, count, s)
  | [] => (acc, count, [])
  end.

(** The integer part: [0], or digits that do not start with [0]. *)
Definition read_int_part (s : str) : option (N * str) :=
  match s with
  | c :: rest =>
      if (c =? 48)%N then Some (0%N, rest)
      else if is_digit c then
        let '(n, _, rest') := read_digits s 0 0 in Some (n, rest')
      else None
  | [] => None
  end.

(** The fraction [.ddd], when there is one: its digits and their
    number. *)
Definition read_frac_part (s : str) : option (N * nat) * str :=
  match s with
  | c :: rest =>
      if (c =? 46)%N then
        let '(n, count, rest') := read_digits rest 0 0 in
        match count with
        | O => (None, s)
        | S _ => (Some (n, count), rest')
        end
      else (None, s)
  | [] => (None, s)
  end.

(** The exponent [e+dd], when there is one. *)
Definition read_exp_part (s : str) : option Z * str :=
  match s with
  | c :: rest =>
      if ((c =? 101) || (c =? 69))%N then
        let '(negative, digits) :=
          match rest with
          | sign :: rest' =>
              if (sign =? 45)%N then (true, rest')
              else if (sign =? 43)%N then (false, rest')
              else (false, rest)
          | [] => (false, rest)
          end in
        let '(n, count, rest') := read_digits digits 0 0 in
        match count with
        | O => (None, s)
        | S _ => (Some (if negative then (- Z.of_N n)%Z else Z.of_N n), rest')
        end
      else (None, s)
  | [] => (None, s)
  end.

(** [m * 10^e] as a reduced fraction *)
Definition scale10 (m : Z) (e : Z) : Q :=
  if (0 <=? e)%Z then Qred (Qmake (m * 10 ^ e) 1)
  else Qred (Qmake m (Z.to_pos (10 ^ (- e)))).

(** A number after its sign: an [int] without fraction and exponent, a
    [float] otherwise. *)
Definition read_unsigned (negative : bool) (s : str) : option (pyval * str) :=
  match read_int_part s with
  | None => None
  | Some (whole, s2) =>
      let '(frac, s3) := read_frac_part s2 in
      let '(exp, s4) := read_exp_part s3 in
      let sign (z : Z) := if negative then (- z)%Z else z in
      match frac, exp with
      | None, None => Some (PInt (sign (Z.of_N whole)), s4)
      | _, _ =>
          let '(f, count) := match frac with Some fc => fc | None => (0%N, O) end in
          let e := match exp with Some e => e | None => 0%Z end in
          let mantissa := sign (Z.of_N (whole * 10 ^ N.of_nat count + f)) in
          Some (PFloat (scale10 mantissa (e - Z.of_nat count)), s4)
      end
  end.

Definition read_number (s : str) : option (pyval * str) :=
  match s with
  | c :: rest =>
      if (c =? 45)%N then read_unsigned true rest else read_unsigned false s
  | [] => None
  end.

Definition hex_value (c : char) : option N :=
  if is_digit c then Some (c - 48)%N
  else if ((97 <=? c) && (c <=? 102))%N then Some (c - 87)%N
  else if ((65 <=? c) && (c <=? 70))%N then Some (c - 55)%N
  else None.

(** Four hexadecimal digits *)
Definition read_hex4 (s : str) : option (N * str) :=
  match s with
  | a :: b :: c :: d :: rest =>
      match hex_value a, hex_value b, hex_value c, hex_value d with
      | Some x, Some y, Some z, Some w =>
          Some (x * 4096 + y * 256 + z * 16 + w, rest)%N
      | _, _, _, _ => None
      end
  | _ => None
  end.

(** What follows [\u]: one code unit, or a surrogate pair that is put
    together. *)
Definition read_unicode_escape (s : str) : option (char * str) :=
  match read_hex4 s with
  | None => None
  | Some (hi, rest) =>
      if ((55296 <=? hi) && (hi <=? 56319))%N then
        match rest with
        | 92%N :: 117%N :: rest' =>
            match read_hex4 rest' with
            | Some (lo, rest'') =>
                if ((56320 <=? lo) && (lo <=? 57343))%N then
                  Some (65536 + (hi - 55296) * 1024 + (lo - 56320), rest'')%N
                else Some (hi, rest)
            | None => Some (hi, rest)
            end
        | _ => Some (hi, rest)
        end
      else Some (hi, rest)
  end.

(** The characters of a string after its opening quote, up to the
    closing quote.  A control character is refused. *)
Fixpoint read_string (fuel : nat) (s : str) : option (str * str) :=
  match fuel with
  | O => None
  | S f =>
      match s with
      | [] => None
      | c :: rest =>
          if (c =? quote)%N then Some ([], rest)
          else if (c <? 32)%N then None
          else if (c =? 92)%N then
            match rest with
            | [] => None
            | e :: rest' =>
                let plain (x : char) :=
                  match read_string f rest' with
                  | Some (l, r) => Some (x :: l, r)
                  | None => None
                  end in
                if (e =? 34)%N then plain 34%N
                else if (e =? 92)%N then plain 92%N
                else if (e =? 47)%N then plain 47%N
                else if (e =? 98)%N then plain 8%N
                else if (e =? 102)%N then plain 12%N
                else if (e =? 110)%N then plain 10%N
                else if (e =? 114)%N then plain 13%N
                else if (e =? 116)%N then plain 9%N
                else if (e =? 117)%N then
                  match read_unicode_escape rest' with
                  | Some (x, rest'') =>
                      match read_string f rest'' with
                      | Some (l, r) => Some (x :: l, r)
                      | None => None
                      end
                  | None => None
                  end
                else None
            end
          else
            match read_string f rest with
            | Some (l, r) => Some (c :: l, r)
            | None => None
            end
      end
  end.

(** [s] starts with the word [w]: the rest. *)
Fixpoint expect (w s : str) : option str :=
  match w, s with
  | [], _ => Some s
  | a :: w', b :: s' => if (a =? b)%N then expect w' s' else None
  | _ :: _, [] => None
  end.

(** The pairs of an object, in the order of the document: a key that
    comes again keeps its place and takes the later value. *)
Definition dict_of_pairs (pairs : list (str * pyval)) : PyDict.dict pyval :=
  fold_left (fun acc kv => PyDict.setitem acc (fst kv) (snd kv)) pairs [].

(** [s] starts with the character [c] *)
Definition head_is (c : char) (s : str) : bool :=
  match s with
  | x :: _ => (x =? c)%N
  | [] => false
  end.

(** The items of an array after its opening bracket or a comma, up to
    the closing bracket; [read] reads one value. *)
Fixpoint read_items (read : str -> option (pyval * str)) (n : nat) (s : str)
  : option (list pyval * str) :=
  match n with
  | O => None
  | S n' =>
      match read s with
      | None => None
      | Some (v, rest) =>
          let s1 := skip_ws rest in
          if head_is 44 s1 then
            match read_items read n' (skip_ws (tl s1)) with
            | Some (l, r) => Some (v :: l, r)
            | None => None
            end
          else if head_is 93 s1 then Some ([v], tl s1)
          else None
      end
  end.

(** The members of an object after its opening brace or a comma, up to
    the closing brace. *)
Fixpoint read_members (read : str -> option (pyval * str)) (n : nat) (s : str)
  : option (list (str * pyval) * str) :=
  match n with
  | O => None
  | S n' =>
      if head_is quote s then
        match read_string (S (length (tl s))) (tl s) with
        | None => None
        | Some (k, s2) =>
            let s3 := skip_ws s2 in
            if head_is 58 s3 then
              match read (skip_ws (tl s3)) with
              | None => None
              | Some (v, rest) =>
                  let s4 := skip_ws rest in
                  if head_is 44 s4 then
                    match read_members read n' (skip_ws (tl s4)) with
                    | Some (l, r) => Some ((k, v) :: l, r)
                    | None => None
                    end
                  else if head_is 125 s4 then Some ([(k, v)], tl s4)
                  else None
              end
            else None
        end
      else None
  end.

(** A value at the head of [s]. *)
Fixpoint read_value (fuel : nat) (s : str) : option (pyval * str) :=
  match fuel with
  | O => None
  | S f =>
      if head_is quote s then
        match read_string (S (length (tl s))) (tl s) with
        | Some (x, r) => Some (PStr x, r)
        | None => None
        end
      else if head_is 123 s then
        let s1 := skip_ws (tl s) in
        if head_is 125 s1 then Some (PDict [], tl s1)
        else
          match read_members (read_value f) (S (length s1)) s1 with
          | Some (pairs, r) => Some (PDict (dict_of_pairs pairs), r)
          | None => None
          end
      else if head_is 91 s then
        let s1 := skip_ws (tl s) in
        if head_is 93 s1 then Some (PList [], tl s1)
        else
          match read_items (read_value f) (S (length s1)) s1 with
          | Some (l, r) => Some (PList l, r)
          | None => None
          end
      else if head_is 110 s then
        match expect (U "null") s with
        | Some r => Some (PNone, r)
        | None => None
        end
      else if head_is 116 s then
        match expect (U "true") s with
        | Some r => Some (PBool true, r)
        | None => None
        end
      else if head_is 102 s then
        match expect (U "false") s with
        | Some r => Some (PBool false, r)
        | None => None
        end
      else read_number s
  end.

(** [json.loads(s)]: one value between optional whitespace, and
    nothing after it. *)
Definition loads (s : str) : result pyval :=
  match read_value (S (length s)) (skip_ws s) with
  | Some (v, rest) =>
      match skip_ws rest with
      | [] => Ok v
      | _ :: _ => Err (JSONDecodeError (U "Extra data"))
      end
  | None => Err decode_error
  end.

(** *** Values that are read back as they were written

    A character is a Unicode scalar value, a float has a finite decimal
    expansion and is a reduced fraction, the keys of a dictionary are
    distinct. *)

Definition scalar (c : char) : bool :=
  ((c <? 55296) || (57343 <? c) && (c <? 1114112))%N.

Definition float_exact (q : Q) : bool :=
  let d := Npos (Qden q) in
  ((10 ^ decimal_scale (N.size_nat d) 0 d) mod d =? 0)%N
  && (Qnum (Qred q) =? Qnum q)%Z && (Qden (Qred q) =? Qden q)%positive.

Fixpoint distinct (keys : list str) : bool :=
  match keys with
  | [] => true
  | k :: rest => negb (existsb (PyStr.eqb k) rest) && distinct rest
  end.

Fixpoint canonical (v : pyval) : bool :=
  match v with
  | PNone | PBool _ | PInt _ => true
  | PFloat q => float_exact q
  | PStr s => forallb scalar s
  | PList l => forallb canonical l
  | PDict d =>
      distinct (map fst d)
      && forallb (fun kv => forallb scalar (fst kv) && canonical (snd kv)) d
  end.

(** The nesting depth of a value *)
Fixpoint depth (v : pyval) : nat :=
  match v with
  | PList l => S (fold_right (fun x acc => Nat.max (depth x) acc) O l)
  | PDict d => S (fold_right (fun kv acc => Nat.max (depth (snd kv)) acc) O d)
  | _ => 1
  end.

(** The first character of a printed value: it opens a string, an
    object or an array, it is the first letter of a word, or it opens a
    number. *)
Definition opens_value (c : char) : bool :=
  ((c =? 34) || (c =? 123) || (c =? 91) || (c =? 110) || (c =? 116)
   || (c =? 102) || (c =? 45) || is_digit c)%N.

(** What follows a value in a document: nothing, a line feed or a
    comma. *)
Definition delimited (rest : str) : bool :=
  match rest with
  | [] => true
  | c :: _ => ((c =? 10) || (c =? 44))%N
  end.

End Json.

(** ** A reference [str(e)]

    The text of an exception is a parameter of the program as well.
    This one gives the exceptions that carry a message their message and
    a missing string key between apostrophes; the text of the other
    exceptions is not reproduced. *)

Definition exn_text (e : exn) : str :=
  match e with
  | KeyError (PStr k) => 39%N :: k ++ [39%N]
  | ValueError msg | JSONDecodeError msg | APIError msg => msg
  | _ => []
  end.

(** ** The invariant of a conversation

    The model of a conversation is an identifier of the catalogue, its
    personality a key of the system prompts, its temperature a float
    between 0 and 1. *)

Definition model_resolves (v : pyval) : bool :=
  existsb (eq_str v) (map snd available_models).

Definition personality_known (v : pyval) : bool :=
  existsb (eq_str v) (PyDict.keys personalities).

Definition temperature_in_range (v : pyval) : bool :=
  match v with
  | PFloat t => Qle_bool 0 t && Qle_bool t 1
  | _ => false
  end.

Definition field_satisfies (d : PyDict.dict pyval) (k : str) (p : pyval -> bool) : bool :=
  match PyDict.get d k with
  | Some v => p v
  | None => false
  end.

Definition valid_conversation (c : pyval) : bool :=
  match c with
  | PDict d =>
      field_satisfies d (U "model") model_resolves
      && field_satisfies d (U "personality") personality_known
      && field_satisfies d (U "temperature") temperature_in_range
  | _ => false
  end.

Definition store_valid (convs : PyDict.dict pyval) : bool :=
  forallb valid_conversation (map snd convs).

(** The chatbot of a session, when there is one, holds the catalogue. *)
Definition catalogue_bot (s : session) : Prop :=
  match chatbot s with
  | Some bot => models bot = available_models /\ system_prompts bot = personalities
  | None => True
  end.

(** A call reports an error when it raises or shows an error message. *)
Definition is_error (e : ui_event) : bool :=
  match e with
  | StError _ => true
  | _ => false
  end.

Definition reports_error (o : outcome) : bool :=
  match ctl o with
  | Raised _ => true
  | _ => existsb is_error (shown o)
  end.

(** The contents of the chunks that have one. *)
Fixpoint contents (chunks : list (option str)) : list str :=
  match chunks with
  | [] => []
  | Some c :: rest => c :: contents rest
  | None :: rest => contents rest
  end.

(** A list of messages given by their roles and contents. *)
Definition messages_from (l : list (str * str)) : list pyval :=
  map (fun m => message (fst m) (snd m)) l.

(** The content of the first message of role [user]. *)
Fixpoint first_user_content (l : list (str * str)) : option str :=
  match l with
  | [] => None
  | (role, content) :: rest =>
      if PyStr.eqb role (U "user") then Some content else first_user_content rest
  end.

(** The backend fails on a request with exception [e] after the chunks
    [chunks]: the call raises, or the iterator it returns does. *)
Definition backend_fails (b : backend) (r : request)
    (chunks : list (option str)) (e : exn) : Prop :=
  (b r = Err e /\ chunks = [])
  \/ exists response, b r = Ok response /\ run_gen response = (chunks, Some e).

(** ** The program

    The interpreter and the [json] library are an interface of the
    program: [exn_str e] is [str(e)], [json_load] is [json.load] on the
    text of the uploaded file, [json_dumps] is
    [json.dumps(_, indent=2)]. *)

Class Runtime : Type := {
  exn_str : exn -> str;
  json_load : str -> result pyval;
  json_dumps : pyval -> str
}.

Section Program.

Context {runtime : Runtime}.

(** *** Streaming client *)

(** The body of the [for] loop of [stream_response], inside its [try]:
    a chunk with content is yielded, an exception becomes one last
    yield. *)
Fixpoint stream_chunks (response : gen (option str)) : gen str :=
  match response with
  | GStop => GStop
  | GYield chunk next =>
      match chunk with
      | Some content => GYield content (stream_chunks next)
      | None => stream_chunks next
      end
  | GRaise e => GYield (error_marker ++ exn_str e) GStop
  end.

(** [ChatBot.stream_response(messages, model, temperature)] *)
Definition stream_response (self : ChatBot) (messages : list pyval)
    (model temperature : pyval) : gen str :=
  match client self {| req_model := model;
                       req_messages := messages;
                       req_temperature := temperature;
                       req_max_tokens := 2000;
                       req_stream := true |} with
  | Ok response => stream_chunks response
  | Err e => GYield (error_marker ++ exn_str e) GStop
  end.

(** *** Store operations *)

(** [initialize_session_state()]; [uuid] and [now] are the results of
    [str(uuid.uuid4())] and [datetime.now().isoformat()]. *)
Definition initialize_session_state (uuid now : str) (r : raw_session) : session :=
  let convs :=
    match raw_conversations r with
    | Some c => c
    | None => []
    end in
  let chat :=
    match raw_chatbot r with
    | Some c => c
    | None => None
    end in
  match raw_active_conversation r with
  | Some a =>
      {| conversations := convs; active_conversation := a; chatbot := chat |}
  | None =>
      {| conversations := PyDict.setitem convs uuid (new_conversation now);
         active_conversation := uuid;
         chatbot := chat |}
  end.

(** [create_new_conversation()] *)
Definition create_new_conversation (uuid now : str) (s : session) : outcome :=
  {| state :=
       {| conversations :=
            PyDict.setitem (conversations s) uuid (new_conversation now);
          active_conversation := uuid;
          chatbot := chatbot s |};
     shown := [];
     ctl := Rerun |}.

(** [list(d.keys())[0]] *)
Definition first_key (d : PyDict.dict pyval) : result str :=
  match PyDict.keys d with
  | k :: _ => Ok k
  | [] => Err IndexError
  end.

(** [delete_conversation(conversation_id)] *)
Definition delete_conversation (conversation_id : str) (s : session) : outcome :=
  if (1 <? length (conversations s))%nat then
    match PyDict.delitem (conversations s) conversation_id with
    | Err e => {| state := s; shown := []; ctl := Raised e |}
    | Ok convs =>
        let s1 := set_conversations s convs in
        if PyStr.eqb (active_conversation s1) conversation_id then
          match first_key convs with
          | Ok k => {| state := set_active s1 k; shown := []; ctl := Rerun |}
          | Err e => {| state := s1; shown := []; ctl := Raised e |}
          end
        else {| state := s1; shown := []; ctl := Rerun |}
    end
  else {| state := s; shown := []; ctl := Returned |}.

(** [export_conversation(conversation_id)] *)
Definition export_conversation (conversation_id : str) (s : session) : option str :=
  match PyDict.get (conversations s) conversation_id with
  | Some conversation => Some (json_dumps conversation)
  | None => None
  end.

Definition import_ok : str :=
  check_mark :: U " Conversation imported successfully!".

Definition import_failed (e : exn) : str :=
  cross_mark :: U " Error importing conversation: " ++ exn_str e.

(** [import_conversation(uploaded_file)]; [uuid] is drawn after the
    document is parsed. *)
Definition import_conversation (uuid : str) (uploaded_file : str) (s : session) : outcome :=
  match json_load uploaded_file with
  | Ok conversation_data =>
      {| state :=
           {| conversations :=
                PyDict.setitem (conversations s) uuid conversation_data;
              active_conversation := uuid;
              chatbot := chatbot s |};
         shown := [StSuccess import_ok];
         ctl := Rerun |}
  | Err e =>
      {| state := s; shown := [StError (import_failed e)]; ctl := Returned |}
  end.

(** The "Clear All Chats" button of [main]. *)
Definition clear_all (uuid now : str) (s : session) : outcome :=
  match conversations s with
  | _ :: _ =>
      {| state :=
           {| conversations := [(uuid, new_conversation now)];
              active_conversation := uuid;
              chatbot := chatbot s |};
         shown := [];
         ctl := Rerun |}
  | [] => {| state := s; shown := []; ctl := Returned |}
  end.

(** [d[k]] where [k] is any value: a list or a dictionary cannot be
    hashed, another value that is not a string is not a key. *)
Definition lookup_value {V : Type} (d : PyDict.dict V) (k : pyval) : result V :=
  match k with
  | PStr s => PyDict.getitem d s
  | PList _ | PDict _ => Err TypeError
  | _ => Err (KeyError k)
  end.

(** [keys.index(v)]: only the membership matters here, the index is
    handed to the widget.  The text of the [ValueError] names the value;
    it is reproduced without the name. *)
Definition index_of (keys : list str) (v : pyval) : result unit :=
  if existsb (eq_str v) keys then Ok tt else Err (ValueError (U "is not in list")).

(** The "Chat Settings" block of [main] (the sidebar, lines 295-338).
    [selected_model], [personality] and [temperature] are what the two
    select boxes and the slider return in this run.  The default of the
    model box needs a first model name, the default of the personality
    box is found with [index], the slider reads the stored temperature;
    what the widgets do with their defaults is not modelled. *)
Definition update_settings (selected_model personality : str) (temperature : Q)
    (s : session) : result session :=
  match chatbot s with
  | Some bot =>
      if PyStr.truthy (active_conversation s) then
        active_conv <- PyDict.getitem (conversations s) (active_conversation s) ;;
        _ <- match PyDict.keys (models bot) with
             | _ :: _ => Ok tt
             | [] => Err IndexError
             end ;;
        _ <- subscript active_conv (U "model") ;;
        current_personality <- subscript active_conv (U "personality") ;;
        _ <- index_of (PyDict.keys (system_prompts bot)) current_personality ;;
        _ <- subscript active_conv (U "temperature") ;;
        model_id <- PyDict.getitem (models bot) selected_model ;;
        match active_conv with
        | PDict d =>
            Ok (set_conversations s
                  (PyDict.setitem (conversations s) (active_conversation s)
                     (PDict (PyDict.update d
                               [ (U "model", PStr model_id);
                                 (U "personality", PStr personality);
                                 (U "temperature", PFloat temperature) ]))))
        | _ => Err AttributeError
        end
      else Ok s
  | None => Ok s
  end.

(** *** One turn *)

Definition generation_failed (e : exn) : str :=
  cross_mark :: U " Error generating response: " ++ exn_str e.

(** The [for] loop of [main] over the generator: the text grows by each
    chunk and is displayed with a cursor.  The result is the text at the
    end of the generator, or the exception the generator raised. *)
Fixpoint consume (g : gen str) (response_text : str) : list ui_event * result str :=
  match g with
  | GStop => ([], Ok response_text)
  | GYield chunk next =>
      let text := response_text ++ chunk in
      let (events, r) := consume next text in
      (StMarkdown (text ++ [cursor]) :: events, r)
  | GRaise e => ([], Err e)
  end.

(** [active_conv["messages"].append(m)] on the dictionary [d] of the
    active conversation: the list object is changed in place, so the
    key keeps its position. *)
Definition append_message (d : PyDict.dict pyval) (m : pyval) : result (PyDict.dict pyval) :=
  messages <- PyDict.getitem d (U "messages") ;;
  match messages with
  | PList l => Ok (PyDict.setitem d (U "messages") (PList (l ++ [m])))
  | _ => Err AttributeError
  end.

(** The messages of a conversation dictionary, where the code takes
    [len] of them or slices them. *)
Definition messages_of (d : PyDict.dict pyval) : result (list pyval) :=
  messages <- PyDict.getitem d (U "messages") ;;
  match messages with
  | PList l => Ok l
  | _ => Err TypeError
  end.

(** The request of a turn: the system message of the personality and
    the last 20 messages. *)
Definition assemble_request (bot : ChatBot) (d : PyDict.dict pyval) : result (list pyval) :=
  personality <- PyDict.getitem d (U "personality") ;;
  prompt <- lookup_value (system_prompts bot) personality ;;
  history <- messages_of d ;;
  Ok (message (U "system") prompt :: last_n 20 history).

(** The [try] block of the turn: the arguments of [stream_response] are
    evaluated, the generator is consumed and the final text displayed. *)
Definition generate (bot : ChatBot) (messages : list pyval) (d : PyDict.dict pyval)
  : list ui_event * result str :=
  match PyDict.getitem d (U "model") with
  | Err e => ([], Err e)
  | Ok model =>
      match PyDict.getitem d (U "temperature") with
      | Err e => ([], Err e)
      | Ok temperature =>
          let (events, r) := consume (stream_response bot messages model temperature) [] in
          match r with
          | Ok response_text => (events ++ [StMarkdown response_text], r)
          | Err _ => (events, r)
          end
      end
  end.

(** The session in which the dictionary of the active conversation is
    [d]: [active_conv] is the object held by the store, so a change of
    it is a change of the store. *)
Definition with_active (s : session) (d : PyDict.dict pyval) : session :=
  set_conversations s
    (PyDict.setitem (conversations s) (active_conversation s) (PDict d)).

(** The user message is appended and, when it is the first message of
    the conversation, the title is computed from it.  The second
    component tells whether the append took place: an exception after it
    leaves the appended message in the store. *)
Definition add_user_message (d0 : PyDict.dict pyval) (text : str)
  : result (PyDict.dict pyval) * option (PyDict.dict pyval) :=
  match append_message d0 (message (U "user") text) with
  | Err e => (Err e, None)
  | Ok d1 =>
      (history <- messages_of d1 ;;
       if (length history =? 1)%nat then
         title <- get_conversation_title (PList history) ;;
         Ok (PyDict.setitem d1 (U "title") (PStr title))
       else Ok d1,
       Some d1)
  end.

(** The end of the turn: the assistant message is appended, the final
    text of the generator or the message of the [except] branch, and the
    script is run again. *)
Definition commit (s : session) (d2 : PyDict.dict pyval)
    (generated : list ui_event * result str) : outcome :=
  let (events, r) := generated in
  let (content, events') :=
    match r with
    | Ok response_text => (response_text, events)
    | Err e => (generation_failed e, events ++ [StError (generation_failed e)])
    end in
  match append_message d2 (message (U "assistant") content) with
  | Ok d3 => {| state := with_active s d3; shown := events'; ctl := Rerun |}
  | Err e => {| state := with_active s d2; shown := events'; ctl := Raised e |}
  end.

(** "Process user input" of [main] (lines 495-550), with [active_conv]
    bound as on line 427.  [bot] is the chatbot of the session, which
    [main] has tested before. *)
Definition process_user_input (bot : ChatBot) (submit_button : bool)
    (user_input : str) (s : session) : outcome :=
  match PyDict.getitem (conversations s) (active_conversation s) with
  | Err e => {| state := s; shown := []; ctl := Raised e |}
  | Ok active_conv =>
      if submit_button && PyStr.truthy (PyStr.strip user_input) then
        match active_conv with
        | PDict d0 =>
            match add_user_message d0 (PyStr.strip user_input) with
            | (Err e, None) => {| state := s; shown := []; ctl := Raised e |}
            | (Err e, Some d1) =>
                {| state := with_active s d1; shown := []; ctl := Raised e |}
            | (Ok d2, _) =>
                match assemble_request bot d2 with
                | Err e =>
                    {| state := with_active s d2; shown := []; ctl := Raised e |}
                | Ok messages => commit s d2 (generate bot messages d2)
                end
            end
        | _ => {| state := s; shown := []; ctl := Raised TypeError |}
        end
      else {| state := s; shown := []; ctl := Returned |}
  end.


End Program.

(** ** The rest of the script

    The other functions of [chatbot.py] and the body of [main] around
    the store operations.  One run of [main] is a run of the script from
    its first line: it ends when the script returns, when [st.rerun()]
    is called or when an exception is raised.  What the widgets return
    in the run is an input; of the display only the messages of
    [st.success], [st.error] and the streamed text are kept. *)

Section Script.

Context {runtime : Runtime}.

(** [ChatBot.get_response(messages, model, temperature)]; [complete] is
    the client in one-shot mode: it raises, or it gives the content of
    the first choice of the response, which can be [None]. *)
Definition get_response (complete : request -> result (option str))
    (messages : list pyval) (model temperature : pyval) : option str :=
  match complete {| req_model := model;
                    req_messages := messages;
                    req_temperature := temperature;
                    req_max_tokens := 2000;
                    req_stream := false |} with
  | Ok content => content
  | Err e => Some (error_marker ++ exn_str e)
  end.

Definition key_configured : str := check_mark :: U " API key configured".

Definition key_invalid (e : exn) : str :=
  cross_mark :: U " Invalid API key: " ++ exn_str e.

Definition set_chatbot (s : session) (c : option ChatBot) : session :=
  {| conversations := conversations s;
     active_conversation := active_conversation s;
     chatbot := c |}.

(** The "API Key" block of the sidebar (lines 274-290); [api_key] is the
    text of the input.  The key that the block also keeps in the session
    state is only the default text of the input and is not part of
    [session]. *)
Definition configure_chatbot (OpenAI : str -> option str -> backend)
    (env_key env_url : option str) (api_key : str) (s : session)
  : session * list ui_event :=
  if PyStr.truthy api_key then
    match chatbot s with
    | Some _ => (s, [StSuccess key_configured])
    | None =>
        match ChatBot_init OpenAI env_key env_url (Some api_key) None with
        | Ok bot => (set_chatbot s (Some bot), [StSuccess key_configured])
        | Err e => (set_chatbot s None, [StError (key_invalid e)])
        end
    end
  else (s, []).

(** A click on the title of a conversation in the list (lines 364-365). *)
Definition select_conversation (conv_id : str) (s : session) : outcome :=
  {| state := set_active s conv_id; shown := []; ctl := Rerun |}.

(** The title of a conversation as the list and the header show it:
    [get_conversation_title(conv_data["messages"])]. *)
Definition shown_title (conv_data : pyval) : result str :=
  messages <- subscript conv_data (U "messages") ;;
  get_conversation_title messages.

(** The loop over the messages of the chat history (lines 438-442): a
    message of role "user" or "assistant" is rendered with its content,
    any other message is passed over.  [true] marks a user message. *)
Fixpoint render_messages (msgs : list pyval) : result (list (bool * pyval)) :=
  match msgs with
  | [] => Ok []
  | m :: rest =>
      role <- subscript m (U "role") ;;
      if eq_str role (U "user") then
        content <- subscript m (U "content") ;;
        tail <- render_messages rest ;;
        Ok ((true, content) :: tail)
      else if eq_str role (U "assistant") then
        content <- subscript m (U "content") ;;
        tail <- render_messages rest ;;
        Ok ((false, content) :: tail)
      else render_messages rest
  end.

(** The chat history (lines 437-448): nothing is rendered for messages
    that are false; a value that is not a list cannot be rendered. *)
Definition render_history (messages : pyval) : result (list (bool * pyval)) :=
  if truthy messages then
    match messages with
    | PList l => render_messages l
    | _ => Err TypeError
    end
  else Ok [].

(** What the widgets return in one run. *)
Record widgets : Type := {
  w_api_key : str;
  w_selected_model : str;
  w_personality : str;
  w_temperature : Q;
  w_new_chat : bool;
  w_select : str -> bool;
  w_delete : str -> bool;
  w_uploaded_file : option str;
  w_clear_all : bool;
  w_user_input : str;
  w_submit : bool;
  w_explain : bool;
  w_debug : bool;
  w_create : bool;
  w_analyze : bool
}.

(** The text that reaches the turn: each quick action button that is
    pressed replaces it (lines 476-492). *)
Definition quick_input (w : widgets) : str :=
  let input := w_user_input w in
  let input :=
    if w_explain w then U "Can you explain this concept in simple terms?"
    else input in
  let input := if w_debug w then U "Help me debug this code issue" else input in
  let input := if w_create w then U "Help me create something new" else input in
  if w_analyze w then U "Analyze this data or situation" else input.

(** Where the script stands: it goes on with a session, or it has
    ended. *)
Inductive step : Type :=
| Go (s : session)
| Halt (s : session) (c : control).

Definition and_then (st : step) (k : session -> step) : step :=
  match st with
  | Go s => k s
  | Halt s c => Halt s c
  end.

(** After a call: the script goes on when the call returned. *)
Definition after (o : outcome) : step :=
  match ctl o with
  | Returned => Go (state o)
  | c => Halt (state o) c
  end.

(** The list of the conversations (lines 350-369), over the items of the
    store: the title of each conversation is computed for its button,
    then come the click on it and the click on its delete button. *)
Fixpoint conversation_list (w : widgets) (items : list (str * pyval))
    (s : session) : step :=
  match items with
  | [] => Go s
  | (conv_id, conv_data) :: rest =>
      match shown_title conv_data with
      | Err e => Halt s (Raised e)
      | Ok _ =>
          if w_select w conv_id then after (select_conversation conv_id s)
          else if w_delete w conv_id then
            and_then (after (delete_conversation conv_id s))
                     (conversation_list w rest)
          else conversation_list w rest s
      end
  end.

(** The sidebar (lines 270-414).  The export block computes the text of
    the download and changes nothing. *)
Definition sidebar (OpenAI : str -> option str -> backend)
    (env_key env_url : option str) (uuid now : str) (w : widgets)
    (s : session) : step :=
  let s1 := fst (configure_chatbot OpenAI env_key env_url (w_api_key w) s) in
  and_then
    (match update_settings (w_selected_model w) (w_personality w)
             (w_temperature w) s1 with
     | Ok s2 => Go s2
     | Err e => Halt s1 (Raised e)
     end)
    (fun s2 =>
       and_then
         (if w_new_chat w then after (create_new_conversation uuid now s2)
          else Go s2)
         (fun s3 =>
            and_then (conversation_list w (conversations s3) s3)
              (fun s4 =>
                 and_then
                   (match w_uploaded_file w with
                    | Some file => after (import_conversation uuid file s4)
                    | None => Go s4
                    end)
                   (fun s5 =>
                      if w_clear_all w then after (clear_all uuid now s5)
                      else Go s5)))).

(** The chat area (lines 416-550). *)
Definition chat_area (w : widgets) (s : session) : step :=
  match chatbot s with
  | None => Halt s Returned
  | Some bot =>
      if PyStr.truthy (active_conversation s) then
        match PyDict.getitem (conversations s) (active_conversation s) with
        | Err e => Halt s (Raised e)
        | Ok active_conv =>
            match (_ <- shown_title active_conv ;;
                   messages <- subscript active_conv (U "messages") ;;
                   render_history messages) with
            | Err e => Halt s (Raised e)
            | Ok _ =>
                after (process_user_input bot (w_submit w) (quick_input w) s)
            end
        end
      else Halt s Returned
  end.

(** One run of [main].  [uuid0] and [now0] serve the initialisation,
    [uuid] and [now] the one operation of the run that creates a
    conversation. *)
Definition main (OpenAI : str -> option str -> backend)
    (env_key env_url : option str) (uuid0 now0 uuid now : str) (w : widgets)
    (r : raw_session) : session * control :=
  match and_then (sidebar OpenAI env_key env_url uuid now w
                    (initialize_session_state uuid0 now0 r))
                 (chat_area w) with
  | Go s => (s, Returned)
  | Halt s c => (s, c)
  end.

(** The session state that the next run finds. *)
Definition stored (s : session) : raw_session :=
  {| raw_conversations := Some (conversations s);
     raw_active_conversation := Some (active_conversation s);
     raw_chatbot := Some (chatbot s) |}.

End Script.

(** ** Conditions on the session

    The active id is a key of the store.  A conversation is poisoned
    when its title cannot be computed, so that the list of the sidebar
    raises on it.  A conversation is well formed when it is valid and
    its messages are a list of dictionaries with a role and a content
    that are strings. *)

Definition active_in_store (s : session) : bool :=
  PyDict.contains (conversations s) (active_conversation s).

Definition poisoned (conv_data : pyval) : bool :=
  match shown_title conv_data with
  | Ok _ => false
  | Err _ => true
  end.

Definition poisoned_store (convs : PyDict.dict pyval) : bool :=
  existsb (fun kv => poisoned (snd kv)) convs.

Definition is_message (m : pyval) : bool :=
  match m with
  | PDict d =>
      match PyDict.get d (U "role"), PyDict.get d (U "content") with
      | Some (PStr _), Some (PStr _) => true
      | _, _ => false
      end
  | _ => false
  end.

Definition well_formed (c : pyval) : bool :=
  match c with
  | PDict d =>
      match PyDict.get d (U "messages") with
      | Some (PList l) => forallb is_message l
      | _ => false
      end
      && valid_conversation c
  | _ => false
  end.

Definition well_formed_store (convs : PyDict.dict pyval) : bool :=
  forallb well_formed (map snd convs).

(** The widgets return what they offer: a model and a personality of
    the select boxes, a temperature of the slider. *)
Definition widgets_offered (w : widgets) : Prop :=
  In (w_selected_model w) (PyDict.keys available_models)
  /\ In (w_personality w) (PyDict.keys personalities)
  /\ (0 <= w_temperature w <= 1)%Q.

(** The uploaded file, when there is one and it parses, is a well formed
    conversation. *)
Definition upload_well_formed {runtime : Runtime} (w : widgets) : Prop :=
  match w_uploaded_file w with
  | Some file =>
      match json_load file with
      | Ok data => well_formed data = true
      | Err _ => True
      end
  | None => True
  end.

(** A session in which every run of the script goes through. *)
Definition well_formed_session (s : session) : Prop :=
  well_formed_store (conversations s) = true
  /\ active_in_store s = true
  /\ catalogue_bot s.

(** A session that holds a conversation whose title cannot be
    computed; the keys of a dictionary are distinct. *)
Definition poisoned_session (s : session) : Prop :=
  NoDup (PyDict.keys (conversations s))
  /\ poisoned_store (conversations s) = true.

(** How a run ended, and with which session. *)
Definition ended (st : step) : session * control :=
  match st with
  | Go s => (s, Returned)
  | Halt s c => (s, c)
  end.

(** A run keeps [I] and ends as [C] allows. *)
Definition step_keeps (I : session -> Prop) (C : control -> Prop) (st : step) : Prop :=
  match st with
  | Go s => I s
  | Halt s c => I s /\ C c
  end.

(** ** Scenarios

    The reference runtime and a few concrete sessions and backends, on
    which the program is run. *)

#[export] Instance reference_runtime : Runtime := {|
  exn_str := exn_text;
  json_load := Json.loads;
  json_dumps := Json.dumps
|}.

(** The session of a first run: nothing is in [st.session_state]. *)
Definition first_session : session :=
  initialize_session_state (U "conv-1") (U "2024-01-01T10:00:00")
    {| raw_conversations := None;
       raw_active_conversation := None;
       raw_chatbot := None |}.

(** The first session after "New Chat". *)
Definition two_conversations : session :=
  state (create_new_conversation (U "conv-2") (U "2024-01-01T11:00:00") first_session).

(** An iterator that gives [chunks] and then stops or raises. *)
Fixpoint chunks_then (chunks : list (option str)) (fault : option exn) : gen (option str) :=
  match chunks with
  | c :: rest => GYield c (chunks_then rest fault)
  | [] => match fault with Some e => GRaise e | None => GStop end
  end.

(** A backend that answers every request with the same stream. *)
Definition stub_backend (chunks : list (option str)) (fault : option exn) : backend :=
  fun _ => Ok (chunks_then chunks fault).

Definition stub_bot (b : backend) : ChatBot :=
  {| api_key := U "Sk-kkAI-test";
     base_url := None;
     client := b;
     models := available_models;
     system_prompts := personalities |}.

(** A backend that streams "Hel" and then loses the connection. *)
Definition faulty_backend : backend :=
  stub_backend [Some (U "Hel")] (Some (APIError (U "Connection error."))).

(** The session once the API key is entered and the chatbot built. *)
Definition with_bot (bot : ChatBot) (s : session) : session :=
  {| conversations := conversations s;
     active_conversation := active_conversation s;
     chatbot := Some bot |}.

(** The dictionary of the conversation of the first session. *)
Definition first_conversation : PyDict.dict pyval :=
  [ (U "title", PStr new_chat);
    (U "messages", PList []);
    (U "created_at", PStr (U "2024-01-01T10:00:00"));
    (U "model", PStr default_model);
    (U "personality", PStr default_personality);
    (U "temperature", PFloat default_temperature) ].

Definition assistant_prompt : str :=
  U "You are a helpful AI assistant. Provide clear, accurate, and helpful responses to user queries.".

(** A document with an identifier of its own and a key that no export
    writes. *)
Definition odd_document : pyval :=
  PDict [ (U "id", PStr (U "conv-1")); (U "surprise", PBool true) ].

(** A content of 31 characters whose 30th character is a space. *)
Definition long_content : str :=
  U "abcdefghijklmnopqrstuvwxyzabc d".

(** An exported conversation whose model, personality and temperature
    are not those of the catalogue. *)
Definition foreign_conversation : pyval :=
  PDict [ (U "title", PStr (U "Pirate talk"));
          (U "messages", PList []);
          (U "created_at", PStr (U "2023-05-05T08:00:00"));
          (U "model", PStr (U "acme/parrot-1"));
          (U "personality", PStr (U "Pirate"));
          (U "temperature", PFloat (3 # 2)) ].

(** A client factory whose clients answer every request with "Hi " and
    "there". *)
Definition stub_openai : str -> option str -> backend :=
  fun _ _ => stub_backend [Some (U "Hi "); Some (U "there")] None.

(** The chatbot that the "API Key" block builds with the key of
    [stub_bot]. *)
Definition keyed_bot : ChatBot := stub_bot (stub_openai (U "Sk-kkAI-test") None).

(** A run in which nothing is entered and nothing is pressed; the select
    boxes and the slider return one of their values. *)
Definition idle_widgets : widgets :=
  {| w_api_key := [];
     w_selected_model := U "GPT-4o";
     w_personality := U "Teacher";
     w_temperature := 1 # 2;
     w_new_chat := false;
     w_select := fun _ => false;
     w_delete := fun _ => false;
     w_uploaded_file := None;
     w_clear_all := false;
     w_user_input := [];
     w_submit := false;
     w_explain := false;
     w_debug := false;
     w_create := false;
     w_analyze := false |}.

(** A run in which "Hello" is typed and sent. *)
Definition sending_widgets : widgets :=
  {| w_api_key := U "Sk-kkAI-test";
     w_selected_model := U "GPT-4o";
     w_personality := U "Teacher";
     w_temperature := 1 # 2;
     w_new_chat := false;
     w_select := fun _ => false;
     w_delete := fun _ => false;
     w_uploaded_file := None;
     w_clear_all := false;
     w_user_input := U "Hello";
     w_submit := true;
     w_explain := false;
     w_debug := false;
     w_create := false;
     w_analyze := false |}.

(** A run in which "Explain" is pressed, and nothing else. *)
Definition explain_widgets : widgets :=
  {| w_api_key := U "Sk-kkAI-test";
     w_selected_model := U "GPT-4o";
     w_personality := U "Teacher";
     w_temperature := 1 # 2;
     w_new_chat := false;
     w_select := fun _ => false;
     w_delete := fun _ => false;
     w_uploaded_file := None;
     w_clear_all := false;
     w_user_input := [];
     w_submit := false;
     w_explain := true;
     w_debug := false;
     w_create := false;
     w_analyze := false |}.

(** A run in which the delete button of every conversation is
    pressed. *)
Definition deleting_widgets : widgets :=
  {| w_api_key := [];
     w_selected_model := U "GPT-4o";
     w_personality := U "Teacher";
     w_temperature := 1 # 2;
     w_new_chat := false;
     w_select := fun _ => false;
     w_delete := fun _ => true;
     w_uploaded_file := None;
     w_clear_all := true;
     w_user_input := [];
     w_submit := false;
     w_explain := false;
     w_debug := false;
     w_create := false;
     w_analyze := false |}.

(** The first session after the document [{}] is imported. *)
Definition locked_session : session :=
  state (import_conversation (U "conv-2") (U "{}") first_session).

(** The first session, with a chatbot, after [foreign_conversation] is
    imported. *)
Definition foreign_session : session :=
  with_bot keyed_bot
    (state (import_conversation (U "conv-2") (json_dumps foreign_conversation)
              first_session)).

(** The dictionary of [foreign_conversation]. *)
Definition foreign_dict : PyDict.dict pyval :=
  [ (U "title", PStr (U "Pirate talk"));
    (U "messages", PList []);
    (U "created_at", PStr (U "2023-05-05T08:00:00"));
    (U "model", PStr (U "acme/parrot-1"));
    (U "personality", PStr (U "Pirate"));
    (U "temperature", PFloat (3 # 2)) ].

(** A conversation that has messages and a personality, and nothing
    else. *)
Definition bare_conversation : PyDict.dict pyval :=
  [ (U "messages", PList []);
    (U "personality", PStr default_personality) ].

Definition bare_session : session :=
  {| conversations := [(U "conv-1", PDict bare_conversation)];
     active_conversation := U "conv-1";
     chatbot := Some keyed_bot |}.

(** ** Properties *)

(** *** Strings and dictionaries *)

Lemma eqb_eq (a b : str) : PyStr.eqb a b = true <-> a = b.
Proof.
  unfold PyStr.eqb. destruct (list_eq_dec N.eq_dec a b); split; congruence.
Qed.

Lemma eqb_refl (a : str) : PyStr.eqb a a = true.
Proof. now apply eqb_eq. Qed.

Lemma eqb_neq (a b : str) : PyStr.eqb a b = false <-> a <> b.
Proof.
  unfold PyStr.eqb. destruct (list_eq_dec N.eq_dec a b); split; congruence.
Qed.

Lemma eqb_sym (a b : str) : PyStr.eqb a b = PyStr.eqb b a.
Proof.
  destruct (PyStr.eqb b a) eqn:E.
  - apply eqb_eq in E. subst. apply eqb_refl.
  - apply eqb_neq in E. apply eqb_neq. congruence.
Qed.

Section DictFacts.
Context {V : Type}.
Implicit Types (d : PyDict.dict V) (k : str) (v : V).

Lemma get_setitem_same d k v : PyDict.get (PyDict.setitem d k v) k = Some v.
Proof.
  induction d as [|[k' v'] d IH]; simpl.
  - now rewrite eqb_refl.
  - destruct (PyStr.eqb k' k) eqn:E; simpl; rewrite E; auto.
Qed.

Lemma get_setitem_other d k k' v :
  k <> k' -> PyDict.get (PyDict.setitem d k v) k' = PyDict.get d k'.
Proof.
  intros Hne. induction d as [|[k0 v0] d IH]; simpl.
  - apply eqb_neq in Hne. now rewrite Hne.
  - destruct (PyStr.eqb k0 k) eqn:E; simpl.
    + apply eqb_eq in E. subst k0. apply eqb_neq in Hne. now rewrite Hne.
    + now rewrite IH.
Qed.

Lemma getitem_setitem_same d k v : PyDict.getitem (PyDict.setitem d k v) k = Ok v.
Proof. unfold PyDict.getitem. now rewrite get_setitem_same. Qed.

Lemma getitem_setitem_other d k k' v :
  k <> k' -> PyDict.getitem (PyDict.setitem d k v) k' = PyDict.getitem d k'.
Proof. intros. unfold PyDict.getitem. now rewrite get_setitem_other. Qed.

Lemma get_some_in d k v : PyDict.get d k = Some v -> In (k, v) d.
Proof.
  induction d as [|[k' v'] d IH]; simpl; [discriminate|].
  destruct (PyStr.eqb k' k) eqn:E.
  - apply eqb_eq in E. intros [= ->]. subst. now left.
  - intros H. right. auto.
Qed.

Lemma get_none_notin d k : PyDict.get d k = None <-> ~ In k (PyDict.keys d).
Proof.
  induction d as [|[k' v'] d IH]; simpl.
  - tauto.
  - destruct (PyStr.eqb k' k) eqn:E.
    + apply eqb_eq in E. subst. split; [discriminate | tauto].
    + apply eqb_neq in E. rewrite IH. tauto.
Qed.

Lemma contains_in d k : PyDict.contains d k = true <-> In k (PyDict.keys d).
Proof.
  unfold PyDict.contains. destruct (PyDict.get d k) eqn:E.
  - split; [intros _ | reflexivity].
    apply get_some_in in E. apply (in_map fst) in E. exact E.
  - apply get_none_notin in E. split; [discriminate | tauto].
Qed.

Lemma setitem_snd_in d k v x :
  In x (map snd (PyDict.setitem d k v)) -> x = v \/ In x (map snd d).
Proof.
  induction d as [|[k' v'] d IH]; simpl.
  - intros [H|[]]; auto.
  - destruct (PyStr.eqb k' k); simpl; intros [H|H]; auto.
    destruct (IH H); auto.
Qed.

Lemma setitem_in_snd d k v : In v (map snd (PyDict.setitem d k v)).
Proof.
  induction d as [|[k' v'] d IH]; simpl; [now left|].
  destruct (PyStr.eqb k' k); simpl; auto.
Qed.

Lemma keys_setitem_present d k v :
  In k (PyDict.keys d) -> PyDict.keys (PyDict.setitem d k v) = PyDict.keys d.
Proof.
  induction d as [|[k' v'] d IH]; simpl; [tauto|].
  destruct (PyStr.eqb k' k) eqn:E; simpl; [reflexivity|].
  apply eqb_neq in E. intros [H|H]; [congruence|]. now rewrite IH.
Qed.

Lemma keys_setitem_fresh d k v :
  ~ In k (PyDict.keys d) -> PyDict.setitem d k v = d ++ [(k, v)].
Proof.
  induction d as [|[k' v'] d IH]; simpl; [reflexivity|].
  intros H. destruct (PyStr.eqb k' k) eqn:E.
  - apply eqb_eq in E. tauto.
  - rewrite IH; tauto.
Qed.

Lemma length_setitem_present d k v :
  In k (PyDict.keys d) -> length (PyDict.setitem d k v) = length d.
Proof.
  intros H. rewrite <- (length_map fst), <- (length_map fst d).
  change (map fst) with (@PyDict.keys V). now rewrite keys_setitem_present.
Qed.

Lemma keys_remove d k :
  NoDup (PyDict.keys d) ->
  PyDict.keys (PyDict.remove d k) = filter (fun x => negb (PyStr.eqb x k)) (PyDict.keys d).
Proof.
  induction d as [|[k' v'] d IH]; simpl; [reflexivity|].
  intros Hnd. inversion Hnd as [|? ? Hnotin Hnd']; subst.
  destruct (PyStr.eqb k' k) eqn:E; simpl.
  - apply eqb_eq in E. subst k'.
    symmetry. apply forallb_filter_id. apply forallb_forall.
    intros x Hx. apply negb_true_iff, eqb_neq. congruence.
  - now rewrite IH.
Qed.

Lemma get_remove_other d k k' :
  k <> k' -> PyDict.get (PyDict.remove d k) k' = PyDict.get d k'.
Proof.
  intros Hne. induction d as [|[k0 v0] d IH]; simpl; [reflexivity|].
  destruct (PyStr.eqb k0 k) eqn:E; simpl.
  - apply eqb_eq in E. subst k0. apply eqb_neq in Hne. now rewrite Hne.
  - now rewrite IH.
Qed.

Lemma length_remove d k :
  PyDict.contains d k = true -> S (length (PyDict.remove d k)) = length d.
Proof.
  unfold PyDict.contains.
  induction d as [|[k0 v0] d IH]; simpl; [discriminate|].
  destruct (PyStr.eqb k0 k); simpl; auto.
Qed.

Lemma remove_absent d k : PyDict.contains d k = false -> PyDict.remove d k = d.
Proof.
  unfold PyDict.contains.
  induction d as [|[k0 v0] d IH]; simpl; [reflexivity|].
  destruct (PyStr.eqb k0 k); [discriminate|].
  intros H. now rewrite IH.
Qed.

End DictFacts.

(** *** The reference [json] reads back what it writes *)

Module JsonFacts.

Import Json.

Ltac ndm n d :=
  let q := fresh "q" in
  let r := fresh "r" in
  pose proof (N.div_mod n d ltac:(discriminate));
  pose proof (N.mod_upper_bound n d ltac:(discriminate));
  set (q := (n / d)%N) in *; set (r := (n mod d)%N) in *; clearbody q r.

Lemma digit_step_48 (a r : N) : digit_step a (48 + r)%N = (10 * a + r)%N.
Proof. unfold digit_step. lia. Qed.

Lemma read_digits_app (l rest : str) (acc : N) (cnt : nat) :
  forallb is_digit l = true ->
  match rest with [] => true | c :: _ => negb (is_digit c) end = true ->
  read_digits (l ++ rest) acc cnt
  = (fold_left digit_step l acc, (cnt + length l)%nat, rest).
Proof.
  revert acc cnt. induction l as [|c l IH]; intros acc cnt Hl Hrest; simpl.
  - rewrite Nat.add_0_r. destruct rest as [|c r]; [reflexivity|].
    simpl. apply negb_true_iff in Hrest. now rewrite Hrest.
  - simpl in Hl. apply andb_true_iff in Hl. destruct Hl as [Hc Hl].
    rewrite Hc. rewrite IH by assumption. unfold digit_step at 2.
    do 2 f_equal. lia.
Qed.

Lemma digits_of_acc (fuel : nat) (n : N) (acc : str) :
  digits_of fuel n acc = digits_of fuel n [] ++ acc.
Proof.
  revert n acc. induction fuel as [|f IH]; intros n acc; [reflexivity|].
  cbn [digits_of]. destruct (n / 10 =? 0)%N; [reflexivity|].
  rewrite IH. rewrite (IH _ [_]). now rewrite <- app_assoc.
Qed.

Lemma is_digit_of (n : N) : is_digit (48 + n mod 10)%N = true.
Proof.
  unfold is_digit. ndm n 10%N.
  apply andb_true_iff. split; apply N.leb_le; lia.
Qed.

Lemma digits_of_digits (fuel : nat) (n : N) :
  forallb is_digit (digits_of fuel n []) = true.
Proof.
  revert n. induction fuel as [|f IH]; intros n; [reflexivity|].
  cbn [digits_of]. destruct (n / 10 =? 0)%N.
  - cbn [forallb]. now rewrite is_digit_of.
  - rewrite digits_of_acc, forallb_app, IH. cbn [forallb]. now rewrite is_digit_of.
Qed.

Lemma digits_of_value (fuel : nat) (n a : N) :
  (n < 10 ^ N.of_nat fuel)%N ->
  fold_left digit_step (digits_of fuel n []) a
  = (a * 10 ^ N.of_nat (length (digits_of fuel n [])) + n)%N.
Proof.
  revert n a. induction fuel as [|f IH]; intros n a Hn.
  - simpl in *. lia.
  - cbn [digits_of]. destruct (n / 10 =? 0)%N eqn:E.
    + apply N.eqb_eq in E. cbn [fold_left length]. rewrite digit_step_48.
      change (N.of_nat 1) with 1%N. rewrite N.pow_1_r.
      ndm n 10%N. lia.
    + rewrite digits_of_acc, fold_left_app, length_app. cbn [fold_left length].
      rewrite IH.
      * rewrite digit_step_48, Nat.add_1_r, Nat2N.inj_succ, N.pow_succ_r'.
        set (p := (10 ^ N.of_nat (length (digits_of f (n / 10) [])))%N).
        clearbody p. ndm n 10%N. nia.
      * rewrite Nat2N.inj_succ, N.pow_succ_r' in Hn.
        apply N.Div0.div_lt_upper_bound. lia.
Qed.

Lemma digits_of_nonempty (fuel : nat) (n : N) :
  digits_of (S fuel) n [] <> [].
Proof.
  cbn [digits_of]. destruct (n / 10 =? 0)%N; [discriminate|].
  rewrite digits_of_acc. intros H. apply app_eq_nil in H. destruct H; discriminate.
Qed.

Lemma digits_of_head (fuel : nat) (n : N) :
  (0 < n)%N -> (n < 10 ^ N.of_nat fuel)%N ->
  exists c rest, digits_of fuel n [] = c :: rest /\ c <> 48%N /\ is_digit c = true.
Proof.
  revert n. induction fuel as [|f IH]; intros n Hpos Hn.
  - simpl in Hn. lia.
  - cbn [digits_of]. destruct (n / 10 =? 0)%N eqn:E.
    + apply N.eqb_eq in E. exists (48 + n mod 10)%N, []. split; [reflexivity|].
      split; [|apply is_digit_of].
      ndm n 10%N. lia.
    + apply N.eqb_neq in E. rewrite digits_of_acc.
      destruct (IH (n / 10)%N) as (c & rest & Hd & Hc & Hdig).
      * ndm n 10%N. lia.
      * rewrite Nat2N.inj_succ, N.pow_succ_r' in Hn.
        apply N.Div0.div_lt_upper_bound. lia.
      * rewrite Hd. simpl. now exists c, (rest ++ [(48 + n mod 10)%N]).
Qed.

Lemma size_bound (n : N) : (n < 10 ^ N.of_nat (S (N.size_nat n)))%N.
Proof.
  assert (n < 2 ^ N.of_nat (N.size_nat n))%N.
  { destruct n as [|p]; [simpl; lia|].
    simpl N.size_nat. 
    induction p; simpl Pos.size_nat; rewrite Nat2N.inj_succ, N.pow_succ_r'; lia. }
  rewrite Nat2N.inj_succ, N.pow_succ_r'.
  assert (2 ^ N.of_nat (N.size_nat n) <= 10 ^ N.of_nat (N.size_nat n))%N.
  { apply N.pow_le_mono_l. lia. }
  lia.
Qed.

Lemma delimited_not_digit (rest : str) :
  delimited rest = true ->
  match rest with [] => true | c :: _ => negb (is_digit c) end = true.
Proof.
  destruct rest as [|c r]; [reflexivity|]. simpl.
  intros H. apply orb_true_iff in H. destruct H as [H|H]; apply N.eqb_eq in H;
    subst; reflexivity.
Qed.

Lemma print_nat_digits (n : N) : forallb is_digit (print_nat n) = true.
Proof. apply digits_of_digits. Qed.

Lemma print_nat_value (n a : N) :
  fold_left digit_step (print_nat n) a
  = (a * 10 ^ N.of_nat (length (print_nat n)) + n)%N.
Proof. apply digits_of_value, size_bound. Qed.

Lemma print_nat_read (n : N) (rest : str) (cnt : nat) :
  match rest with [] => true | c :: _ => negb (is_digit c) end = true ->
  read_digits (print_nat n ++ rest) 0 cnt
  = (n, (cnt + length (print_nat n))%nat, rest).
Proof.
  intros H. rewrite read_digits_app by (auto using print_nat_digits).
  rewrite print_nat_value. do 2 f_equal.
Qed.

Lemma print_nat_zero : print_nat 0 = [48%N].
Proof. reflexivity. Qed.

Lemma print_nat_head (n : N) :
  (0 < n)%N ->
  exists c rest, print_nat n = c :: rest /\ c <> 48%N /\ is_digit c = true.
Proof. intros H. apply digits_of_head; [exact H | apply size_bound]. Qed.

Lemma is_digit_not (c : char) (x : N) :
  is_digit c = true -> (x < 48 \/ 57 < x)%N -> (c =? x)%N = false.
Proof.
  unfold is_digit. intros H Hx. apply andb_true_iff in H.
  destruct H as [H1 H2]. apply N.leb_le in H1, H2. apply N.eqb_neq. lia.
Qed.

(** The integer part of a printed number is read back. *)
Lemma read_int_part_print (n : N) (rest : str) :
  match rest with [] => true | c :: _ => negb (is_digit c) end = true ->
  read_int_part (print_nat n ++ rest) = Some (n, rest).
Proof.
  intros Hrest. destruct (N.eq_dec n 0) as [->|Hn].
  - reflexivity.
  - destruct (print_nat_head n) as (c & l & Hp & Hc & Hd); [lia|].
    pose proof (print_nat_read n rest 0 Hrest) as Hread.
    rewrite Hp in *. cbn [app read_int_part].
    apply N.eqb_neq in Hc. rewrite Hc, Hd.
    cbn [app] in Hread. now rewrite Hread.
Qed.

Lemma read_frac_part_none (rest : str) :
  delimited rest = true -> read_frac_part rest = (None, rest).
Proof.
  destruct rest as [|c r]; [reflexivity|]. simpl. intros H.
  apply orb_true_iff in H. destruct H as [H|H]; apply N.eqb_eq in H; now subst.
Qed.

Lemma read_exp_part_none (rest : str) :
  delimited rest = true -> read_exp_part rest = (None, rest).
Proof.
  destruct rest as [|c r]; [reflexivity|]. simpl. intros H.
  apply orb_true_iff in H. destruct H as [H|H]; apply N.eqb_eq in H; now subst.
Qed.

Lemma read_unsigned_int (n : N) (rest : str) (negative : bool) :
  delimited rest = true ->
  read_unsigned negative (print_nat n ++ rest)
  = Some (PInt (if negative then (- Z.of_N n)%Z else Z.of_N n), rest).
Proof.
  intros Hrest. unfold read_unsigned.
  rewrite read_int_part_print by (now apply delimited_not_digit).
  now rewrite read_frac_part_none, read_exp_part_none by exact Hrest.
Qed.

Lemma print_nat_not_minus (n : N) (rest : str) :
  read_number (print_nat n ++ rest) = read_unsigned false (print_nat n ++ rest).
Proof.
  pose proof (print_nat_digits n) as Hd.
  destruct (print_nat n) as [|c l] eqn:Hp.
  - exfalso. revert Hp. apply digits_of_nonempty.
  - cbn [app read_number]. cbn [forallb] in Hd. apply andb_true_iff in Hd.
    destruct Hd as [Hc _]. now rewrite (is_digit_not c 45%N) by (auto; lia).
Qed.

Lemma read_number_int (z : Z) (rest : str) :
  delimited rest = true ->
  read_number (print_int z ++ rest) = Some (PInt z, rest).
Proof.
  intros Hrest. unfold print_int. destruct (Z.ltb_spec z 0) as [Hneg|Hpos].
  - change (U "-" ++ print_nat (Z.abs_N z)) with (45%N :: print_nat (Z.abs_N z)).
    cbn [app read_number]. rewrite N.eqb_refl.
    rewrite read_unsigned_int by exact Hrest. do 3 f_equal. lia.
  - rewrite print_nat_not_minus, read_unsigned_int by exact Hrest.
    do 3 f_equal. lia.
Qed.

Lemma digits_of_length (fuel : nat) (n : N) :
  (0 < n)%N -> (n < 10 ^ N.of_nat fuel)%N ->
  (10 ^ N.of_nat (length (digits_of fuel n []) - 1) <= n)%N.
Proof.
  revert n. induction fuel as [|f IH]; intros n Hpos Hn.
  - change (10 ^ N.of_nat 0)%N with 1%N in Hn. lia.
  - cbn [digits_of]. destruct (n / 10 =? 0)%N eqn:E.
    + cbn [length]. change (N.of_nat (1 - 1)) with 0%N. rewrite N.pow_0_r. lia.
    + apply N.eqb_neq in E. rewrite digits_of_acc, length_app. cbn [length].
      rewrite Nat.add_sub.
      assert (Hq : (n / 10 < 10 ^ N.of_nat f)%N).
      { rewrite Nat2N.inj_succ, N.pow_succ_r' in Hn.
        apply N.Div0.div_lt_upper_bound. lia. }
      assert (Hq0 : (0 < n / 10)%N) by (apply N.neq_0_lt_0; exact E).
      specialize (IH _ Hq0 Hq).
      assert (Hl : (1 <= length (digits_of f (n / 10) []))%nat).
      { destruct f; [simpl in Hq; lia|].
        pose proof (digits_of_nonempty f (n / 10)%N).
        destruct (digits_of (S f) (n / 10) []); [congruence | simpl; lia]. }
      replace (N.of_nat (length (digits_of f (n / 10) [])))
        with (N.succ (N.of_nat (length (digits_of f (n / 10) []) - 1))) by lia.
      rewrite N.pow_succ_r'.
      set (p := (10 ^ N.of_nat (length (digits_of f (n / 10) []) - 1))%N) in *.
      clearbody p. ndm n 10%N. lia.
Qed.

Lemma print_nat_length (n : N) (k : nat) :
  (1 <= k)%nat -> (n < 10 ^ N.of_nat k)%N -> (length (print_nat n) <= k)%nat.
Proof.
  intros Hk Hn. destruct (N.eq_dec n 0) as [->|Hz]; [simpl; lia|].
  pose proof (digits_of_length (S (N.size_nat n)) n ltac:(lia) (size_bound n)) as Hlow.
  fold (print_nat n) in Hlow.
  assert (H : (10 ^ N.of_nat (length (print_nat n) - 1) < 10 ^ N.of_nat k)%N) by lia.
  apply N.pow_lt_mono_r_iff in H; lia.
Qed.

Lemma fold_zeros (m : nat) (l : str) :
  fold_left digit_step (repeat 48%N m ++ l) 0%N = fold_left digit_step l 0%N.
Proof. induction m as [|m IH]; [reflexivity|]. exact IH. Qed.

Lemma forallb_repeat {A : Type} (f : A -> bool) (x : A) (m : nat) :
  f x = true -> forallb f (repeat x m) = true.
Proof. intros H. induction m; simpl; [reflexivity|]. now rewrite H. Qed.

Lemma frac_digits_read (k fr : N) (rest : str) :
  (fr < 10 ^ k)%N -> delimited rest = true ->
  exists count,
    read_digits (frac_digits k fr ++ rest) 0 0 = (if (k =? 0)%N then 0%N else fr, S count, rest)
    /\ S count = if (k =? 0)%N then 1%nat else N.to_nat k.
Proof.
  intros Hfr Hrest. pose proof (delimited_not_digit rest Hrest) as Hnd.
  unfold frac_digits. destruct (N.eqb_spec k 0) as [->|Hk].
  - exists O. split; [|reflexivity].
    change (U "0") with (print_nat 0). now rewrite print_nat_read.
  - assert (Hlen : (length (print_nat fr) <= N.to_nat k)%nat).
    { apply print_nat_length; [lia|]. now rewrite N2Nat.id. }
    exists (N.to_nat k - 1)%nat. split; [|lia].
    rewrite read_digits_app; [|rewrite forallb_app, forallb_repeat, print_nat_digits;
                                 reflexivity | exact Hnd].
    rewrite fold_zeros, print_nat_value, length_app, repeat_length.
    rewrite N.mul_0_l, N.add_0_l. do 2 f_equal.
    unfold char in *. lia.
Qed.

Lemma float_arith (num : Z) (d : positive) (k : N) :
  ((10 ^ k) mod Npos d = 0)%N ->
  (Z.of_N (Z.abs_N num * 10 ^ k / Npos d) * Zpos d = Z.abs num * 10 ^ Z.of_N k)%Z.
Proof.
  intros Hmod.
  assert (Hd : (10 ^ k = Npos d * (10 ^ k / Npos d))%N).
  { apply N.Div0.div_exact. exact Hmod. }
  set (t := (10 ^ k / Npos d)%N) in *.
  assert (Hs : (Z.abs_N num * 10 ^ k / Npos d = Z.abs_N num * t)%N).
  { rewrite Hd. rewrite (N.mul_comm (Npos d) t), N.mul_assoc.
    apply N.div_mul. discriminate. }
  rewrite Hs.
  replace (10 ^ Z.of_N k)%Z with (Z.of_N (10 ^ k)) by (now rewrite N2Z.inj_pow).
  rewrite Hd. rewrite !N2Z.inj_mul, N2Z.inj_abs_N.
  change (Z.of_N (N.pos d)) with (Z.pos d). ring.
Qed.

Lemma float_exact_reduced (q : Q) : float_exact q = true -> Qred q = q.
Proof.
  unfold float_exact. intros H. apply andb_true_iff in H. destruct H as [H Hd].
  apply andb_true_iff in H. destruct H as [_ Hn].
  apply Z.eqb_eq in Hn. apply Pos.eqb_eq in Hd.
  destruct (Qred q) as [n d], q as [n' d']. simpl in *. now subst.
Qed.

Lemma scale10_exact (q : Q) (m : Z) (c : nat) :
  (0 < c)%nat ->
  (m * Zpos (Qden q) = Qnum q * 10 ^ Z.of_nat c)%Z ->
  Qred q = q ->
  scale10 m (0 - Z.of_nat c) = q.
Proof.
  intros Hc Hm Hq. unfold scale10.
  destruct (Z.leb_spec 0 (0 - Z.of_nat c)) as [H|H]; [lia|].
  rewrite <- Hq. apply Qred_complete. unfold Qeq. cbn [Qnum Qden].
  replace (- (0 - Z.of_nat c))%Z with (Z.of_nat c) by lia.
  rewrite Z2Pos.id by (apply Z.pow_pos_nonneg; lia). exact Hm.
Qed.

Lemma print_float_shape (q : Q) :
  let d := Npos (Qden q) in
  let k := decimal_scale (N.size_nat d) 0 d in
  let scaled := (Z.abs_N (Qnum q) * 10 ^ k / d)%N in
  print_float q
  = (if (Qnum q <? 0)%Z then U "-" else [])
      ++ print_nat (scaled / 10 ^ k)%N ++ 46%N :: frac_digits k (scaled mod 10 ^ k)%N.
Proof.
  unfold print_float, frac_digits. cbv zeta.
  destruct (decimal_scale _ 0 _ =? 0)%N; reflexivity.
Qed.

Lemma read_unsigned_float (w k fr : N) (rest : str) (negative : bool) :
  (fr < 10 ^ k)%N -> delimited rest = true ->
  read_unsigned negative (print_nat w ++ 46%N :: frac_digits k fr ++ rest)
  = let count := if (k =? 0)%N then 1%nat else N.to_nat k in
    let f := if (k =? 0)%N then 0%N else fr in
    let m := Z.of_N (w * 10 ^ N.of_nat count + f) in
    Some (PFloat (scale10 (if negative then (- m)%Z else m) (0 - Z.of_nat count)), rest).
Proof.
  intros Hfr Hrest. unfold read_unsigned.
  rewrite read_int_part_print by reflexivity.
  destruct (frac_digits_read k fr rest Hfr Hrest) as (count & Hread & Hcount).
  cbn [read_frac_part]. change (46 =? 46)%N with true. cbv iota.
  rewrite Hread. rewrite read_exp_part_none by exact Hrest.
  cbv zeta. rewrite Hcount. reflexivity.
Qed.

Lemma read_number_float (q : Q) (rest : str) :
  float_exact q = true -> delimited rest = true ->
  read_number (print_float q ++ rest) = Some (PFloat q, rest).
Proof.
  intros Hq Hrest. pose proof (float_exact_reduced q Hq) as Hred.
  unfold float_exact in Hq. apply andb_true_iff in Hq. destruct Hq as [Hq _].
  apply andb_true_iff in Hq. destruct Hq as [Hmod _]. apply N.eqb_eq in Hmod.
  cbv zeta in Hmod. rewrite print_float_shape. cbv zeta.
  set (d := Qden q) in *.
  set (k := decimal_scale (N.size_nat (Npos d)) 0 (Npos d)) in *.
  pose proof (float_arith (Qnum q) d k Hmod) as Harith.
  set (scaled := (Z.abs_N (Qnum q) * 10 ^ k / Npos d)%N) in *.
  assert (Hpow : (10 ^ k <> 0)%N) by (apply N.pow_nonzero; discriminate).
  pose proof (N.div_mod scaled (10 ^ k) Hpow) as Hdm.
  pose proof (N.mod_upper_bound scaled (10 ^ k) Hpow) as Hfr.
  set (w := (scaled / 10 ^ k)%N) in *. set (fr := (scaled mod 10 ^ k)%N) in *.
  assert (Hvalue : forall negative : bool,
            negative = (Qnum q <? 0)%Z ->
            let count := if (k =? 0)%N then 1%nat else N.to_nat k in
            let f := if (k =? 0)%N then 0%N else fr in
            let m := Z.of_N (w * 10 ^ N.of_nat count + f) in
            scale10 (if negative then (- m)%Z else m) (0 - Z.of_nat count) = q).
  { intros negative Hneg count f m. apply scale10_exact; [| |exact Hred].
    - unfold count. destruct (N.eqb_spec k 0); lia.
    - assert (Hm : (m * Zpos d = Z.abs (Qnum q) * 10 ^ Z.of_nat count)%Z).
      { unfold m, count, f. destruct (N.eqb_spec k 0) as [Hk|Hk].
        - rewrite Hk in *. change (10 ^ 0)%N with 1%N in *.
          change (10 ^ Z.of_N 0)%Z with 1%Z in Harith.
          change (N.of_nat 1) with 1%N. change (Z.of_nat 1) with 1%Z.
          rewrite N.pow_1_r, Z.pow_1_r.
          assert (w = scaled) by lia. lia.
        - rewrite N2Nat.id. rewrite N_nat_Z.
          rewrite <- Harith. do 2 f_equal.
          symmetry. rewrite (N.mul_comm w). exact Hdm. }
      change (Zpos (Qden q)) with (Zpos d).
      subst negative. destruct (Z.ltb_spec (Qnum q) 0) as [Hn|Hn]; cbv iota.
      + rewrite Z.mul_opp_l, Hm. rewrite (Z.abs_neq (Qnum q)) by lia. ring.
      + rewrite Hm. rewrite (Z.abs_eq (Qnum q)) by lia. reflexivity. }
  destruct (Qnum q <? 0)%Z eqn:Hneg.
  - change (U "-" ++ print_nat w ++ 46%N :: frac_digits k fr)
      with (45%N :: print_nat w ++ 46%N :: frac_digits k fr).
    cbn [app read_number]. rewrite N.eqb_refl. rewrite <- app_assoc. cbn [app].
    etransitivity; [apply (read_unsigned_float w k fr rest true Hfr Hrest)|].
    cbv zeta. now rewrite (Hvalue true).
  - cbn [app]. rewrite <- app_assoc. cbn [app]. rewrite print_nat_not_minus.
    etransitivity; [apply (read_unsigned_float w k fr rest false Hfr Hrest)|].
    cbv zeta. now rewrite (Hvalue false).
Qed.

Ltac dlia := zify; Z.to_euclidean_division_equations; lia.

Lemma hex_value_digit (n : N) : (n < 16)%N -> hex_value (hex_digit n) = Some n.
Proof.
  intros H. destruct n as [|p]; [reflexivity|].
  do 4 (destruct p as [p|p|]; try reflexivity); exfalso; lia.
Qed.

Lemma read_hex4_unit (c : N) (tail : str) :
  (c < 65536)%N ->
  read_hex4 ([ hex_digit (c / 4096); hex_digit (c / 256 mod 16);
               hex_digit (c / 16 mod 16); hex_digit (c mod 16) ]%N ++ tail)
  = Some (c, tail).
Proof.
  intros H. cbn [app read_hex4].
  rewrite !hex_value_digit by dlia. do 2 f_equal. dlia.
Qed.

Lemma escape_unit_shape (c : N) :
  escape_unit c
  = 92%N :: 117%N :: [ hex_digit (c / 4096); hex_digit (c / 256 mod 16);
                       hex_digit (c / 16 mod 16); hex_digit (c mod 16) ]%N.
Proof. reflexivity. Qed.

Lemma read_escape_scalar (c : N) (tail : str) :
  (c < 65536)%N -> scalar c = true ->
  read_unicode_escape ([ hex_digit (c / 4096); hex_digit (c / 256 mod 16);
                         hex_digit (c / 16 mod 16); hex_digit (c mod 16) ]%N ++ tail)
  = Some (c, tail).
Proof.
  intros H Hs. unfold read_unicode_escape. rewrite read_hex4_unit by exact H.
  unfold scalar in Hs.
  destruct ((55296 <=? c) && (c <=? 56319))%N eqn:E; [|reflexivity].
  exfalso. apply andb_true_iff in E. destruct E as [E1 E2].
  apply N.leb_le in E1, E2. apply orb_true_iff in Hs.
  destruct Hs as [Hs|Hs].
  - apply N.ltb_lt in Hs. lia.
  - apply andb_true_iff in Hs. destruct Hs as [Hs _]. apply N.ltb_lt in Hs. lia.
Qed.

Lemma read_escape_pair (c : N) (tail : str) :
  (65536 <= c)%N -> (c < 1114112)%N ->
  let v := (c - 65536)%N in
  let hi := (55296 + v / 1024)%N in
  let lo := (56320 + v mod 1024)%N in
  read_unicode_escape
    ([ hex_digit (hi / 4096); hex_digit (hi / 256 mod 16);
       hex_digit (hi / 16 mod 16); hex_digit (hi mod 16) ]%N
       ++ escape_unit lo ++ tail)
  = Some (c, tail).
Proof.
  intros H1 H2 v hi lo. unfold read_unicode_escape.
  assert (Hhi : (55296 <= hi <= 56319)%N) by (unfold hi, v; dlia).
  assert (Hlo : (56320 <= lo <= 57343)%N) by (unfold lo, v; dlia).
  rewrite read_hex4_unit by lia.
  replace ((55296 <=? hi) && (hi <=? 56319))%N with true
    by (symmetry; apply andb_true_iff; split; apply N.leb_le; lia).
  rewrite escape_unit_shape. cbn [app]. cbv iota beta.
  match goal with
  | |- context [read_hex4 ?s] =>
      replace (read_hex4 s) with (Some (lo, tail))
        by (symmetry; apply (read_hex4_unit lo tail); lia)
  end.
  replace ((56320 <=? lo) && (lo <=? 57343))%N with true
    by (symmetry; apply andb_true_iff; split; apply N.leb_le; lia).
  do 2 f_equal. unfold hi, lo, v. dlia.
Qed.

Lemma read_string_plain (f : nat) (c : char) (tail : str) :
  c <> 34%N -> c <> 92%N -> (32 <= c)%N ->
  read_string (S f) (c :: tail)
  = match read_string f tail with
    | Some (l, r) => Some (c :: l, r)
    | None => None
    end.
Proof.
  intros H1 H2 H3. cbn [read_string]. unfold quote.
  apply N.eqb_neq in H1, H2. rewrite H1, H2.
  destruct (N.ltb_spec c 32); [lia | reflexivity].
Qed.

Lemma read_string_escape (f : nat) (e x : char) (tail : str) :
  In (e, x) [ (34, 34); (92, 92); (47, 47); (98, 8); (102, 12);
              (110, 10); (114, 13); (116, 9) ]%N ->
  read_string (S f) (92%N :: e :: tail)
  = match read_string f tail with
    | Some (l, r) => Some (x :: l, r)
    | None => None
    end.
Proof.
  intros H. repeat (destruct H as [[= <- <-]|H]; [reflexivity|]). destruct H.
Qed.

Lemma read_string_unicode (f : nat) (tail : str) :
  read_string (S f) (92%N :: 117%N :: tail)
  = match read_unicode_escape tail with
    | Some (x, rest) =>
        match read_string f rest with
        | Some (l, r) => Some (x :: l, r)
        | None => None
        end
    | None => None
    end.
Proof. reflexivity. Qed.

Lemma scalar_bound (c : char) : scalar c = true -> (c < 1114112)%N.
Proof.
  unfold scalar. intros H. apply orb_true_iff in H. destruct H as [H|H].
  - apply N.ltb_lt in H. lia.
  - apply andb_true_iff in H. destruct H as [_ H]. now apply N.ltb_lt in H.
Qed.

(** One character, escaped, is read back. *)
Lemma read_string_char (f : nat) (c : char) (tail : str) :
  scalar c = true ->
  read_string (S f) (escape_char c ++ tail)
  = match read_string f tail with
    | Some (l, r) => Some (c :: l, r)
    | None => None
    end.
Proof.
  intros Hs. unfold escape_char.
  destruct (N.eqb_spec c 34) as [->|H34];
    [apply (read_string_escape f 34%N 34%N); simpl; tauto|].
  destruct (N.eqb_spec c 92) as [->|H92];
    [apply (read_string_escape f 92%N 92%N); simpl; tauto|].
  destruct (N.eqb_spec c 10) as [->|H10];
    [apply (read_string_escape f 110%N 10%N); simpl; tauto|].
  destruct (N.eqb_spec c 13) as [->|H13];
    [apply (read_string_escape f 114%N 13%N); simpl; tauto|].
  destruct (N.eqb_spec c 9) as [->|H9];
    [apply (read_string_escape f 116%N 9%N); simpl; tauto|].
  destruct (N.eqb_spec c 8) as [->|H8];
    [apply (read_string_escape f 98%N 8%N); simpl; tauto|].
  destruct (N.eqb_spec c 12) as [->|H12];
    [apply (read_string_escape f 102%N 12%N); simpl; tauto|].
  destruct ((32 <=? c) && (c <=? 126))%N eqn:Hp.
  - apply andb_true_iff in Hp. destruct Hp as [Hp _]. apply N.leb_le in Hp.
    now apply read_string_plain.
  - destruct (N.ltb_spec c 65536) as [Hlt|Hge].
    + rewrite escape_unit_shape. cbn [app].
      rewrite read_string_unicode.
      pose proof (read_escape_scalar c tail Hlt Hs) as H. cbn [app] in H.
      now rewrite H.
    + rewrite (escape_unit_shape (55296 + (c - 65536) / 1024)).
      rewrite <- app_assoc. cbn [app]. rewrite read_string_unicode.
      pose proof (read_escape_pair c tail Hge (scalar_bound c Hs)) as H.
      cbv zeta in H. cbn [app] in H. now rewrite H.
Qed.

Lemma read_string_print (s rest : str) (fuel : nat) :
  forallb scalar s = true -> (length s < fuel)%nat ->
  read_string fuel (flat_map escape_char s ++ quote :: rest) = Some (s, rest).
Proof.
  revert fuel. induction s as [|c s IH]; intros fuel Hs Hf.
  - destruct fuel as [|f]; [simpl in Hf; lia|]. reflexivity.
  - destruct fuel as [|f]; [simpl in Hf; lia|].
    cbn [forallb] in Hs. apply andb_true_iff in Hs. destruct Hs as [Hc Hs].
    cbn [flat_map]. rewrite <- app_assoc.
    rewrite read_string_char by exact Hc.
    rewrite IH; [reflexivity | exact Hs | simpl in Hf; lia].
Qed.

Lemma escape_char_nonempty (c : char) : (1 <= length (escape_char c))%nat.
Proof.
  unfold escape_char.
  repeat match goal with
         | |- context [if ?b then _ else _] => destruct b
         end; simpl; lia.
Qed.

Lemma escaped_length (s : str) : (length s <= length (flat_map escape_char s))%nat.
Proof.
  induction s as [|c s IH]; [simpl; lia|].
  cbn [flat_map]. rewrite length_app. pose proof (escape_char_nonempty c).
  simpl. lia.
Qed.

Lemma skip_ws_indent (level : nat) (s : str) :
  skip_ws (newline_indent level ++ s) = skip_ws s.
Proof.
  unfold newline_indent. cbn [app skip_ws]. change (is_ws 10) with true. cbv iota.
  induction (2 * level)%nat as [|m IH]; [reflexivity|]. exact IH.
Qed.

Lemma skip_ws_head (s : str) :
  match s with [] => true | c :: _ => negb (is_ws c) end = true ->
  skip_ws s = s.
Proof.
  destruct s as [|c r]; [reflexivity|]. simpl. intros H.
  apply negb_true_iff in H. now rewrite H.
Qed.

Lemma opens_value_facts (c : char) :
  opens_value c = true ->
  is_ws c = false /\ (c =? 93)%N = false /\ (c =? 125)%N = false
  /\ (c =? 44)%N = false /\ (c =? 58)%N = false.
Proof.
  unfold opens_value, is_ws, is_digit. intros H.
  repeat (apply orb_true_iff in H; destruct H as [H|H]);
    try (apply N.eqb_eq in H; subst; repeat split; reflexivity).
  apply andb_true_iff in H. destruct H as [H1 H2]. apply N.leb_le in H1, H2.
  assert (E : forall x, (x < 48 \/ 57 < x)%N -> (c =? x)%N = false)
    by (intros; apply N.eqb_neq; lia).
  rewrite !E by lia. repeat split; reflexivity.
Qed.

Lemma print_nat_opens (n : N) :
  exists c r, print_nat n = c :: r /\ is_digit c = true.
Proof.
  pose proof (print_nat_digits n) as Hd.
  destruct (print_nat n) as [|c l] eqn:Hp.
  - exfalso. revert Hp. apply digits_of_nonempty.
  - cbn [forallb] in Hd. apply andb_true_iff in Hd. destruct Hd as [Hc _].
    now exists c, l.
Qed.

Lemma print_value_opens (level : nat) (v : pyval) :
  exists c r, print_value level v = c :: r /\ opens_value c = true.
Proof.
  destruct v as [|[|]|z|q|s|[|x l]|[|kv d]];
    try (eexists _, _; split; [reflexivity | reflexivity]).
  - cbn [print_value]. unfold print_int. destruct (z <? 0)%Z.
    + eexists _, _. split; reflexivity.
    + destruct (print_nat_opens (Z.abs_N z)) as (c & r & -> & Hc).
      exists c, r. split; [reflexivity|]. unfold opens_value. rewrite Hc.
      now rewrite !orb_true_r.
  - cbn [print_value]. rewrite print_float_shape. cbv zeta.
    destruct (Qnum q <? 0)%Z.
    + eexists _, _. split; reflexivity.
    + cbn [app].
      match goal with
      | |- context [print_nat ?n] =>
          destruct (print_nat_opens n) as (c & r & -> & Hc)
      end.
      eexists c, _. split; [reflexivity|]. unfold opens_value. rewrite Hc.
      now rewrite !orb_true_r.
Qed.

Lemma skip_ws_print (level : nat) (v : pyval) (rest : str) :
  skip_ws (print_value level v ++ rest) = print_value level v ++ rest.
Proof.
  destruct (print_value_opens level v) as (c & r & -> & Hc).
  apply opens_value_facts in Hc. destruct Hc as (Hws & _).
  cbn [app skip_ws]. now rewrite Hws.
Qed.

Lemma head_is_print (level : nat) (v : pyval) (rest : str) (c : char) :
  (c = 93 \/ c = 125 \/ c = 44 \/ c = 58)%N ->
  head_is c (print_value level v ++ rest) = false.
Proof.
  destruct (print_value_opens level v) as (c' & r & -> & Hc).
  apply opens_value_facts in Hc. destruct Hc as (_ & H1 & H2 & H3 & H4).
  cbn [app head_is]. intros [->|[->|[->| ->]]]; assumption.
Qed.

Lemma join_items_one (level : nat) (x : str) :
  join_items level [x] = newline_indent level ++ x.
Proof. reflexivity. Qed.

Lemma join_items_more (level : nat) (x y : str) (l : list str) :
  join_items level (x :: y :: l)
  = newline_indent level ++ x ++ 44%N :: join_items level (y :: l).
Proof. reflexivity. Qed.

Lemma delimited_indent (level : nat) (s : str) :
  delimited (newline_indent level ++ s) = true.
Proof. reflexivity. Qed.

(** The items of an array are read back. *)
Lemma read_items_join (read : str -> option (pyval * str)) (inner outer : nat)
    (l : list pyval) (n : nat) (rest : str) :
  l <> [] -> (length l <= n)%nat ->
  (forall x r, In x l -> delimited r = true ->
               read (print_value inner x ++ r) = Some (x, r)) ->
  read_items read n
    (skip_ws (join_items inner (map (print_value inner) l)
                ++ newline_indent outer ++ 93%N :: rest))
  = Some (l, rest).
Proof.
  revert n. induction l as [|x l IH]; intros n Hne Hn Hread; [congruence|].
  destruct n as [|n']; [simpl in Hn; lia|].
  destruct l as [|y l].
  - cbn [map]. rewrite join_items_one, <- app_assoc, skip_ws_indent, skip_ws_print.
    cbn [read_items]. rewrite Hread by (simpl; auto using delimited_indent).
    cbv zeta. rewrite skip_ws_indent. reflexivity.
  - cbn [map]. rewrite join_items_more, <- app_assoc, skip_ws_indent.
    rewrite <- app_assoc, skip_ws_print. cbn [app].
    cbn [read_items]. rewrite Hread by (simpl; auto).
    cbv zeta. cbn [skip_ws]. change (is_ws 44) with false. cbv iota.
    cbn [head_is tl]. rewrite N.eqb_refl.
    change (map (print_value inner) (y :: l))
      with (print_value inner y :: map (print_value inner) l) in IH.
    rewrite IH; [reflexivity | discriminate | simpl in *; lia |].
    intros x' r Hin. apply Hread. now right.
Qed.

Lemma print_string_shape (k rest : str) :
  print_string k ++ rest = quote :: (flat_map escape_char k ++ quote :: rest).
Proof. unfold print_string. cbn [app]. now rewrite <- app_assoc. Qed.

(** One member of an object is read; what follows decides. *)
Lemma read_members_step (read : str -> option (pyval * str)) (n : nat)
    (k : str) (v : pyval) (inner : nat) (rest : str) :
  forallb scalar k = true ->
  read (print_value inner v ++ rest) = Some (v, rest) ->
  read_members read (S n)
    (print_string k ++ U ": " ++ print_value inner v ++ rest)
  = if head_is 44 (skip_ws rest) then
      match read_members read n (skip_ws (tl (skip_ws rest))) with
      | Some (l, r) => Some ((k, v) :: l, r)
      | None => None
      end
    else if head_is 125 (skip_ws rest) then Some ([(k, v)], tl (skip_ws rest))
    else None.
Proof.
  intros Hk Hread. rewrite print_string_shape.
  cbn [read_members head_is tl]. rewrite N.eqb_refl.
  rewrite read_string_print.
  - change (U ": " ++ print_value inner v ++ rest)
      with (58%N :: 32%N :: print_value inner v ++ rest).
    cbv zeta. cbn [skip_ws]. change (is_ws 58) with false. cbv iota.
    cbn [head_is tl]. rewrite N.eqb_refl.
    cbn [skip_ws]. change (is_ws 32) with true. cbv iota.
    rewrite skip_ws_print, Hread. reflexivity.
  - exact Hk.
  - rewrite length_app. pose proof (escaped_length k). simpl. lia.
Qed.

(** The members of an object are read back. *)
Lemma read_members_join (read : str -> option (pyval * str)) (inner outer : nat)
    (d : list (str * pyval)) (n : nat) (rest : str) :
  d <> [] -> (length d <= n)%nat ->
  (forall k v r, In (k, v) d -> delimited r = true ->
                 read (print_value inner v ++ r) = Some (v, r)) ->
  (forall k v, In (k, v) d -> forallb scalar k = true) ->
  read_members read n
    (skip_ws (join_items inner
                (map (fun kv => print_string (fst kv) ++ U ": "
                                ++ print_value inner (snd kv)) d)
                ++ newline_indent outer ++ 125%N :: rest))
  = Some (d, rest).
Proof.
  revert n. induction d as [|[k v] d IH]; intros n Hne Hn Hread Hkeys; [congruence|].
  destruct n as [|n']; [simpl in Hn; lia|].
  assert (Hskip : forall tail,
            skip_ws (print_string k ++ tail) = print_string k ++ tail).
  { intros tail. now rewrite print_string_shape. }
  destruct d as [|[k' v'] d].
  - cbn [map fst snd]. rewrite join_items_one, <- app_assoc, skip_ws_indent.
    rewrite <- !app_assoc, Hskip.
    rewrite read_members_step;
      [| apply (Hkeys k v); now left
       | apply (Hread k); [now left | apply delimited_indent] ].
    rewrite skip_ws_indent. reflexivity.
  - cbn [map fst snd]. rewrite join_items_more, <- app_assoc, skip_ws_indent.
    rewrite <- !app_assoc, Hskip. cbn [app].
    rewrite read_members_step;
      [| apply (Hkeys k v); now left
       | apply (Hread k); [now left | reflexivity] ].
    cbn [skip_ws]. change (is_ws 44) with false. cbv iota.
    cbn [head_is tl]. rewrite N.eqb_refl.
    cbn [map fst snd] in IH.
    rewrite IH; [reflexivity | discriminate | simpl in *; lia | |].
    + intros k0 v0 r Hin. apply (Hread k0). now right.
    + intros k0 v0 Hin. apply (Hkeys k0 v0). now right.
Qed.

Lemma existsb_eqb_in (k : str) (l : list str) :
  existsb (PyStr.eqb k) l = true <-> In k l.
Proof.
  rewrite existsb_exists. split.
  - intros (x & Hx & E). apply eqb_eq in E. now subst.
  - intros H. exists k. split; [exact H | apply eqb_refl].
Qed.

Lemma distinct_nodup (l : list str) : distinct l = true -> NoDup l.
Proof.
  induction l as [|k l IH]; intros H; [constructor|].
  cbn [distinct] in H. apply andb_true_iff in H. destruct H as [Hk Hl].
  constructor; [|auto].
  intros Hin. apply existsb_eqb_in in Hin. rewrite Hin in Hk. discriminate.
Qed.

Lemma fold_setitem_fresh (pairs acc : PyDict.dict pyval) :
  NoDup (PyDict.keys acc ++ PyDict.keys pairs) ->
  fold_left (fun a kv => PyDict.setitem a (fst kv) (snd kv)) pairs acc
  = acc ++ pairs.
Proof.
  revert acc. induction pairs as [|[k v] pairs IH]; intros acc Hnd.
  - now rewrite app_nil_r.
  - cbn [fold_left fst snd].
    assert (Hfresh : ~ In k (PyDict.keys acc)).
    { cbn [PyDict.keys map fst] in Hnd. apply NoDup_remove_2 in Hnd.
      intros Hin. apply Hnd. apply in_or_app. now left. }
    rewrite (keys_setitem_fresh acc k v Hfresh).
    rewrite IH.
    + now rewrite <- app_assoc.
    + unfold PyDict.keys in *. rewrite map_app, <- app_assoc. exact Hnd.
Qed.

Lemma dict_of_pairs_distinct (d : PyDict.dict pyval) :
  distinct (map fst d) = true -> dict_of_pairs d = d.
Proof.
  intros H. unfold dict_of_pairs. rewrite fold_setitem_fresh; [reflexivity|].
  apply distinct_nodup. exact H.
Qed.

Lemma read_value_number (f : nat) (s : str) :
  match s with
  | c :: _ => ((c =? 45) || is_digit c)%N
  | [] => false
  end = true ->
  read_value (S f) s = read_number s.
Proof.
  destruct s as [|c r]; [discriminate|]. intros H.
  assert (E : forall x, (x <> 45 /\ (x < 48 \/ 57 < x))%N -> (c =? x)%N = false).
  { intros x [Hx1 Hx2]. apply orb_true_iff in H. destruct H as [H|H].
    - apply N.eqb_eq in H. subst. apply N.eqb_neq. congruence.
    - now apply is_digit_not. }
  cbn [read_value head_is]. unfold quote. rewrite !E by lia. reflexivity.
Qed.

Lemma print_int_head (z : Z) (rest : str) :
  match print_int z ++ rest with
  | c :: _ => ((c =? 45) || is_digit c)%N
  | [] => false
  end = true.
Proof.
  unfold print_int. destruct (z <? 0)%Z; [reflexivity|].
  destruct (print_nat_opens (Z.abs_N z)) as (c & r & -> & Hc).
  cbn [app]. rewrite Hc. apply orb_true_r.
Qed.

Lemma print_float_head (q : Q) (rest : str) :
  match print_float q ++ rest with
  | c :: _ => ((c =? 45) || is_digit c)%N
  | [] => false
  end = true.
Proof.
  rewrite print_float_shape. cbv zeta. destruct (Qnum q <? 0)%Z; [reflexivity|].
  cbn [app].
  match goal with
  | |- context [print_nat ?n] => destruct (print_nat_opens n) as (c & r & -> & Hc)
  end.
  cbn [app]. rewrite Hc. apply orb_true_r.
Qed.

Lemma depth_item (l : list pyval) (x : pyval) :
  In x l -> (depth x <= fold_right (fun y acc => Nat.max (depth y) acc) O l)%nat.
Proof.
  induction l as [|y l IH]; [intros []|]. cbn [fold_right].
  intros [->|H]; [lia|]. specialize (IH H). lia.
Qed.

Lemma depth_member (d : list (str * pyval)) (k : str) (v : pyval) :
  In (k, v) d ->
  (depth v <= fold_right (fun kv acc => Nat.max (depth (snd kv)) acc) O d)%nat.
Proof.
  induction d as [|y d IH]; [intros []|]. cbn [fold_right].
  intros [->|H]; [simpl; lia|]. specialize (IH H). lia.
Qed.

Lemma join_items_length (level : nat) (l : list str) :
  (forall x, In x l -> (1 <= length x)%nat) ->
  (length l <= length (join_items level l))%nat.
Proof.
  induction l as [|x l IH]; intros H; [simpl; lia|].
  destruct l as [|y l].
  - rewrite join_items_one, length_app. simpl. lia.
  - rewrite join_items_more, !length_app.
    assert (length (y :: l) <= length (join_items level (y :: l)))%nat
      by (apply IH; intros; apply H; now right).
    cbn [length] in *. lia.
Qed.

(** The text after an opening bracket, once its leading whitespace is
    skipped: it holds at least one character per item and does not
    start with a closing bracket. *)
Lemma skip_join (level : nat) (items : list str) (tail : str) :
  items <> [] ->
  (forall x, In x items ->
     exists c r, x = c :: r /\ is_ws c = false
                 /\ (c =? 93)%N = false /\ (c =? 125)%N = false) ->
  (length items <= length (skip_ws (join_items level items ++ tail)))%nat
  /\ head_is 93 (skip_ws (join_items level items ++ tail)) = false
  /\ head_is 125 (skip_ws (join_items level items ++ tail)) = false.
Proof.
  intros Hne Hitems. destruct items as [|x l]; [congruence|].
  destruct (Hitems x (or_introl eq_refl)) as (c & r & -> & Hws & H93 & H125).
  assert (Hlen : (length l <= length (join_items level l))%nat).
  { apply join_items_length. intros y Hy.
    destruct (Hitems y (or_intror Hy)) as (c' & r' & -> & _). simpl. lia. }
  destruct l as [|y l].
  - rewrite join_items_one, <- app_assoc, skip_ws_indent.
    cbn [app skip_ws]. rewrite Hws. cbn [head_is length].
    repeat split; auto. lia.
  - rewrite join_items_more, <- app_assoc, skip_ws_indent.
    cbn [app skip_ws]. rewrite Hws. cbn [head_is].
    repeat split; auto.
    cbn [length]. rewrite !length_app. cbn [length] in *.
    unfold char in *. lia.
Qed.

Lemma print_value_item (level : nat) (v : pyval) :
  exists c r, print_value level v = c :: r /\ is_ws c = false
              /\ (c =? 93)%N = false /\ (c =? 125)%N = false.
Proof.
  destruct (print_value_opens level v) as (c & r & E & Hc).
  apply opens_value_facts in Hc. destruct Hc as (H1 & H2 & H3 & _).
  now exists c, r.
Qed.

(** A printed value is read back, with what follows it. *)
Theorem read_value_print (fuel : nat) :
  forall (v : pyval) (level : nat) (rest : str),
    canonical v = true -> (depth v <= fuel)%nat -> delimited rest = true ->
    read_value fuel (print_value level v ++ rest) = Some (v, rest).
Proof.
  induction fuel as [|f IH]; intros v level rest Hv Hd Hrest.
  - destruct v; simpl in Hd; lia.
  - destruct v as [|[|]|z|q|s|l|d]; try reflexivity.
    + cbn [print_value]. rewrite read_value_number by apply print_int_head.
      now apply read_number_int.
    + cbn [print_value]. rewrite read_value_number by apply print_float_head.
      apply read_number_float; assumption.
    + cbn [print_value]. rewrite print_string_shape.
      cbn [read_value head_is tl]. rewrite N.eqb_refl.
      rewrite read_string_print; [reflexivity | exact Hv |].
      rewrite length_app. pose proof (escaped_length s). simpl. lia.
    + destruct l as [|x l]; [reflexivity|].
      change (print_value level (PList (x :: l)))
        with (U "[" ++ join_items (S level) (map (print_value (S level)) (x :: l))
                ++ newline_indent level ++ U "]").
      rewrite <- !app_assoc.
      change (U "[" ++ ?s) with (91%N :: s).
      change (U "]" ++ rest) with (93%N :: rest).
      cbn [read_value head_is tl]. unfold quote.
      change (91 =? 34)%N with false. change (91 =? 123)%N with false.
      rewrite N.eqb_refl. cbv iota zeta.
      destruct (skip_join (S level) (map (print_value (S level)) (x :: l))
                  (newline_indent level ++ 93%N :: rest))
        as (Hlen & H93 & _).
      { discriminate. }
      { intros p Hp. apply in_map_iff in Hp. destruct Hp as (y & <- & _).
        apply print_value_item. }
      rewrite H93. rewrite length_map in Hlen.
      rewrite read_items_join; [reflexivity | discriminate | lia |].
      intros y r Hy Hr. apply IH; [| |exact Hr].
      * cbn [canonical] in Hv. rewrite forallb_forall in Hv. now apply Hv.
      * pose proof (depth_item _ _ Hy). cbn [depth] in Hd. lia.
    + destruct d as [|kv d]; [reflexivity|].
      change (print_value level (PDict (kv :: d)))
        with (U "{" ++ join_items (S level)
                         (map (fun kv => print_string (fst kv) ++ U ": "
                                         ++ print_value (S level) (snd kv))
                              (kv :: d))
                ++ newline_indent level ++ U "}").
      rewrite <- !app_assoc.
      change (U "{" ++ ?s) with (123%N :: s).
      change (U "}" ++ rest) with (125%N :: rest).
      cbn [read_value head_is tl]. unfold quote.
      change (123 =? 34)%N with false. rewrite N.eqb_refl. cbv iota zeta.
      cbn [canonical] in Hv. apply andb_true_iff in Hv. destruct Hv as [Hkeys Hv].
      rewrite forallb_forall in Hv.
      destruct (skip_join (S level)
                  (map (fun kv => print_string (fst kv) ++ U ": "
                                  ++ print_value (S level) (snd kv)) (kv :: d))
                  (newline_indent level ++ 125%N :: rest))
        as (Hlen & _ & H125).
      { discriminate. }
      { intros p Hp. apply in_map_iff in Hp. destruct Hp as (y & <- & _).
        rewrite print_string_shape. eexists _, _. split; [reflexivity|].
        repeat split; reflexivity. }
      rewrite H125. rewrite length_map in Hlen.
      rewrite read_members_join; [| discriminate | lia | |].
      * now rewrite dict_of_pairs_distinct.
      * intros k v r Hin Hr. apply IH; [| |exact Hr].
        -- specialize (Hv _ Hin). apply andb_true_iff in Hv. apply Hv.
        -- pose proof (depth_member _ _ _ Hin). cbn [depth] in Hd. lia.
      * intros k v Hin. specialize (Hv _ Hin). apply andb_true_iff in Hv. apply Hv.
Qed.

Lemma join_items_item (level : nat) (items : list str) (p : str) :
  In p items -> (length p <= length (join_items level items))%nat.
Proof.
  induction items as [|x l IH]; [intros []|].
  destruct l as [|y l].
  - intros [->|[]]. rewrite join_items_one, length_app. lia.
  - rewrite join_items_more, !length_app. cbn [length].
    intros [->|H]; [lia|]. specialize (IH H). lia.
Qed.

Lemma fold_max_bound {A : Type} (g : A -> nat) (l : list A) (b : nat) :
  (forall x, In x l -> (g x <= b)%nat) ->
  (fold_right (fun x acc => Nat.max (g x) acc) O l <= b)%nat.
Proof.
  induction l as [|x l IH]; intros H; cbn [fold_right]; [lia|].
  pose proof (H x (or_introl eq_refl)).
  assert (fold_right (fun x acc => Nat.max (g x) acc) O l <= b)%nat
    by (apply IH; intros; apply H; now right).
  lia.
Qed.

(** A value is not nested deeper than its text is long. *)
Lemma depth_le_length (n : nat) :
  forall (v : pyval) (level : nat),
    (depth v <= n)%nat -> (depth v <= length (print_value level v))%nat.
Proof.
  induction n as [|n IH]; intros v level Hn.
  - destruct v; simpl in Hn; lia.
  - destruct v as [| | | | |l|d];
      try (match goal with
           | |- (depth ?v <= length (print_value ?lv ?v))%nat =>
               destruct (print_value_opens lv v) as (c & r & -> & _);
               simpl; lia
           end).
    + destruct l as [|x l]; [simpl; lia|].
      change (print_value level (PList (x :: l)))
        with (91%N :: join_items (S level) (map (print_value (S level)) (x :: l))
                ++ newline_indent level ++ U "]").
      cbn [depth length]. rewrite length_app. apply le_n_S.
      apply Nat.le_trans
        with (length (join_items (S level) (map (print_value (S level)) (x :: l))));
        [|lia].
      apply fold_max_bound. intros y Hy.
      apply Nat.le_trans with (length (print_value (S level) y)).
      * apply IH. pose proof (depth_item _ _ Hy). cbn [depth] in Hn. lia.
      * apply join_items_item. now apply in_map.
    + destruct d as [|kv d]; [simpl; lia|].
      change (print_value level (PDict (kv :: d)))
        with (123%N :: join_items (S level)
                         (map (fun kv => print_string (fst kv) ++ U ": "
                                         ++ print_value (S level) (snd kv))
                              (kv :: d))
                ++ newline_indent level ++ U "}").
      cbn [depth length]. rewrite length_app. apply le_n_S.
      match goal with
      | |- (_ <= length ?j + _)%nat => apply Nat.le_trans with (length j); [|lia]
      end.
      apply (fold_max_bound (fun kv => depth (snd kv))). intros [k v] Hy.
      apply Nat.le_trans with (length (print_value (S level) v)).
      * apply IH. pose proof (depth_member _ _ _ Hy). cbn [depth] in Hn.
        cbn [snd]. lia.
      * eapply Nat.le_trans;
          [|apply join_items_item;
            apply (in_map (fun kv => print_string (fst kv) ++ U ": "
                                     ++ print_value (S level) (snd kv)) _ _ Hy)].
        cbn [fst snd]. rewrite !length_app. lia.
Qed.

(** The reference library reads back what it writes. *)
Theorem loads_dumps (v : pyval) : canonical v = true -> loads (dumps v) = Ok v.
Proof.
  intros Hv. unfold loads, dumps.
  rewrite <- (app_nil_r (print_value 0 v)) at 2.
  rewrite skip_ws_print.
  rewrite read_value_print; [reflexivity | exact Hv | | reflexivity].
  apply Nat.le_trans with (length (print_value 0 v)); [|lia].
  now apply (depth_le_length (depth v)).
Qed.

End JsonFacts.

(** *** The program *)

Section Properties.

Context {runtime : Runtime}.

(** *** The title deriver *)

Lemma subscript_role (role content : str) :
  subscript (message role content) (U "role") = Ok (PStr role).
Proof. reflexivity. Qed.

Lemma subscript_content (role content : str) :
  subscript (message role content) (U "content") = Ok (PStr content).
Proof. reflexivity. Qed.

Lemma first_user_message_typed (l : list (str * str)) :
  first_user_message (messages_from l)
  = Ok (match first_user_content l with
        | Some c => Some (message (U "user") c)
        | None => None
        end).
Proof.
  induction l as [|[role content] l IH]; [reflexivity|].
  cbn [messages_from map first_user_message first_user_content fst snd].
  rewrite subscript_role. cbn [bind eq_str].
  destruct (PyStr.eqb role (U "user")) eqn:E.
  - apply eqb_eq in E. now subst.
  - exact IH.
Qed.

(** The title of a list of messages, in closed form. *)
Lemma title_closed_form (l : list (str * str)) :
  get_conversation_title (PList (messages_from l))
  = Ok (match first_user_content l with
        | None => new_chat
        | Some c =>
            PyStr.strip (firstn 30 c)
              ++ (if (30 <? length c)%nat then ellipsis else [])
        end).
Proof.
  unfold get_conversation_title.
  destruct l as [|m l]; [reflexivity|].
  change (truthy (PList (messages_from (m :: l)))) with true. cbv iota beta.
  change (negb true) with false. cbv iota.
  rewrite first_user_message_typed.
  destruct (first_user_content (m :: l)) as [c|]; [|reflexivity].
  cbn [bind]. change (truthy (message (U "user") c)) with true. cbv iota.
  rewrite subscript_content. cbn [bind]. unfold PyStr.slice_to.
  destruct (30 <? length c)%nat; [reflexivity|].
  now rewrite app_nil_r.
Qed.

(** C4, as amended: without a message of role "user" the title is
    "New Chat"; otherwise it is the first 30 characters of the first such
    message's content, with the whitespace at both ends removed, followed
    by "..." when the content is longer than 30 characters. A content of
    at most 30 characters without whitespace at its ends is returned
    unchanged. *)
Theorem title_of_messages (l : list (str * str)) :
  (first_user_content l = None ->
   get_conversation_title (PList (messages_from l)) = Ok new_chat)
  /\ (forall c, first_user_content l = Some c ->
       (length c <= 30)%nat ->
       get_conversation_title (PList (messages_from l))
       = Ok (PyStr.strip c))
  /\ (forall c, first_user_content l = Some c ->
       (30 < length c)%nat ->
       get_conversation_title (PList (messages_from l))
       = Ok (PyStr.strip (firstn 30 c) ++ ellipsis))
  /\ (forall c, first_user_content l = Some c ->
       (length c <= 30)%nat -> PyStr.strip c = c ->
       get_conversation_title (PList (messages_from l)) = Ok c).
Proof.
  rewrite title_closed_form.
  assert (Hshort : forall c, (length c <= 30)%nat ->
            PyStr.strip (firstn 30 c)
              ++ (if (30 <? length c)%nat then ellipsis else []) = PyStr.strip c).
  { intros c Hc. rewrite firstn_all2 by exact Hc.
    destruct (Nat.ltb_spec 30 (length c)); [lia|]. apply app_nil_r. }
  repeat split.
  - now intros ->.
  - intros c -> Hc. now rewrite Hshort.
  - intros c -> Hc. destruct (Nat.ltb_spec 30 (length c)); [reflexivity|lia].
  - intros c -> Hc Hs. rewrite Hshort by exact Hc. now rewrite Hs.
Qed.


(** *** Deleting a conversation *)

Lemma first_key_nonempty (d : PyDict.dict pyval) :
  (0 < length d)%nat -> exists k, first_key d = Ok k /\ hd_error (PyDict.keys d) = Some k.
Proof.
  destruct d as [|[k v] d]; simpl; [lia|]. intros _. now exists k.
Qed.

(** C3, as amended: on a store with exactly one conversation
    [delete_conversation] is a silent no-op: the store keeps its one
    entry and nothing is reported, the call just returns. On a store with
    more than one conversation and a present id, the entry is removed,
    the other entries keep their order and values, and when the removed
    conversation was the active one the active id becomes the first
    remaining key in insertion order. *)
Theorem delete_conversation_spec (id : str) (s : session) :
  NoDup (PyDict.keys (conversations s)) ->
  (length (conversations s) = 1%nat ->
   delete_conversation id s = {| state := s; shown := []; ctl := Returned |}
   /\ length (conversations (state (delete_conversation id s))) = 1%nat)
  /\ ((1 < length (conversations s))%nat ->
      PyDict.contains (conversations s) id = true ->
      let o := delete_conversation id s in
      ctl o = Rerun
      /\ PyDict.keys (conversations (state o))
         = filter (fun k => negb (PyStr.eqb k id)) (PyDict.keys (conversations s))
      /\ PyDict.get (conversations (state o)) id = None
      /\ (forall k, k <> id ->
            PyDict.get (conversations (state o)) k = PyDict.get (conversations s) k)
      /\ S (length (conversations (state o))) = length (conversations s)
      /\ (active_conversation s = id ->
            hd_error (PyDict.keys (conversations (state o)))
            = Some (active_conversation (state o)))
      /\ (active_conversation s <> id ->
            active_conversation (state o) = active_conversation s)).
Proof.
  intros Hnd. split.
  - intros Hlen. unfold delete_conversation. rewrite Hlen. simpl. auto.
  - intros Hlen Hin. unfold delete_conversation.
    destruct (Nat.ltb_spec 1 (length (conversations s))) as [_|]; [|lia].
    unfold PyDict.delitem. rewrite Hin.
    pose proof (length_remove _ _ Hin) as Hrem.
    destruct (first_key_nonempty (PyDict.remove (conversations s) id))
      as (k0 & Hk0 & Hhd); [lia|].
    assert (Hkeys := keys_remove (conversations s) id Hnd).
    assert (Hgone : PyDict.get (PyDict.remove (conversations s) id) id = None).
    { apply get_none_notin. rewrite Hkeys. intros Hi.
      apply filter_In in Hi. destruct Hi as [_ Hi].
      now rewrite eqb_refl in Hi. }
    assert (Hother : forall k, k <> id ->
              PyDict.get (PyDict.remove (conversations s) id) k
              = PyDict.get (conversations s) k).
    { intros k Hk. apply get_remove_other. congruence. }
    cbn [set_conversations active_conversation].
    destruct (PyStr.eqb (active_conversation s) id) eqn:E.
    + rewrite Hk0. cbn. repeat split; auto.
      apply eqb_eq in E. congruence.
    + apply eqb_neq in E. cbn. repeat split; auto. congruence.
Qed.

(** C10: on a store with more than one conversation, deleting an id that
    is not a key raises [KeyError] and leaves the session as it was; with
    a present id the call completes. So the call is safe exactly when
    the id is a key. *)
Theorem delete_absent_raises (id : str) (s : session) :
  (1 < length (conversations s))%nat ->
  (PyDict.contains (conversations s) id = false ->
   delete_conversation id s
   = {| state := s; shown := []; ctl := Raised (KeyError (PStr id)) |})
  /\ (PyDict.contains (conversations s) id = true ->
      ctl (delete_conversation id s) = Rerun).
Proof.
  intros Hlen. unfold delete_conversation.
  destruct (Nat.ltb_spec 1 (length (conversations s))) as [_|]; [|lia].
  unfold PyDict.delitem. split; intros Hin; rewrite Hin; [reflexivity|].
  pose proof (length_remove _ _ Hin) as Hrem.
  destruct (first_key_nonempty (PyDict.remove (conversations s) id))
    as (k0 & Hk0 & _); [lia|].
  cbn [set_conversations active_conversation].
  destruct (PyStr.eqb (active_conversation s) id); [rewrite Hk0|]; reflexivity.
Qed.

(** *** The streaming generator *)

Lemma run_stream_chunks (response : gen (option str)) :
  run_gen (stream_chunks response)
  = (contents (fst (run_gen response))
       ++ match snd (run_gen response) with
          | Some e => [error_marker ++ exn_str e]
          | None => []
          end,
     None).
Proof.
  induction response as [|chunk next IH|e]; simpl; try reflexivity.
  destruct (run_gen next) as [l oe] eqn:E. simpl in *.
  destruct chunk as [c|]; simpl; rewrite IH; reflexivity.
Qed.

(** C6: when the backend fails, at the call or while its chunks are
    read, [stream_response] yields the contents received so far, then
    exactly one chunk that is the error marker followed by the text of
    the exception, and stops without raising. *)
Theorem stream_response_on_failure (bot : ChatBot) (messages : list pyval)
    (model temperature : pyval) (chunks : list (option str)) (e : exn) :
  backend_fails (client bot)
    {| req_model := model; req_messages := messages;
       req_temperature := temperature; req_max_tokens := 2000;
       req_stream := true |} chunks e ->
  run_gen (stream_response bot messages model temperature)
  = (contents chunks ++ [error_marker ++ exn_str e], None).
Proof.
  unfold stream_response.
  intros [[Hcall ->] | (response & Hcall & Hrun)]; rewrite Hcall.
  - reflexivity.
  - rewrite run_stream_chunks, Hrun. reflexivity.
Qed.


(** *** One turn *)

Ltac str_neq := let H := fresh in intro H; vm_compute in H; discriminate H.

Lemma startswith_app (p x : str) : PyStr.startswith p (p ++ x) = true.
Proof.
  induction p as [|a p IH]; simpl; [reflexivity|].
  now rewrite N.eqb_refl, IH.
Qed.

Lemma last_n_length {A : Type} (n : nat) (l : list A) :
  length (last_n n l) = Nat.min n (length l).
Proof. unfold last_n. rewrite length_skipn. lia. Qed.

Lemma last_n_suffix {A : Type} (n : nat) (l : list A) :
  l = firstn (length l - n) l ++ last_n n l.
Proof. unfold last_n. symmetry. apply firstn_skipn. Qed.

Lemma consume_result (g : gen str) (acc : str) :
  snd (consume g acc)
  = match snd (run_gen g) with
    | None => Ok (acc ++ concat (fst (run_gen g)))
    | Some e => Err e
    end.
Proof.
  revert acc. induction g as [|chunk next IH|e]; intros acc; simpl.
  - now rewrite app_nil_r.
  - specialize (IH (acc ++ chunk)).
    destruct (consume next (acc ++ chunk)) as [events r].
    destruct (run_gen next) as [l oe]. simpl in *. rewrite IH.
    destruct oe; [reflexivity|]. now rewrite app_assoc.
  - reflexivity.
Qed.

Section Turn.

Variable bot : ChatBot.
Variable s : session.
Variable d : PyDict.dict pyval.
Variable history : list pyval.
Variables personality prompt : str.
Variable user_input : str.

Hypothesis active_is_d :
  PyDict.get (conversations s) (active_conversation s) = Some (PDict d).
Hypothesis messages_of_d : PyDict.get d (U "messages") = Some (PList history).
Hypothesis personality_of_d : PyDict.get d (U "personality") = Some (PStr personality).
Hypothesis prompt_of_personality :
  PyDict.get (system_prompts bot) personality = Some prompt.

Let text := PyStr.strip user_input.
Let user_message := message (U "user") text.

Lemma append_message_ok (d' : PyDict.dict pyval) (l : list pyval) (m : pyval) :
  PyDict.get d' (U "messages") = Some (PList l) ->
  append_message d' m = Ok (PyDict.setitem d' (U "messages") (PList (l ++ [m]))).
Proof.
  intros H. unfold append_message, PyDict.getitem. now rewrite H.
Qed.

Lemma messages_of_ok (d' : PyDict.dict pyval) (l : list pyval) :
  PyDict.get d' (U "messages") = Some (PList l) -> messages_of d' = Ok l.
Proof.
  intros H. unfold messages_of, PyDict.getitem. now rewrite H.
Qed.

(** The dictionary of the conversation once the user message is in. *)
Lemma add_user_message_ok :
  exists d2,
    add_user_message d text = (Ok d2, Some (PyDict.setitem d (U "messages")
                                              (PList (history ++ [user_message]))))
    /\ PyDict.get d2 (U "messages") = Some (PList (history ++ [user_message]))
    /\ (forall k, k <> U "messages" -> k <> U "title" ->
          PyDict.get d2 k = PyDict.get d k).
Proof.
  unfold add_user_message.
  rewrite (append_message_ok d history) by exact messages_of_d.
  fold user_message.
  set (d1 := PyDict.setitem d (U "messages") (PList (history ++ [user_message]))).
  assert (H1 : PyDict.get d1 (U "messages") = Some (PList (history ++ [user_message])))
    by apply get_setitem_same.
  rewrite (messages_of_ok d1 _ H1). cbn [bind].
  destruct (length (history ++ [user_message]) =? 1)%nat eqn:E.
  - assert (Hh : history = []).
    { apply Nat.eqb_eq in E. rewrite length_app in E. simpl in E.
      destruct history; [reflexivity | simpl in E; lia]. }
    rewrite Hh in *. cbn [app].
    change (PList [user_message])
      with (PList (messages_from [(U "user", text)])).
    rewrite title_closed_form. cbn [bind].
    eexists. split; [reflexivity|]. split.
    + rewrite get_setitem_other by str_neq. exact H1.
    + intros k Hk1 Hk2. rewrite get_setitem_other by congruence.
      unfold d1. now rewrite get_setitem_other by congruence.
  - exists d1. split; [reflexivity|]. split; [exact H1|].
    intros k Hk1 Hk2. unfold d1. now rewrite get_setitem_other by congruence.
Qed.

Lemma assemble_request_ok (d2 : PyDict.dict pyval) (l : list pyval) :
  PyDict.get d2 (U "messages") = Some (PList l) ->
  PyDict.get d2 (U "personality") = Some (PStr personality) ->
  assemble_request bot d2 = Ok (message (U "system") prompt :: last_n 20 l).
Proof.
  intros Hm Hp. unfold assemble_request, PyDict.getitem. rewrite Hp. cbn [bind].
  unfold lookup_value, PyDict.getitem. rewrite prompt_of_personality. cbn [bind].
  now rewrite (messages_of_ok d2 l Hm).
Qed.

(** What a turn does, once the input is accepted. *)
Lemma turn_unfolded :
  PyStr.truthy text = true ->
  exists d2,
    PyDict.get d2 (U "messages") = Some (PList (history ++ [user_message]))
    /\ (forall k, k <> U "messages" -> k <> U "title" ->
          PyDict.get d2 k = PyDict.get d k)
    /\ assemble_request bot d2
       = Ok (message (U "system") prompt :: last_n 20 (history ++ [user_message]))
    /\ process_user_input bot true user_input s
       = commit s d2
           (generate bot
              (message (U "system") prompt :: last_n 20 (history ++ [user_message]))
              d2).
Proof.
  intros Htext.
  destruct add_user_message_ok as (d2 & Hadd & Hm & Hk).
  exists d2. split; [exact Hm|]. split; [exact Hk|].
  assert (Hreq := assemble_request_ok d2 _ Hm).
  rewrite Hk in Hreq by str_neq. specialize (Hreq personality_of_d).
  split; [exact Hreq|].
  unfold process_user_input, PyDict.getitem. rewrite active_is_d.
  fold text. rewrite Htext. cbn [andb].
  rewrite Hadd, Hreq. reflexivity.
Qed.

Lemma commit_ok (d2 : PyDict.dict pyval) (l : list pyval)
    (generated : list ui_event * result str) :
  PyDict.get d2 (U "messages") = Some (PList l) ->
  exists content events,
    commit s d2 generated
    = {| state := with_active s (PyDict.setitem d2 (U "messages")
                                   (PList (l ++ [message (U "assistant") content])));
         shown := events;
         ctl := Rerun |}
    /\ content = match snd generated with
                 | Ok response_text => response_text
                 | Err e => generation_failed e
                 end.
Proof.
  intros Hm. unfold commit. destruct generated as [events [response_text|e]].
  - rewrite (append_message_ok d2 l) by exact Hm. now eexists _, _.
  - rewrite (append_message_ok d2 l) by exact Hm. now eexists _, _.
Qed.

(** C7: the request of a turn is one system message, whose content is
    the system prompt of the conversation's personality, followed by the
    last 20 messages of the conversation, the new user message included,
    in their order; this list is what the client receives. *)
Theorem request_of_turn :
  PyStr.truthy text = true ->
  let request := message (U "system") prompt
                   :: last_n 20 (history ++ [user_message]) in
  exists d2,
    assemble_request bot d2 = Ok request
    /\ process_user_input bot true user_input s
       = commit s d2 (generate bot request d2)
    /\ (forall model temperature,
          stream_response bot request model temperature
          = match client bot {| req_model := model;
                                req_messages := request;
                                req_temperature := temperature;
                                req_max_tokens := 2000;
                                req_stream := true |} with
            | Ok response => stream_chunks response
            | Err e => GYield (error_marker ++ exn_str e) GStop
            end)
    /\ length (last_n 20 (history ++ [user_message]))
       = Nat.min 20 (S (length history))
    /\ history ++ [user_message]
       = firstn (S (length history) - 20) (history ++ [user_message])
           ++ last_n 20 (history ++ [user_message]).
Proof.
  intros Htext request.
  destruct (turn_unfolded Htext) as (d2 & _ & _ & Hreq & Hturn).
  exists d2. split; [exact Hreq|]. split; [exact Hturn|].
  split; [reflexivity|]. split.
  - rewrite last_n_length, length_app. cbn [length]. now rewrite Nat.add_1_r.
  - rewrite (last_n_suffix 20 (history ++ [user_message])) at 1.
    rewrite length_app. cbn [length]. now rewrite Nat.add_1_r.
Qed.

(** C8: an accepted input (not empty once stripped) makes the turn
    complete with two more messages in the active conversation, the user
    message then the assistant message, whatever the backend does; the
    assistant message holds the generated text or, when the generation
    raised, the error text. An input that is empty once stripped
    changes nothing and shows nothing. *)
Theorem turn_adds_two_messages :
  (PyStr.truthy text = true ->
   exists content events d3,
     process_user_input bot true user_input s
     = {| state := with_active s d3; shown := events; ctl := Rerun |}
     /\ PyDict.get (conversations (with_active s d3)) (active_conversation s)
        = Some (PDict d3)
     /\ messages_of d3
        = Ok (history ++ [user_message; message (U "assistant") content])
     /\ length (history ++ [user_message; message (U "assistant") content])
        = (length history + 2)%nat)
  /\ (PyStr.truthy text = false ->
      forall submit_button,
        process_user_input bot submit_button user_input s
        = {| state := s; shown := []; ctl := Returned |}).
Proof.
  split.
  - intros Htext.
    destruct (turn_unfolded Htext) as (d2 & Hm & _ & _ & Hturn).
    destruct (commit_ok d2 _
                (generate bot
                   (message (U "system") prompt
                      :: last_n 20 (history ++ [user_message])) d2) Hm)
      as (content & events & Hcommit & _).
    exists content, events. eexists. rewrite Hturn, Hcommit.
    split; [reflexivity|]. split; [apply get_setitem_same|]. split.
    + rewrite (messages_of_ok _ _ (get_setitem_same _ _ _)).
      now rewrite <- app_assoc.
    + rewrite length_app. reflexivity.
  - intros Htext submit_button.
    unfold process_user_input, PyDict.getitem. rewrite active_is_d.
    fold text. rewrite Htext. now rewrite andb_false_r.
Qed.

(** C5, as amended: when the backend fails during a turn, at the call
    or after some chunks, the turn completes and the assistant message it
    appends is the text streamed before the failure followed by the
    error marker and the text of the exception. The message begins with
    the error marker when no text was streamed before the failure. *)
Theorem fault_is_committed (model temperature : pyval)
    (chunks : list (option str)) (e : exn) :
  PyStr.truthy text = true ->
  PyDict.get d (U "model") = Some model ->
  PyDict.get d (U "temperature") = Some temperature ->
  backend_fails (client bot)
    {| req_model := model;
       req_messages := message (U "system") prompt
                         :: last_n 20 (history ++ [user_message]);
       req_temperature := temperature;
       req_max_tokens := 2000;
       req_stream := true |} chunks e ->
  let content := concat (contents chunks) ++ error_marker ++ exn_str e in
  exists events d3,
    process_user_input bot true user_input s
    = {| state := with_active s d3; shown := events; ctl := Rerun |}
    /\ PyDict.get (conversations (with_active s d3)) (active_conversation s)
       = Some (PDict d3)
    /\ messages_of d3
       = Ok (history ++ [user_message; message (U "assistant") content])
    /\ (concat (contents chunks) = [] ->
        PyStr.startswith error_marker content = true).
Proof.
  intros Htext Hmodel Htemp Hfail content.
  destruct (turn_unfolded Htext) as (d2 & Hm & Hk & _ & Hturn).
  set (request := message (U "system") prompt
                    :: last_n 20 (history ++ [user_message])) in *.
  destruct (commit_ok d2 _ (generate bot request d2) Hm)
    as (content' & events & Hcommit & Hcontent).
  assert (Hgen : snd (generate bot request d2) = Ok content).
  { unfold generate, PyDict.getitem.
    rewrite (Hk (U "model")), Hmodel by str_neq.
    rewrite (Hk (U "temperature")), Htemp by str_neq.
    pose proof (consume_result (stream_response bot request model temperature) [])
      as Hc.
    rewrite (stream_response_on_failure _ _ _ _ _ _ Hfail) in Hc.
    destruct (consume (stream_response bot request model temperature) [])
      as [ev r]. simpl in Hc. subst r. simpl.
    rewrite concat_app. simpl. now rewrite app_nil_r. }
  rewrite Hgen in Hcontent. subst content'.
  exists events. eexists. rewrite Hturn, Hcommit.
  split; [reflexivity|]. split; [apply get_setitem_same|]. split.
  - rewrite (messages_of_ok _ _ (get_setitem_same _ _ _)).
    now rewrite <- app_assoc.
  - intros Hnone. unfold content. rewrite Hnone, app_nil_l. apply startswith_app.
Qed.

End Turn.


(** *** The invariant of the store *)

Lemma existsb_eq_str (x : str) (l : list str) :
  existsb (eq_str (PStr x)) l = true <-> In x l.
Proof.
  rewrite existsb_exists. split.
  - intros (y & Hy & E). simpl in E. apply eqb_eq in E. now subst.
  - intros H. exists x. split; [exact H|]. simpl. apply eqb_refl.
Qed.

Lemma store_valid_setitem (d : PyDict.dict pyval) (k : str) (v : pyval) :
  store_valid d = true -> valid_conversation v = true ->
  store_valid (PyDict.setitem d k v) = true.
Proof.
  unfold store_valid. rewrite !forallb_forall. intros Hd Hv x Hx.
  destruct (setitem_snd_in _ _ _ _ Hx) as [->|Hin]; auto.
Qed.

Lemma store_valid_setitem_inv (d : PyDict.dict pyval) (k : str) (v : pyval) :
  store_valid (PyDict.setitem d k v) = true -> valid_conversation v = true.
Proof.
  unfold store_valid. rewrite forallb_forall. intros H. apply H, setitem_in_snd.
Qed.

Lemma valid_new_conversation (now : str) :
  valid_conversation (new_conversation now) = true.
Proof. reflexivity. Qed.

Lemma valid_after_update (d : PyDict.dict pyval) (model_id personality : str)
    (temperature : Q) :
  In model_id (map snd available_models) ->
  In personality (PyDict.keys personalities) ->
  (0 <= temperature <= 1)%Q ->
  valid_conversation
    (PDict (PyDict.update d [ (U "model", PStr model_id);
                              (U "personality", PStr personality);
                              (U "temperature", PFloat temperature) ])) = true.
Proof.
  intros Hm Hp [Ht0 Ht1]. unfold valid_conversation, field_satisfies, PyDict.update.
  cbn [fold_left fst snd].
  rewrite get_setitem_other, get_setitem_other, get_setitem_same by str_neq.
  rewrite get_setitem_other, get_setitem_same by str_neq.
  rewrite get_setitem_same.
  apply andb_true_iff. split; [apply andb_true_iff; split|].
  - now apply existsb_eq_str.
  - now apply existsb_eq_str.
  - cbn [temperature_in_range]. apply andb_true_iff.
    split; now apply Qle_bool_iff.
Qed.

Lemma store_valid_remove (d : PyDict.dict pyval) (k : str) :
  store_valid d = true -> store_valid (PyDict.remove d k) = true.
Proof.
  unfold store_valid. induction d as [|[k' v'] d IH]; simpl; [reflexivity|].
  intros H. apply andb_true_iff in H. destruct H as [Hv Hd].
  destruct (PyStr.eqb k' k); simpl; [exact Hd|].
  now rewrite Hv, IH.
Qed.

Lemma store_valid_get (d : PyDict.dict pyval) (k : str) (v : pyval) :
  store_valid d = true -> PyDict.get d k = Some v -> valid_conversation v = true.
Proof.
  unfold store_valid. rewrite forallb_forall. intros Hd Hget.
  apply Hd. apply get_some_in in Hget. now apply (in_map snd) in Hget.
Qed.

(** The invariant does not look at the messages and the title. *)
Lemma valid_setitem_messages (d : PyDict.dict pyval) (v : pyval) :
  valid_conversation (PDict (PyDict.setitem d (U "messages") v))
  = valid_conversation (PDict d).
Proof.
  unfold valid_conversation, field_satisfies.
  now rewrite !get_setitem_other by str_neq.
Qed.

Lemma valid_setitem_title (d : PyDict.dict pyval) (v : pyval) :
  valid_conversation (PDict (PyDict.setitem d (U "title") v))
  = valid_conversation (PDict d).
Proof.
  unfold valid_conversation, field_satisfies.
  now rewrite !get_setitem_other by str_neq.
Qed.

Lemma valid_append_message (d d' : PyDict.dict pyval) (m : pyval) :
  append_message d m = Ok d' ->
  valid_conversation (PDict d') = valid_conversation (PDict d).
Proof.
  unfold append_message. destruct (PyDict.getitem d (U "messages")) as [v|];
    [cbn [bind]|discriminate].
  destruct v; try discriminate. intros [= <-]. apply valid_setitem_messages.
Qed.

Lemma valid_add_user_message (d : PyDict.dict pyval) (text : str) :
  match add_user_message d text with
  | (r, after_append) =>
      match r with
      | Ok d2 => valid_conversation (PDict d2) = valid_conversation (PDict d)
      | Err _ => True
      end
      /\ match after_append with
         | Some d1 => valid_conversation (PDict d1) = valid_conversation (PDict d)
         | None => True
         end
  end.
Proof.
  unfold add_user_message.
  destruct (append_message d (message (U "user") text)) as [d1|] eqn:E; [|easy].
  apply valid_append_message in E. split; [|exact E].
  destruct (messages_of d1) as [history|]; [cbn [bind]|easy].
  destruct (length history =? 1)%nat; [|exact E].
  destruct (get_conversation_title (PList history)); [cbn [bind]|easy].
  now rewrite valid_setitem_title.
Qed.

Lemma store_valid_with_active (s : session) (d : PyDict.dict pyval) :
  store_valid (conversations s) = true ->
  valid_conversation (PDict d) = true ->
  store_valid (conversations (with_active s d)) = true.
Proof. intros. now apply store_valid_setitem. Qed.

(** A turn keeps the store valid, however it ends. *)
Lemma store_valid_after_turn (bot : ChatBot) (submit_button : bool)
    (user_input : str) (s : session) :
  store_valid (conversations s) = true ->
  store_valid
    (conversations (state (process_user_input bot submit_button user_input s))) = true.
Proof.
  intros Hs. unfold process_user_input, PyDict.getitem.
  destruct (PyDict.get (conversations s) (active_conversation s))
    as [active_conv|] eqn:Hget; [|exact Hs].
  destruct (submit_button && PyStr.truthy (PyStr.strip user_input)); [|exact Hs].
  destruct active_conv as [| | | | | |d0]; try exact Hs.
  pose proof (store_valid_get _ _ _ Hs Hget) as Hd0.
  pose proof (valid_add_user_message d0 (PyStr.strip user_input)) as Hadd.
  destruct (add_user_message d0 (PyStr.strip user_input)) as [r after_append].
  destruct Hadd as [H2 H1]. destruct r as [d2|e].
  - assert (Hd2 : store_valid (conversations (with_active s d2)) = true)
      by (apply store_valid_with_active; [exact Hs | congruence]).
    replace (match after_append with
             | Some _ | None =>
                 match assemble_request bot d2 with
                 | Ok messages => commit s d2 (generate bot messages d2)
                 | Err e =>
                     {| state := with_active s d2; shown := []; ctl := Raised e |}
                 end
             end)
      with (match assemble_request bot d2 with
            | Ok messages => commit s d2 (generate bot messages d2)
            | Err e =>
                {| state := with_active s d2; shown := []; ctl := Raised e |}
            end) by (destruct after_append; reflexivity).
    destruct (assemble_request bot d2) as [messages|]; [|exact Hd2].
    unfold commit. destruct (generate bot messages d2) as [events r].
    destruct r as [response_text|e'];
      match goal with
      | |- context [append_message d2 ?m] =>
          destruct (append_message d2 m) as [d3|] eqn:E3; cbn [state];
          [apply valid_append_message in E3|]
      end; try exact Hd2;
      apply store_valid_with_active; try exact Hs; congruence.
  - destruct after_append as [d1|]; cbn [state]; [|exact Hs].
    apply store_valid_with_active; [exact Hs | congruence].
Qed.

(** C1, as amended: initialisation, "new chat", "clear all" and the
    settings update, whose values come from the select boxes and the
    slider, keep every conversation of the store valid (a model of the
    catalogue, a known personality, a temperature between 0 and 1), and
    so do a deletion and a turn. An import stores the parsed document
    without any check, so the store stays valid after it exactly when
    the imported document is itself a valid conversation; a failed
    import changes nothing. *)
Theorem store_invariant (s : session) :
  store_valid (conversations s) = true ->
  (forall uuid now r,
      match raw_conversations r with
      | Some c => store_valid c = true
      | None => True
      end ->
      store_valid (conversations (initialize_session_state uuid now r)) = true)
  /\ (forall uuid now,
        store_valid (conversations (state (create_new_conversation uuid now s))) = true)
  /\ (forall uuid now,
        store_valid (conversations (state (clear_all uuid now s))) = true)
  /\ (forall selected_model personality temperature s',
        catalogue_bot s ->
        In personality (PyDict.keys personalities) ->
        (0 <= temperature <= 1)%Q ->
        update_settings selected_model personality temperature s = Ok s' ->
        store_valid (conversations s') = true)
  /\ (forall conversation_id,
        store_valid
          (conversations (state (delete_conversation conversation_id s))) = true)
  /\ (forall bot submit_button user_input,
        store_valid
          (conversations
             (state (process_user_input bot submit_button user_input s))) = true)
  /\ (forall uuid uploaded_file,
        match json_load uploaded_file with
        | Ok data =>
            store_valid
              (conversations (state (import_conversation uuid uploaded_file s))) = true
            <-> valid_conversation data = true
        | Err _ => state (import_conversation uuid uploaded_file s) = s
        end).
Proof.
  intros Hs. split; [|split; [|split; [|split; [|split; [|split]]]]].
  - intros uuid now r Hr. unfold initialize_session_state.
    assert (Hc : store_valid match raw_conversations r with
                             | Some c => c
                             | None => []
                             end = true)
      by (destruct (raw_conversations r); [exact Hr | reflexivity]).
    destruct (raw_active_conversation r); cbn [conversations]; [exact Hc|].
    apply store_valid_setitem; [exact Hc | apply valid_new_conversation].
  - intros uuid now. cbn. apply store_valid_setitem; [exact Hs|].
    apply valid_new_conversation.
  - intros uuid now. unfold clear_all.
    destruct (conversations s) eqn:E; cbn; [now rewrite E | reflexivity].
  - intros selected_model personality temperature s' Hbot Hp Ht.
    unfold update_settings, catalogue_bot in *.
    destruct (chatbot s) as [bot|]; [|intros [= <-]; exact Hs].
    destruct Hbot as [Hmodels Hprompts].
    destruct (PyStr.truthy (active_conversation s)); [|intros [= <-]; exact Hs].
    destruct (PyDict.getitem (conversations s) (active_conversation s))
      as [active_conv|]; [cbn [bind]|discriminate].
    destruct (PyDict.keys (models bot)); [discriminate|cbn [bind]].
    destruct (subscript active_conv (U "model")); [cbn [bind]|discriminate].
    destruct (subscript active_conv (U "personality")); [cbn [bind]|discriminate].
    destruct (index_of _ _); [cbn [bind]|discriminate].
    destruct (subscript active_conv (U "temperature")); [cbn [bind]|discriminate].
    unfold PyDict.getitem at 1.
    destruct (PyDict.get (models bot) selected_model) as [model_id|] eqn:Hid;
      [cbn [bind]|discriminate].
    destruct active_conv; try discriminate. intros [= <-].
    cbn [conversations set_conversations].
    apply store_valid_setitem; [exact Hs|].
    apply valid_after_update; auto.
    rewrite Hmodels in Hid. apply get_some_in in Hid.
    apply (in_map snd) in Hid. exact Hid.
  - intros conversation_id. unfold delete_conversation.
    destruct (1 <? length (conversations s))%nat; [|exact Hs].
    unfold PyDict.delitem.
    destruct (PyDict.contains (conversations s) conversation_id); [|exact Hs].
    pose proof (store_valid_remove _ conversation_id Hs) as Hr.
    cbn [set_conversations active_conversation].
    destruct (PyStr.eqb (active_conversation s) conversation_id); [|exact Hr].
    destruct (first_key (PyDict.remove (conversations s) conversation_id));
      exact Hr.
  - intros bot submit_button user_input. now apply store_valid_after_turn.
  - intros uuid uploaded_file. unfold import_conversation.
    destruct (json_load uploaded_file) as [data|e]; [|reflexivity].
    cbn [state conversations]. split.
    + apply store_valid_setitem_inv.
    + now apply store_valid_setitem.
Qed.

(** *** Import and export *)

(** C2, as amended: a document that [json.load] accepts is stored as it
    is, whatever its shape, under the identifier drawn for the import,
    which becomes the active one; the other entries are not touched, and
    with an unused identifier the store grows by this one entry. A
    document that [json.load] refuses leaves the session as it was and
    an error message is shown. *)
Theorem import_conversation_spec (uuid uploaded_file : str) (s : session) :
  (forall data, json_load uploaded_file = Ok data ->
     let o := import_conversation uuid uploaded_file s in
     ctl o = Rerun
     /\ active_conversation (state o) = uuid
     /\ PyDict.get (conversations (state o)) uuid = Some data
     /\ (forall k, k <> uuid ->
           PyDict.get (conversations (state o)) k = PyDict.get (conversations s) k)
     /\ (~ In uuid (PyDict.keys (conversations s)) ->
         conversations (state o) = conversations s ++ [(uuid, data)]))
  /\ (forall e, json_load uploaded_file = Err e ->
       import_conversation uuid uploaded_file s
       = {| state := s; shown := [StError (import_failed e)]; ctl := Returned |}
       /\ reports_error (import_conversation uuid uploaded_file s) = true).
Proof.
  unfold import_conversation. split.
  - intros data ->. cbn. repeat split.
    + apply get_setitem_same.
    + intros k Hk. apply get_setitem_other. congruence.
    + apply keys_setitem_fresh.
  - intros e ->. split; reflexivity.
Qed.

(** C9: when the [json] library reads back what it wrote for the
    conversation, exporting a conversation of the store and importing
    the exported text stores, under the new identifier, a conversation
    equal to the exported one: same title, messages, model, personality
    and temperature. *)
Theorem export_import_roundtrip (id uuid : str) (s : session) (c : pyval) :
  PyDict.get (conversations s) id = Some c ->
  json_load (json_dumps c) = Ok c ->
  exists blob c',
    export_conversation id s = Some blob
    /\ PyDict.get (conversations (state (import_conversation uuid blob s))) uuid
       = Some c'
    /\ active_conversation (state (import_conversation uuid blob s)) = uuid
    /\ c' = c
    /\ Forall (fun k => subscript c' k = subscript c k)
         [U "title"; U "messages"; U "model"; U "personality"; U "temperature"].
Proof.
  intros Hc Hjson. exists (json_dumps c), c.
  unfold export_conversation, import_conversation. rewrite Hc, Hjson. cbn.
  repeat split.
  - apply get_setitem_same.
  - repeat constructor.
Qed.

End Properties.

(** ** More on the program *)

Ltac key_neq := let H := fresh in intro H; vm_compute in H; discriminate H.

Section MoreProperties.

Context {runtime : Runtime}.

(** *** Stripping *)

Lemma lstrip_length (x : str) : (length (PyStr.lstrip x) <= length x)%nat.
Proof.
  induction x as [|c x IH]; [apply le_n|]. cbn [PyStr.lstrip].
  destruct (PyStr.isspace c); cbn [length]; lia.
Qed.

Lemma strip_length (x : str) : (length (PyStr.strip x) <= length x)%nat.
Proof.
  unfold PyStr.strip, PyStr.rstrip. rewrite length_rev.
  pose proof (lstrip_length (rev (PyStr.lstrip x))) as H.
  rewrite length_rev in H. pose proof (lstrip_length x). lia.
Qed.

Lemma lstrip_head (x : str) :
  match PyStr.lstrip x with
  | [] => True
  | c :: _ => PyStr.isspace c = false
  end.
Proof.
  induction x as [|c x IH]; [exact I|]. cbn [PyStr.lstrip].
  destruct (PyStr.isspace c) eqn:E; [exact IH | exact E].
Qed.

Lemma lstrip_fixed (x : str) :
  match x with [] => True | c :: _ => PyStr.isspace c = false end ->
  PyStr.lstrip x = x.
Proof. destruct x as [|c x]; [reflexivity|]. cbn. now intros ->. Qed.

Lemma lstrip_app_last (x : str) (c : char) :
  PyStr.isspace c = false -> PyStr.lstrip (x ++ [c]) = PyStr.lstrip x ++ [c].
Proof.
  intros Hc. induction x as [|a x IH]; cbn [app PyStr.lstrip].
  - now rewrite Hc.
  - destruct (PyStr.isspace a); [exact IH | reflexivity].
Qed.

Lemma rstrip_cons (c : char) (x : str) :
  PyStr.isspace c = false -> PyStr.rstrip (c :: x) = c :: PyStr.rstrip x.
Proof.
  intros Hc. unfold PyStr.rstrip. cbn [rev].
  rewrite lstrip_app_last by exact Hc. now rewrite rev_app_distr.
Qed.

Lemma rstrip_rstrip (x : str) : PyStr.rstrip (PyStr.rstrip x) = PyStr.rstrip x.
Proof.
  unfold PyStr.rstrip. rewrite rev_involutive. f_equal.
  apply lstrip_fixed, lstrip_head.
Qed.

(** [strip] removes nothing from a text that it has produced. *)
Lemma strip_strip (x : str) : PyStr.strip (PyStr.strip x) = PyStr.strip x.
Proof.
  unfold PyStr.strip. pose proof (lstrip_head x) as H.
  destruct (PyStr.lstrip x) as [|c y]; [reflexivity|].
  rewrite rstrip_cons by exact H. cbn [PyStr.lstrip]. rewrite H.
  rewrite <- rstrip_cons by exact H. apply rstrip_rstrip.
Qed.

(** *** The client *)

(** X1: [ChatBot.__init__] takes the key of its argument when it is not
    empty and the key of the environment otherwise; it raises
    [ValueError] exactly when both are missing or empty. The bot it
    builds holds the three models and the five personalities. *)
Theorem chatbot_init_spec (OpenAI : str -> option str -> backend)
    (env_key env_url key url : option str) :
  (forall k, key = Some k -> PyStr.truthy k = true ->
     exists bot,
       ChatBot_init OpenAI env_key env_url key url = Ok bot
       /\ api_key bot = k
       /\ models bot = available_models
       /\ system_prompts bot = personalities)
  /\ (forall k, (key = None \/ key = Some []) ->
        env_key = Some k -> PyStr.truthy k = true ->
        exists bot,
          ChatBot_init OpenAI env_key env_url key url = Ok bot
          /\ api_key bot = k
          /\ models bot = available_models
          /\ system_prompts bot = personalities)
  /\ ((key = None \/ key = Some []) ->
      (env_key = None \/ env_key = Some []) ->
      ChatBot_init OpenAI env_key env_url key url
      = Err (ValueError (U "KodeKey API key is required")))
  /\ (forall bot, ChatBot_init OpenAI env_key env_url key url = Ok bot ->
        PyStr.truthy (api_key bot) = true
        /\ client bot = OpenAI (api_key bot) (base_url bot)).
Proof.
  unfold ChatBot_init. split; [|split; [|split]].
  - intros k -> Hk. cbn [or_else]. rewrite Hk. rewrite Hk. now eexists.
  - intros k Hkey -> Hk.
    destruct Hkey as [-> | ->]; cbn [or_else PyStr.truthy]; rewrite Hk; now eexists.
  - intros Hkey Henv.
    destruct Hkey as [-> | ->], Henv as [-> | ->]; reflexivity.
  - intros bot. destruct (or_else key env_key) as [k|]; [|discriminate].
    destruct (PyStr.truthy k) eqn:Hk; [|discriminate].
    intros [= <-]. now split.
Qed.

Lemma ChatBot_init_with_key (OpenAI : str -> option str -> backend)
    (env_key env_url url : option str) (k : str) :
  PyStr.truthy k = true ->
  exists bot,
    ChatBot_init OpenAI env_key env_url (Some k) url = Ok bot
    /\ api_key bot = k
    /\ models bot = available_models
    /\ system_prompts bot = personalities.
Proof.
  intros Hk. unfold ChatBot_init. cbn [or_else]. rewrite Hk. rewrite Hk.
  now eexists.
Qed.

(** X2: in the "API Key" block a chatbot that exists is kept, whatever
    key is entered afterwards; without one, a key that is not empty
    always builds a chatbot with the catalogue, and an empty input
    changes nothing. The block never touches the conversations. *)
Theorem configure_chatbot_spec (OpenAI : str -> option str -> backend)
    (env_key env_url : option str) (entered : str) (s : session) :
  let s' := fst (configure_chatbot OpenAI env_key env_url entered s) in
  conversations s' = conversations s
  /\ active_conversation s' = active_conversation s
  /\ (forall bot, chatbot s = Some bot -> chatbot s' = Some bot)
  /\ (PyStr.truthy entered = false -> s' = s)
  /\ (chatbot s = None -> PyStr.truthy entered = true ->
      exists bot, chatbot s' = Some bot
                  /\ api_key bot = entered
                  /\ models bot = available_models
                  /\ system_prompts bot = personalities)
  /\ (catalogue_bot s -> catalogue_bot s').
Proof.
  unfold configure_chatbot. cbv zeta.
  destruct (PyStr.truthy entered) eqn:He.
  - destruct (chatbot s) as [bot|] eqn:Hbot.
    + cbn [fst]. split; [reflexivity|]. split; [reflexivity|].
      split; [now intros b [= <-]|]. split; [discriminate|].
      split; [discriminate|]. auto.
    + destruct (ChatBot_init_with_key OpenAI env_key env_url None entered He)
        as (bot & -> & Hk & Hm & Hp).
      cbn [fst set_chatbot conversations active_conversation chatbot].
      split; [reflexivity|]. split; [reflexivity|]. split; [discriminate|].
      split; [discriminate|]. split; [now exists bot|].
      intros _. unfold catalogue_bot. cbn [chatbot]. now split.
  - cbn [fst]. split; [reflexivity|]. split; [reflexivity|].
    split; [auto|]. split; [reflexivity|]. split; [discriminate|]. auto.
Qed.

(** *** The store *)

Lemma contains_setitem_same {V : Type} (d : PyDict.dict V) (k : str) (v : V) :
  PyDict.contains (PyDict.setitem d k v) k = true.
Proof. unfold PyDict.contains. now rewrite get_setitem_same. Qed.

Lemma contains_setitem {V : Type} (d : PyDict.dict V) (k k' : str) (v : V) :
  PyDict.contains d k' = true -> PyDict.contains (PyDict.setitem d k v) k' = true.
Proof.
  unfold PyDict.contains. destruct (list_eq_dec N.eq_dec k k') as [->|Hne].
  - now rewrite get_setitem_same.
  - now rewrite get_setitem_other by exact Hne.
Qed.

Lemma contains_remove_other {V : Type} (d : PyDict.dict V) (k k' : str) :
  k <> k' -> PyDict.contains (PyDict.remove d k) k' = PyDict.contains d k'.
Proof. intros H. unfold PyDict.contains. now rewrite get_remove_other. Qed.

Lemma first_key_contains (d : PyDict.dict pyval) (k : str) :
  first_key d = Ok k -> PyDict.contains d k = true.
Proof.
  destruct d as [|[k0 v] d]; [discriminate|]. cbn. intros [= ->].
  unfold PyDict.contains. cbn. now rewrite eqb_refl.
Qed.

Lemma update_settings_store (selected_model personality : str) (temperature : Q)
    (s s' : session) :
  update_settings selected_model personality temperature s = Ok s' ->
  (s' = s /\ (chatbot s = None \/ PyStr.truthy (active_conversation s) = false))
  \/ exists bot d model_id,
       chatbot s = Some bot
       /\ PyDict.get (conversations s) (active_conversation s) = Some (PDict d)
       /\ PyDict.get (models bot) selected_model = Some model_id
       /\ (exists v, PyDict.get d (U "personality") = Some v
                     /\ existsb (eq_str v) (PyDict.keys (system_prompts bot)) = true)
       /\ s' = with_active s
                 (PyDict.update d [ (U "model", PStr model_id);
                                    (U "personality", PStr personality);
                                    (U "temperature", PFloat temperature) ]).
Proof.
  unfold update_settings.
  destruct (chatbot s) as [bot|]; [|intros [= <-]; left; auto].
  destruct (PyStr.truthy (active_conversation s)); [|intros [= <-]; left; auto].
  unfold PyDict.getitem at 1.
  destruct (PyDict.get (conversations s) (active_conversation s))
    as [active_conv|] eqn:Hget; [cbn [bind]|discriminate].
  destruct (PyDict.keys (models bot)); [discriminate|cbn [bind]].
  destruct (subscript active_conv (U "model")); [cbn [bind]|discriminate].
  destruct (subscript active_conv (U "personality")) as [v|] eqn:Hv;
    [cbn [bind]|discriminate].
  unfold index_of.
  destruct (existsb (eq_str v) (PyDict.keys (system_prompts bot))) eqn:Hknown;
    [cbn [bind]|discriminate].
  destruct (subscript active_conv (U "temperature")); [cbn [bind]|discriminate].
  unfold PyDict.getitem at 1.
  destruct (PyDict.get (models bot) selected_model) as [model_id|] eqn:Hid;
    [cbn [bind]|discriminate].
  destruct active_conv as [| | | | | |d]; try discriminate. intros [= <-].
  right. exists bot, d, model_id. repeat split; auto.
  exists v. split; [|exact Hknown].
  cbn [subscript] in Hv. unfold PyDict.getitem in Hv.
  destruct (PyDict.get d (U "personality")); [now inversion Hv | discriminate].
Qed.

(** A turn leaves the session as it is or changes the dictionary of the
    active conversation. *)
Lemma turn_state (bot : ChatBot) (submit_button : bool) (user_input : str)
    (s : session) :
  state (process_user_input bot submit_button user_input s) = s
  \/ exists d',
       state (process_user_input bot submit_button user_input s)
       = with_active s d'.
Proof.
  unfold process_user_input, PyDict.getitem.
  destruct (PyDict.get (conversations s) (active_conversation s))
    as [active_conv|]; [|now left].
  destruct (submit_button && PyStr.truthy (PyStr.strip user_input)); [|now left].
  destruct active_conv as [| | | | | |d0]; try (now left).
  destruct (add_user_message d0 (PyStr.strip user_input)) as [r after_append].
  destruct r as [d2|e].
  - right.
    destruct (assemble_request bot d2) as [messages|]; [|now eexists].
    unfold commit. destruct (generate bot messages d2) as [events r].
    destruct r as [text|e];
      match goal with
      | |- context [append_message d2 ?m] => destruct (append_message d2 m)
      end; now eexists.
  - destruct after_append as [d1|]; [right; now eexists | now left].
Qed.

(** *** The settings *)

Lemma get_update_three (d : PyDict.dict pyval) (a b c : pyval) :
  let d' := PyDict.update d [ (U "model", a); (U "personality", b);
                              (U "temperature", c) ] in
  PyDict.get d' (U "model") = Some a
  /\ PyDict.get d' (U "personality") = Some b
  /\ PyDict.get d' (U "temperature") = Some c
  /\ (forall k, k <> U "model" -> k <> U "personality" -> k <> U "temperature" ->
        PyDict.get d' k = PyDict.get d k).
Proof.
  cbv zeta. unfold PyDict.update. cbn [fold_left fst snd]. repeat split.
  - now rewrite !get_setitem_other, get_setitem_same by key_neq.
  - now rewrite get_setitem_other, get_setitem_same by key_neq.
  - apply get_setitem_same.
  - intros k H1 H2 H3. now rewrite !get_setitem_other by congruence.
Qed.

(** X10: a settings update that goes through writes the identifier of
    the selected model, the selected personality and the temperature of
    the slider into the active conversation and nothing else: its
    title, messages and date, the other conversations, their order and
    the active id are as before. Without a chatbot the block does
    nothing. *)
Theorem update_settings_writes (selected_model personality : str)
    (temperature : Q) (s s' : session) (bot : ChatBot) :
  update_settings selected_model personality temperature s = Ok s' ->
  chatbot s = Some bot ->
  PyStr.truthy (active_conversation s) = true ->
  exists d d' model_id,
    PyDict.get (conversations s) (active_conversation s) = Some (PDict d)
    /\ PyDict.get (models bot) selected_model = Some model_id
    /\ PyDict.get (conversations s') (active_conversation s) = Some (PDict d')
    /\ PyDict.get d' (U "model") = Some (PStr model_id)
    /\ PyDict.get d' (U "personality") = Some (PStr personality)
    /\ PyDict.get d' (U "temperature") = Some (PFloat temperature)
    /\ (forall k, k <> U "model" -> k <> U "personality" ->
          k <> U "temperature" -> PyDict.get d' k = PyDict.get d k)
    /\ (forall id, id <> active_conversation s ->
          PyDict.get (conversations s') id = PyDict.get (conversations s) id)
    /\ PyDict.keys (conversations s') = PyDict.keys (conversations s)
    /\ active_conversation s' = active_conversation s
    /\ chatbot s' = chatbot s.
Proof.
  intros H Hbot Hactive.
  destruct (update_settings_store _ _ _ _ _ H)
    as [[_ [Hnone|Hfalse]]|(bot' & d & m & Hbot' & Hget & Hid & _ & ->)];
    [congruence | congruence |].
  assert (bot' = bot) by congruence. subst bot'.
  destruct (get_update_three d (PStr m) (PStr personality) (PFloat temperature))
    as (H1 & H2 & H3 & H4). cbv zeta in H1, H2, H3, H4.
  eexists d, _, m. split; [exact Hget|]. split; [exact Hid|].
  cbn [with_active set_conversations conversations active_conversation chatbot].
  split; [apply get_setitem_same|].
  split; [exact H1|]. split; [exact H2|]. split; [exact H3|]. split; [exact H4|].
  split; [intros id Hne; apply get_setitem_other; congruence|].
  split; [|split; reflexivity].
  apply keys_setitem_present, contains_in. unfold PyDict.contains. now rewrite Hget.
Qed.

(** With a chatbot, the settings block raises before it writes
    anything when the active id is not a key of the store, when the
    active conversation has no model, and when its personality is not
    one of the select box. *)
Lemma update_settings_failures (selected_model personality : str)
    (temperature : Q) (s : session) (bot : ChatBot) :
  chatbot s = Some bot ->
  PyStr.truthy (active_conversation s) = true ->
  PyDict.keys (models bot) <> [] ->
  (PyDict.get (conversations s) (active_conversation s) = None ->
   update_settings selected_model personality temperature s
   = Err (KeyError (PStr (active_conversation s))))
  /\ (forall d,
        PyDict.get (conversations s) (active_conversation s) = Some (PDict d) ->
        PyDict.get d (U "model") = None ->
        update_settings selected_model personality temperature s
        = Err (KeyError (PStr (U "model"))))
  /\ (forall d model v,
        PyDict.get (conversations s) (active_conversation s) = Some (PDict d) ->
        PyDict.get d (U "model") = Some model ->
        PyDict.get d (U "personality") = Some v ->
        existsb (eq_str v) (PyDict.keys (system_prompts bot)) = false ->
        update_settings selected_model personality temperature s
        = Err (ValueError (U "is not in list"))).
Proof.
  intros Hbot Hactive Hmodels. unfold update_settings. rewrite Hbot, Hactive.
  destruct (PyDict.keys (models bot)) as [|name names] eqn:Hk; [congruence|].
  split; [|split].
  - intros H. unfold PyDict.getitem at 1. now rewrite H.
  - intros d H Hm. unfold PyDict.getitem at 1. rewrite H.
    cbn [bind subscript]. unfold PyDict.getitem at 1. now rewrite Hm.
  - intros d model v H Hm Hv Hunknown. unfold PyDict.getitem at 1. rewrite H.
    cbn [bind subscript]. unfold PyDict.getitem at 1 2. rewrite Hm, Hv.
    cbn [bind]. unfold index_of. now rewrite Hunknown.
Qed.

(** *** Titles and the chat history *)

Lemma first_user_message_skips (l : list (str * str)) (rest : list pyval) :
  first_user_content l = None ->
  first_user_message (messages_from l ++ rest) = first_user_message rest.
Proof.
  induction l as [|[role content] l IH]; [reflexivity|].
  cbn [messages_from map app first_user_message first_user_content fst snd].
  rewrite subscript_role. cbn [bind eq_str].
  destruct (PyStr.eqb role (U "user")); [discriminate|]. exact IH.
Qed.

(** X12: the title is decided by the messages up to the first one of
    role "user": what comes after it is not read, whatever it is, and a
    value without a role before it makes the title fail with the error
    of its subscript. *)
Theorem title_reads_prefix (l : list (str * str)) (rest : list pyval) :
  first_user_content l = None ->
  (forall c,
      get_conversation_title (PList (messages_from l ++ message (U "user") c :: rest))
      = Ok (PyStr.strip (firstn 30 c)
              ++ (if (30 <? length c)%nat then ellipsis else [])))
  /\ (forall bad e, subscript bad (U "role") = Err e ->
        get_conversation_title (PList (messages_from l ++ bad :: rest)) = Err e).
Proof.
  intros Hl. split.
  - intros c. unfold get_conversation_title.
    replace (truthy (PList (messages_from l ++ message (U "user") c :: rest)))
      with true by (destruct l; reflexivity).
    cbn [negb]. rewrite first_user_message_skips by exact Hl.
    cbn [first_user_message]. rewrite subscript_role. cbn [bind eq_str].
    rewrite eqb_refl. cbn [bind].
    change (truthy (message (U "user") c)) with true. cbv iota.
    rewrite subscript_content. cbn [bind]. unfold PyStr.slice_to.
    destruct (30 <? length c)%nat; [reflexivity|]. now rewrite app_nil_r.
  - intros bad e Hbad. unfold get_conversation_title.
    replace (truthy (PList (messages_from l ++ bad :: rest)))
      with true by (destruct l; reflexivity).
    cbn [negb]. rewrite first_user_message_skips by exact Hl.
    cbn [first_user_message]. now rewrite Hbad.
Qed.

(** X13: a title has at most 33 characters, whatever the messages
    are. *)
Theorem title_length (messages : pyval) (title : str) :
  get_conversation_title messages = Ok title -> (length title <= 33)%nat.
Proof.
  unfold get_conversation_title.
  assert (Hnew : (length new_chat <= 33)%nat) by (vm_compute; lia).
  destruct (negb (truthy messages)); [now intros [= <-]|].
  destruct messages as [| | | | |msgs|]; try discriminate.
  destruct (first_user_message msgs) as [[m|]|]; cbn [bind];
    [|now intros [= <-]|discriminate].
  destruct (truthy m); [|now intros [= <-]].
  destruct (subscript m (U "content")) as [content|]; cbn [bind]; [|discriminate].
  destruct content as [| | | |c| |]; try discriminate. intros [= <-].
  unfold PyStr.slice_to.
  assert (Hlen : (length (PyStr.strip (firstn 30 c)) <= 30)%nat)
    by (eapply Nat.le_trans; [apply strip_length | apply firstn_le_length]).
  destruct (30 <? length c)%nat.
  - rewrite length_app.
    apply Nat.le_trans with (30 + length ellipsis)%nat;
      [apply Nat.add_le_mono_r; exact Hlen | apply Nat.leb_le; reflexivity].
  - eapply Nat.le_trans; [exact Hlen | apply Nat.leb_le; reflexivity].
Qed.

(** X14: the chat history renders the messages of role "user" and of
    role "assistant", in their order, each with its content, and passes
    over every other message; a system message is never displayed. *)
Theorem render_history_typed (l : list (str * str)) :
  render_history (PList (messages_from l))
  = Ok (map (fun m => (PyStr.eqb (fst m) (U "user"), PStr (snd m)))
          (filter (fun m => PyStr.eqb (fst m) (U "user")
                            || PyStr.eqb (fst m) (U "assistant")) l)).
Proof.
  unfold render_history.
  assert (H : render_messages (messages_from l)
              = Ok (map (fun m => (PyStr.eqb (fst m) (U "user"), PStr (snd m)))
                      (filter (fun m => PyStr.eqb (fst m) (U "user")
                                        || PyStr.eqb (fst m) (U "assistant")) l))).
  { induction l as [|[role content] l IH]; [reflexivity|].
    cbn [messages_from map render_messages filter fst snd].
    rewrite subscript_role, subscript_content. cbn [bind eq_str].
    fold (messages_from l). rewrite IH. cbn [bind].
    destruct (PyStr.eqb role (U "user")) eqn:Eu; cbn [orb map fst snd].
    - now rewrite Eu.
    - destruct (PyStr.eqb role (U "assistant")); cbn [map fst snd];
        [now rewrite Eu | reflexivity]. }
  destruct l as [|m l]; [reflexivity|].
  change (truthy (PList (messages_from (m :: l)))) with true. cbv iota. exact H.
Qed.

(** *** New chat, import and export *)

(** X15: "new chat" with an unused identifier puts a conversation with
    the default settings and no messages at the end of the store and
    makes it active; the conversations that were there are untouched.
    With an identifier that is a key already, the conversation under it
    is replaced and the store does not grow. *)
Theorem create_new_conversation_spec (uuid now : str) (s : session) :
  let o := create_new_conversation uuid now s in
  ctl o = Rerun
  /\ active_conversation (state o) = uuid
  /\ PyDict.get (conversations (state o)) uuid = Some (new_conversation now)
  /\ shown_title (new_conversation now) = Ok new_chat
  /\ (forall k, k <> uuid ->
        PyDict.get (conversations (state o)) k = PyDict.get (conversations s) k)
  /\ (~ In uuid (PyDict.keys (conversations s)) ->
      conversations (state o) = conversations s ++ [(uuid, new_conversation now)])
  /\ (In uuid (PyDict.keys (conversations s)) ->
      PyDict.keys (conversations (state o)) = PyDict.keys (conversations s)).
Proof.
  cbn. repeat split.
  - apply get_setitem_same.
  - intros k Hk. apply get_setitem_other. congruence.
  - apply keys_setitem_fresh.
  - apply keys_setitem_present.
Qed.

(** X16: an export changes nothing and gives [None] exactly for an
    identifier that is not a key; the export of a conversation that was
    just imported is the serialisation of the parsed document. *)
Theorem export_conversation_spec (conv_id : str) (s : session) :
  (export_conversation conv_id s = None
   <-> PyDict.contains (conversations s) conv_id = false)
  /\ (forall uuid file data, json_load file = Ok data ->
        export_conversation uuid (state (import_conversation uuid file s))
        = Some (json_dumps data)).
Proof.
  split.
  - unfold export_conversation, PyDict.contains.
    destruct (PyDict.get (conversations s) conv_id); split; intros; congruence.
  - intros uuid file data H. unfold export_conversation, import_conversation.
    rewrite H. cbn. now rewrite get_setitem_same.
Qed.

(** *** The streaming generator, without a failure *)

Lemma stream_response_run (bot : ChatBot) (messages : list pyval)
    (model temperature : pyval) (response : gen (option str))
    (chunks : list (option str)) :
  client bot {| req_model := model; req_messages := messages;
                req_temperature := temperature; req_max_tokens := 2000;
                req_stream := true |} = Ok response ->
  run_gen response = (chunks, None) ->
  run_gen (stream_response bot messages model temperature)
  = (contents chunks, None).
Proof.
  intros Hcall Hrun. unfold stream_response.
  rewrite Hcall, run_stream_chunks, Hrun. cbn [fst snd]. now rewrite app_nil_r.
Qed.

(** X3: when the backend answers and its iterator ends normally, the
    generator yields the contents of the chunks that have one, in their
    order and nothing else, and the loop of [main] ends with their
    concatenation. *)
Theorem stream_response_on_success (bot : ChatBot) (messages : list pyval)
    (model temperature : pyval) (response : gen (option str))
    (chunks : list (option str)) :
  client bot {| req_model := model; req_messages := messages;
                req_temperature := temperature; req_max_tokens := 2000;
                req_stream := true |} = Ok response ->
  run_gen response = (chunks, None) ->
  run_gen (stream_response bot messages model temperature)
  = (contents chunks, None)
  /\ snd (consume (stream_response bot messages model temperature) [])
     = Ok (concat (contents chunks)).
Proof.
  intros Hcall Hrun.
  pose proof (stream_response_run bot messages model temperature response
                chunks Hcall Hrun) as H.
  split; [exact H|]. rewrite consume_result, H. reflexivity.
Qed.

(** X20: while the response streams, the display is updated once for
    each yield of the generator, and the update after the yield of rank
    [i] shows the text so far, that is the first [i + 1] yields in their
    order, followed by the cursor. *)
Theorem consume_shows_prefixes (g : gen str) (response_text : str) :
  let chunks := fst (run_gen g) in
  length (fst (consume g response_text)) = length chunks
  /\ forall i, (i < length chunks)%nat ->
       nth_error (fst (consume g response_text)) i
       = Some (StMarkdown (response_text ++ concat (firstn (S i) chunks)
                             ++ [cursor])).
Proof.
  cbv zeta. revert response_text.
  induction g as [|chunk next IH|e]; intros acc; cbn [consume run_gen].
  - split; [reflexivity|]. cbn. intros i H. lia.
  - specialize (IH (acc ++ chunk)).
    destruct (consume next (acc ++ chunk)) as [events r].
    destruct (run_gen next) as [l oe]. cbn [fst length] in *.
    destruct IH as [Hlen Hnth]. split; [now rewrite Hlen|].
    intros [|i] Hi.
    + cbn [nth_error firstn concat]. now rewrite app_nil_r, app_assoc.
    + cbn [nth_error]. rewrite Hnth by lia.
      change (firstn (S (S i)) (chunk :: l)) with (chunk :: firstn (S i) l).
      cbn [concat]. now rewrite <- !app_assoc.
  - split; [reflexivity|]. cbn. intros i H. lia.
Qed.

(** *** One turn, in full *)

Section TurnMore.

Variable bot : ChatBot.
Variable s : session.
Variable d : PyDict.dict pyval.
Variable history : list pyval.
Variable user_input : str.

Hypothesis active_is_d :
  PyDict.get (conversations s) (active_conversation s) = Some (PDict d).
Hypothesis messages_of_d : PyDict.get d (U "messages") = Some (PList history).
Hypothesis accepted : PyStr.truthy (PyStr.strip user_input) = true.

Let text := PyStr.strip user_input.
Let user_message := message (U "user") text.

(** The title that the first message gives. *)
Let first_title : str :=
  PyStr.strip (firstn 30 text) ++ (if (30 <? length text)%nat then ellipsis else []).

(** The dictionary of the conversation after the append of the user
    message, and after the title is set. *)
Let d1 := PyDict.setitem d (U "messages") (PList (history ++ [user_message])).
Let d2 :=
  match history with
  | [] => PyDict.setitem d1 (U "title") (PStr first_title)
  | _ :: _ => d1
  end.

Lemma add_user_message_result : add_user_message d text = (Ok d2, Some d1).
Proof.
  unfold add_user_message.
  rewrite (append_message_ok d history _ messages_of_d).
  fold user_message. fold d1.
  rewrite (messages_of_ok d1 (history ++ [user_message]))
    by apply get_setitem_same.
  cbn [bind]. unfold d2. destruct history as [|m l].
  - cbn [app length Nat.eqb].
    change (PList [user_message]) with (PList (messages_from [(U "user", text)])).
    rewrite title_closed_form. reflexivity.
  - rewrite length_app. cbn [length].
    replace (S (length l) + 1 =? 1)%nat with false; [reflexivity|].
    symmetry. apply Nat.eqb_neq. lia.
Qed.

Lemma d2_messages :
  PyDict.get d2 (U "messages") = Some (PList (history ++ [user_message])).
Proof.
  unfold d2. destruct history.
  - rewrite get_setitem_other by key_neq. apply get_setitem_same.
  - apply get_setitem_same.
Qed.

Lemma d2_other (k : str) :
  k <> U "messages" -> k <> U "title" -> PyDict.get d2 k = PyDict.get d k.
Proof.
  intros H1 H2. unfold d2, d1.
  destruct history; rewrite ?get_setitem_other by congruence; reflexivity.
Qed.

Lemma turn_after_append :
  process_user_input bot true user_input s
  = match assemble_request bot d2 with
    | Ok messages => commit s d2 (generate bot messages d2)
    | Err e => {| state := with_active s d2; shown := []; ctl := Raised e |}
    end.
Proof.
  unfold process_user_input, PyDict.getitem. rewrite active_is_d.
  rewrite accepted. cbn [andb]. fold text. now rewrite add_user_message_result.
Qed.

(** X4: a turn on a conversation whose personality is missing, or is
    not a key of the system prompts, raises [KeyError] after the user
    message is appended: the message stays in the conversation, no
    assistant message follows it and the backend is not asked. *)
Theorem turn_raises_after_append :
  (PyDict.get d (U "personality") = None ->
   process_user_input bot true user_input s
   = {| state := with_active s d2; shown := [];
        ctl := Raised (KeyError (PStr (U "personality"))) |})
  /\ (forall p, PyDict.get d (U "personality") = Some (PStr p) ->
        PyDict.get (system_prompts bot) p = None ->
        process_user_input bot true user_input s
        = {| state := with_active s d2; shown := [];
             ctl := Raised (KeyError (PStr p)) |})
  /\ PyDict.get (conversations (with_active s d2)) (active_conversation s)
     = Some (PDict d2)
  /\ messages_of d2 = Ok (history ++ [user_message]).
Proof.
  split; [|split; [|split]].
  - intros Hp. rewrite turn_after_append.
    unfold assemble_request, PyDict.getitem.
    rewrite d2_other, Hp by key_neq. reflexivity.
  - intros p Hp Hprompt. rewrite turn_after_append.
    unfold assemble_request, PyDict.getitem.
    rewrite d2_other, Hp by key_neq. cbn [bind lookup_value].
    unfold PyDict.getitem. now rewrite Hprompt.
  - apply get_setitem_same.
  - apply messages_of_ok, d2_messages.
Qed.

Section Completed.

Variables personality prompt : str.

Hypothesis personality_of_d :
  PyDict.get d (U "personality") = Some (PStr personality).
Hypothesis prompt_of_personality :
  PyDict.get (system_prompts bot) personality = Some prompt.

Let request := message (U "system") prompt :: last_n 20 (history ++ [user_message]).

(** The text of the assistant message of the turn *)
Let answer : str :=
  match snd (generate bot request d2) with
  | Ok response_text => response_text
  | Err e => generation_failed e
  end.

Let d3 :=
  PyDict.setitem d2 (U "messages")
    (PList (history ++ [user_message; message (U "assistant") answer])).

Lemma turn_completed :
  exists events,
    process_user_input bot true user_input s
    = {| state := with_active s d3; shown := events; ctl := Rerun |}.
Proof.
  rewrite turn_after_append.
  assert (Hreq : assemble_request bot d2 = Ok request).
  { unfold assemble_request, PyDict.getitem.
    rewrite d2_other, personality_of_d by key_neq. cbn [bind lookup_value].
    unfold PyDict.getitem. rewrite prompt_of_personality. cbn [bind].
    now rewrite (messages_of_ok d2 _ d2_messages). }
  rewrite Hreq. unfold commit.
  destruct (generate bot request d2) as [events r] eqn:Hgen.
  assert (Hanswer : answer = match r with
                             | Ok response_text => response_text
                             | Err e => generation_failed e
                             end) by (unfold answer; try rewrite Hgen; reflexivity).
  unfold d3. rewrite Hanswer.
  destruct r as [response_text|e];
    rewrite (append_message_ok d2 _ _ d2_messages), <- app_assoc; now eexists.
Qed.

(** X6: a turn that completes changes the messages of the active
    conversation, and its stored title when the message is the first
    one, and nothing else: the other keys of the conversation, the other
    conversations, their order, the active id and the chatbot are as
    before. A first message of at most 30 characters becomes the title as
    it is. *)
Theorem turn_frame :
  let s' := state (process_user_input bot true user_input s) in
  active_conversation s' = active_conversation s
  /\ chatbot s' = chatbot s
  /\ PyDict.keys (conversations s') = PyDict.keys (conversations s)
  /\ (forall id, id <> active_conversation s ->
        PyDict.get (conversations s') id = PyDict.get (conversations s) id)
  /\ exists d',
       PyDict.get (conversations s') (active_conversation s) = Some (PDict d')
       /\ (forall k, k <> U "messages" -> k <> U "title" ->
             PyDict.get d' k = PyDict.get d k)
       /\ PyDict.get d' (U "title")
          = match history with
            | [] => Some (PStr first_title)
            | _ :: _ => PyDict.get d (U "title")
            end
       /\ ((length text <= 30)%nat -> first_title = text).
Proof.
  destruct turn_completed as (events & ->). cbn [state].
  unfold with_active. cbn [set_conversations conversations active_conversation chatbot].
  split; [reflexivity|]. split; [reflexivity|]. split.
  { apply keys_setitem_present. apply contains_in. unfold PyDict.contains.
    now rewrite active_is_d. }
  split.
  { intros id Hid. apply get_setitem_other. congruence. }
  exists d3. split; [apply get_setitem_same|]. split; [|split].
  - intros k H1 H2. unfold d3. rewrite get_setitem_other by congruence.
    now apply d2_other.
  - unfold d3. rewrite get_setitem_other by key_neq. unfold d2, d1.
    destruct history.
    + apply get_setitem_same.
    + now rewrite get_setitem_other by key_neq.
  - intros Hlen. unfold first_title.
    rewrite firstn_all2 by exact Hlen.
    destruct (Nat.ltb_spec 30 (length text)); [lia|].
    rewrite app_nil_r. unfold text. apply strip_strip.
Qed.

(** X7: when the conversation has no model, or has a model and no
    temperature, the turn still completes: the arguments of the call
    fail inside the [try], the backend is not asked, and the assistant
    message is the text of the [except] branch with the [KeyError]. *)
Theorem turn_without_model :
  (PyDict.get d (U "model") = None ->
   answer = generation_failed (KeyError (PStr (U "model"))))
  /\ (forall model, PyDict.get d (U "model") = Some model ->
        PyDict.get d (U "temperature") = None ->
        answer = generation_failed (KeyError (PStr (U "temperature"))))
  /\ exists events,
       process_user_input bot true user_input s
       = {| state := with_active s d3; shown := events; ctl := Rerun |}
       /\ messages_of d3
          = Ok (history ++ [user_message; message (U "assistant") answer]).
Proof.
  split; [|split].
  - intros Hm. unfold answer, generate, PyDict.getitem.
    now rewrite d2_other, Hm by key_neq.
  - intros model Hm Ht. unfold answer, generate, PyDict.getitem.
    rewrite (d2_other (U "model")), Hm by key_neq.
    now rewrite d2_other, Ht by key_neq.
  - destruct turn_completed as (events & Hrun). exists events.
    split; [exact Hrun|]. apply messages_of_ok. apply get_setitem_same.
Qed.

(** X8: when the backend answers and its iterator ends normally, the
    assistant message of the turn is the concatenation of the contents
    of the chunks, in their order. *)
Theorem turn_on_success (model temperature : pyval)
    (response : gen (option str)) (chunks : list (option str)) :
  PyDict.get d (U "model") = Some model ->
  PyDict.get d (U "temperature") = Some temperature ->
  client bot {| req_model := model; req_messages := request;
                req_temperature := temperature; req_max_tokens := 2000;
                req_stream := true |} = Ok response ->
  run_gen response = (chunks, None) ->
  exists events d',
    process_user_input bot true user_input s
    = {| state := with_active s d'; shown := events; ctl := Rerun |}
    /\ messages_of d'
       = Ok (history ++ [user_message;
                         message (U "assistant") (concat (contents chunks))]).
Proof.
  intros Hm Ht Hcall Hrun.
  destruct turn_completed as (events & Hturn). exists events, d3.
  split; [exact Hturn|].
  assert (Hanswer : answer = concat (contents chunks)).
  { unfold answer, generate, PyDict.getitem.
    rewrite (d2_other (U "model")), Hm by key_neq.
    rewrite d2_other, Ht by key_neq.
    pose proof (consume_result (stream_response bot request model temperature) [])
      as Hc.
    rewrite (stream_response_run bot request model temperature response
               chunks Hcall Hrun) in Hc.
    destruct (consume (stream_response bot request model temperature) [])
      as [ev r]. cbn [snd] in Hc. subst r. reflexivity. }
  rewrite <- Hanswer. apply messages_of_ok. apply get_setitem_same.
Qed.

Lemma is_message_message (role content : str) :
  is_message (message role content) = true.
Proof. reflexivity. Qed.

(** A turn that completes keeps a well formed conversation well
    formed. *)
Lemma turn_completed_well_formed :
  well_formed (PDict d) = true ->
  exists events d',
    process_user_input bot true user_input s
    = {| state := with_active s d'; shown := events; ctl := Rerun |}
    /\ well_formed (PDict d') = true.
Proof.
  intros Hd. destruct turn_completed as (events & Hturn).
  exists events, d3. split; [exact Hturn|].
  unfold well_formed in *. rewrite messages_of_d in Hd.
  apply andb_true_iff in Hd. destruct Hd as [Hmsgs Hvalid].
  unfold d3 at 1. rewrite get_setitem_same.
  apply andb_true_iff. split.
  - rewrite forallb_app, Hmsgs. reflexivity.
  - unfold d3. rewrite valid_setitem_messages. unfold d2, d1.
    destruct history; rewrite ?valid_setitem_title, valid_setitem_messages;
      exact Hvalid.
Qed.

End Completed.

End TurnMore.

(** X5: a turn on a conversation without a list of messages raises and
    changes nothing: [KeyError] when the key is missing, [AttributeError]
    when the value is not a list, [TypeError] when the conversation is
    not a dictionary. *)
Theorem turn_raises_before_append (bot : ChatBot) (s : session)
    (user_input : str) (conv : pyval) :
  PyDict.get (conversations s) (active_conversation s) = Some conv ->
  PyStr.truthy (PyStr.strip user_input) = true ->
  match conv with
  | PDict d =>
      match PyDict.get d (U "messages") with
      | Some (PList _) => True
      | Some _ =>
          process_user_input bot true user_input s
          = {| state := s; shown := []; ctl := Raised AttributeError |}
      | None =>
          process_user_input bot true user_input s
          = {| state := s; shown := [];
               ctl := Raised (KeyError (PStr (U "messages"))) |}
      end
  | _ =>
      process_user_input bot true user_input s
      = {| state := s; shown := []; ctl := Raised TypeError |}
  end.
Proof.
  intros Hconv Hinput. unfold process_user_input, PyDict.getitem.
  rewrite Hconv, Hinput. cbn [andb].
  destruct conv as [| | | | | |d]; try reflexivity.
  unfold add_user_message, append_message, PyDict.getitem.
  destruct (PyDict.get d (U "messages")) as [[| | | | | |]|]; reflexivity || exact I.
Qed.

(** *** Runs of the script *)

Lemma init_stored (uuid now : str) (s : session) :
  initialize_session_state uuid now (stored s) = s.
Proof. now destruct s. Qed.

Lemma main_ended (OpenAI : str -> option str -> backend)
    (env_key env_url : option str) (uuid0 now0 uuid now : str) (w : widgets)
    (r : raw_session) :
  main OpenAI env_key env_url uuid0 now0 uuid now w r
  = ended (and_then (sidebar OpenAI env_key env_url uuid now w
                       (initialize_session_state uuid0 now0 r))
                    (chat_area w)).
Proof. reflexivity. Qed.

Lemma and_then_keeps (I : session -> Prop) (C : control -> Prop) (st : step)
    (k : session -> step) :
  step_keeps I C st -> (forall s, I s -> step_keeps I C (k s)) ->
  step_keeps I C (and_then st k).
Proof. destruct st; cbn; auto. Qed.

Lemma after_keeps (I : session -> Prop) (C : control -> Prop) (o : outcome) :
  I (state o) -> (ctl o = Returned \/ C (ctl o)) -> step_keeps I C (after o).
Proof.
  unfold after. intros HI [E|HC].
  - now rewrite E.
  - destruct (ctl o); cbn; auto.
Qed.

Lemma ended_keeps (I : session -> Prop) (C : control -> Prop) (st : step) :
  step_keeps I C st -> C Returned -> I (fst (ended st)) /\ C (snd (ended st)).
Proof. destruct st; cbn; tauto. Qed.

(** The API key block changes the chatbot only. *)
Lemma configure_chatbot_frame (OpenAI : str -> option str -> backend)
    (env_key env_url : option str) (entered : str) (s : session) :
  let s' := fst (configure_chatbot OpenAI env_key env_url entered s) in
  conversations s' = conversations s
  /\ active_conversation s' = active_conversation s
  /\ (forall bot, chatbot s = Some bot -> s' = s)
  /\ (catalogue_bot s -> catalogue_bot s').
Proof.
  unfold configure_chatbot. cbv zeta.
  destruct (PyStr.truthy entered) eqn:He; [|cbn; auto].
  destruct (chatbot s) as [bot|] eqn:Hbot; [cbn; auto|].
  destruct (ChatBot_init_with_key OpenAI env_key env_url None entered He)
    as (bot & -> & _ & Hm & Hp).
  cbn [fst set_chatbot conversations active_conversation chatbot].
  split; [reflexivity|]. split; [reflexivity|]. split; [discriminate|].
  intros _. unfold catalogue_bot. cbn [chatbot]. now split.
Qed.

(** A deletion of a key of the store, when there is more than one
    conversation and when there is not. *)
Lemma delete_present (k : str) (s : session) :
  PyDict.contains (conversations s) k = true ->
  (1 < length (conversations s))%nat ->
  exists a,
    delete_conversation k s
    = {| state := {| conversations := PyDict.remove (conversations s) k;
                     active_conversation := a;
                     chatbot := chatbot s |};
         shown := []; ctl := Rerun |}
    /\ (a = active_conversation s /\ a <> k
        \/ first_key (PyDict.remove (conversations s) k) = Ok a).
Proof.
  intros Hin Hlen. unfold delete_conversation, PyDict.delitem.
  destruct (Nat.ltb_spec 1 (length (conversations s))) as [_|]; [|lia].
  rewrite Hin. cbn [set_conversations active_conversation].
  destruct (PyStr.eqb (active_conversation s) k) eqn:E.
  - destruct (first_key_nonempty (PyDict.remove (conversations s) k))
      as (a & Ha & _); [pose proof (length_remove _ _ Hin); lia|].
    rewrite Ha. exists a. split; [reflexivity | now right].
  - apply eqb_neq in E. exists (active_conversation s).
    split; [reflexivity | now left].
Qed.

Lemma delete_single (k : str) (s : session) :
  (length (conversations s) <= 1)%nat ->
  delete_conversation k s = {| state := s; shown := []; ctl := Returned |}.
Proof.
  intros Hlen. unfold delete_conversation.
  destruct (Nat.ltb_spec 1 (length (conversations s))); [lia | reflexivity].
Qed.

Lemma in_contains {V : Type} (d : PyDict.dict V) (k : str) (v : V) :
  In (k, v) d -> PyDict.contains d k = true.
Proof. intros H. apply contains_in. now apply (in_map fst) in H. Qed.

(** How the list of the sidebar ends: it goes on with the session as
    it was when no button is pressed and every title can be computed;
    otherwise it ends at the first conversation whose title fails or
    whose button is pressed. *)
Lemma conversation_list_cases (w : widgets) (items : list (str * pyval))
    (s : session) :
  (forall kv, In kv items -> In kv (conversations s)) ->
  match conversation_list w items s with
  | Go s' =>
      s' = s /\ forallb (fun kv => negb (poisoned (snd kv))) items = true
  | Halt s' c =>
      exists before k v rest,
        items = before ++ (k, v) :: rest
        /\ forallb (fun kv => negb (poisoned (snd kv))) before = true
        /\ ((s' = s /\ poisoned v = true /\ exists e, c = Raised e)
            \/ (poisoned v = false /\ s' = set_active s k /\ c = Rerun)
            \/ (poisoned v = false
                /\ (1 < length (conversations s))%nat
                /\ Halt s' c = after (delete_conversation k s)))
  end.
Proof.
  induction items as [|[k v] items IH]; intros Hsub; [now split|].
  cbn [conversation_list].
  assert (Hrest : forall kv, In kv items -> In kv (conversations s))
    by (intros kv H; apply Hsub; now right).
  specialize (IH Hrest).
  assert (Hgo : poisoned v = false ->
          match conversation_list w items s with
          | Go s' =>
              s' = s
              /\ forallb (fun kv => negb (poisoned (snd kv))) ((k, v) :: items) = true
          | Halt s' c =>
              exists before k0 v0 rest,
                (k, v) :: items = before ++ (k0, v0) :: rest
                /\ forallb (fun kv => negb (poisoned (snd kv))) before = true
                /\ ((s' = s /\ poisoned v0 = true /\ exists e, c = Raised e)
                    \/ (poisoned v0 = false /\ s' = set_active s k0 /\ c = Rerun)
                    \/ (poisoned v0 = false
                        /\ (1 < length (conversations s))%nat
                        /\ Halt s' c = after (delete_conversation k0 s)))
          end).
  { intros Hv. destruct (conversation_list w items s) as [s'|s' c].
    - destruct IH as [-> Hall]. split; [reflexivity|].
      cbn [forallb snd]. now rewrite Hv, Hall.
    - destruct IH as (before & k0 & v0 & rest & -> & Hall & Hcases).
      exists ((k, v) :: before), k0, v0, rest. split; [reflexivity|].
      split; [cbn [forallb snd]; now rewrite Hv, Hall | exact Hcases]. }
  destruct (shown_title v) as [title|e] eqn:Htitle.
  - assert (Hv : poisoned v = false) by (unfold poisoned; now rewrite Htitle).
    specialize (Hgo Hv).
    destruct (w_select w k).
    + cbn. exists [], k, v, items. split; [reflexivity|]. split; [reflexivity|].
      right. left. now split.
    + destruct (w_delete w k); [|exact Hgo].
      destruct (Nat.ltb_spec 1 (length (conversations s))) as [Hlen|Hlen].
      * assert (Hin : PyDict.contains (conversations s) k = true)
          by (apply (in_contains _ k v), Hsub; now left).
        destruct (delete_present k s Hin Hlen) as (a & Hdel & _).
        rewrite Hdel. cbn [after ctl state and_then].
        exists [], k, v, items. split; [reflexivity|]. split; [reflexivity|].
        right. right. split; [exact Hv|].
        split; [exact Hlen|]. now rewrite Hdel.
      * rewrite (delete_single k s) by lia. cbn [after ctl state and_then].
        exact Hgo.
  - cbn. exists [], k, v, items. split; [reflexivity|]. split; [reflexivity|].
    left. split; [reflexivity|]. split; [|now exists e].
    unfold poisoned. now rewrite Htitle.
Qed.

(** The list keeps what a click on a conversation and a deletion of a
    conversation keep, and it ends as [C] allows. *)
Lemma conversation_list_keeps (I : session -> Prop) (C : control -> Prop)
    (w : widgets) (s : session) :
  I s ->
  (forall k v, In (k, v) (conversations s) -> I (set_active s k)) ->
  (forall k, PyDict.contains (conversations s) k = true ->
     (1 < length (conversations s))%nat ->
     I (state (delete_conversation k s))) ->
  C Rerun ->
  (poisoned_store (conversations s) = true -> forall e, C (Raised e)) ->
  step_keeps I C (conversation_list w (conversations s) s).
Proof.
  intros HI Hselect Hdelete Hrerun Hraise.
  pose proof (conversation_list_cases w (conversations s) s (fun kv H => H)) as H.
  destruct (conversation_list w (conversations s) s) as [s'|s' c].
  - destruct H as [-> _]. exact HI.
  - destruct H as (before & k & v & rest & Hitems & _ & Hcases).
    assert (Hin : In (k, v) (conversations s))
      by (rewrite Hitems; apply in_elt).
    destruct Hcases as [(-> & Hv & e & ->)|[(_ & -> & ->)|(_ & Hlen & Hdel)]].
    + split; [exact HI|]. apply Hraise. unfold poisoned_store.
      apply existsb_exists. now exists (k, v).
    + split; [now apply (Hselect k v) | exact Hrerun].
    + pose proof (in_contains _ _ _ Hin) as Hk.
      destruct (delete_present k s Hk Hlen) as (a & Heq & _).
      specialize (Hdelete k Hk Hlen). rewrite Heq in Hdel, Hdelete.
      cbn in Hdel. injection Hdel as -> ->. split; [exact Hdelete | exact Hrerun].
Qed.

(** The operations keep the active id in the store. *)
Lemma active_after_update (selected_model personality : str) (temperature : Q)
    (s s' : session) :
  active_in_store s = true ->
  update_settings selected_model personality temperature s = Ok s' ->
  active_in_store s' = true.
Proof.
  unfold active_in_store. intros Hs H.
  destruct (update_settings_store _ _ _ _ _ H)
    as [[-> _]|(bot & d & m & _ & _ & _ & _ & ->)]; [exact Hs|].
  cbn. now apply contains_setitem.
Qed.

Lemma active_after_delete (k : str) (s : session) :
  active_in_store s = true ->
  PyDict.contains (conversations s) k = true ->
  (1 < length (conversations s))%nat ->
  active_in_store (state (delete_conversation k s)) = true.
Proof.
  unfold active_in_store. intros Hs Hk Hlen.
  destruct (delete_present k s Hk Hlen) as (a & -> & [[-> Hne]|Hfirst]); cbn.
  - rewrite contains_remove_other by congruence. exact Hs.
  - now apply first_key_contains.
Qed.

Lemma active_after_import (uuid file : str) (s : session) :
  active_in_store s = true ->
  active_in_store (state (import_conversation uuid file s)) = true.
Proof.
  unfold active_in_store, import_conversation. intros Hs.
  destruct (json_load file); [|exact Hs]. cbn. apply contains_setitem_same.
Qed.

Lemma active_after_clear_all (uuid now : str) (s : session) :
  active_in_store s = true ->
  active_in_store (state (clear_all uuid now s)) = true.
Proof.
  unfold active_in_store, clear_all. intros Hs.
  destruct (conversations s) eqn:E; [cbn; now rewrite E|].
  cbn. unfold PyDict.contains. cbn. now rewrite eqb_refl.
Qed.

Lemma active_after_turn (bot : ChatBot) (submit_button : bool)
    (user_input : str) (s : session) :
  active_in_store s = true ->
  active_in_store (state (process_user_input bot submit_button user_input s)) = true.
Proof.
  unfold active_in_store. intros Hs.
  destruct (turn_state bot submit_button user_input s) as [->|(d' & ->)];
    [exact Hs|]. cbn. now apply contains_setitem.
Qed.

(** The chat area changes the session in a turn only. *)
Lemma chat_area_keeps (I : session -> Prop) (C : control -> Prop)
    (w : widgets) (s : session) :
  I s ->
  (forall bot, chatbot s = Some bot ->
     I (state (process_user_input bot (w_submit w) (quick_input w) s))) ->
  (forall c, C c) ->
  step_keeps I C (chat_area w s).
Proof.
  intros HI Hturn HC. unfold chat_area.
  destruct (chatbot s) as [bot|]; [|now split].
  destruct (PyStr.truthy (active_conversation s)); [|now split].
  destruct (PyDict.getitem (conversations s) (active_conversation s))
    as [active_conv|]; [|now split].
  destruct (_ <- shown_title active_conv ;; _); [|now split].
  apply after_keeps; [now apply Hturn | right; apply HC].
Qed.

(** X9: on a first run, and on a run that finds an active id that is a
    key of the stored conversations, the active id is a key of the
    store when the run ends, however it ends and whatever the widgets
    return. *)
Theorem active_stays_in_store (OpenAI : str -> option str -> backend)
    (env_key env_url : option str) (uuid0 now0 uuid now : str) (w : widgets)
    (r : raw_session) :
  match raw_active_conversation r with
  | Some a =>
      exists convs,
        raw_conversations r = Some convs /\ PyDict.contains convs a = true
  | None => True
  end ->
  active_in_store
    (fst (main OpenAI env_key env_url uuid0 now0 uuid now w r)) = true.
Proof.
  intros Hr.
  assert (H0 : active_in_store (initialize_session_state uuid0 now0 r) = true).
  { unfold active_in_store, initialize_session_state.
    destruct (raw_active_conversation r) as [a|].
    - destruct Hr as (convs & -> & Ha). exact Ha.
    - cbn. apply contains_setitem_same. }
  rewrite main_ended.
  apply (ended_keeps (fun s => active_in_store s = true) (fun _ => True));
    [|exact I].
  apply and_then_keeps.
  - unfold sidebar.
    destruct (configure_chatbot_frame OpenAI env_key env_url (w_api_key w)
                (initialize_session_state uuid0 now0 r)) as (Hc & Ha & _).
    cbv zeta in Hc, Ha.
    set (s1 := fst (configure_chatbot OpenAI env_key env_url (w_api_key w)
                      (initialize_session_state uuid0 now0 r))) in *.
    assert (H1 : active_in_store s1 = true)
      by (unfold active_in_store in *; now rewrite Hc, Ha).
    apply and_then_keeps.
    { destruct (update_settings _ _ _ s1) as [s2|e] eqn:E; cbn; [|now split].
      exact (active_after_update _ _ _ s1 s2 H1 E). }
    intros s2 H2. apply and_then_keeps.
    { destruct (w_new_chat w); [|exact H2].
      apply after_keeps; [|now right]. cbn. apply contains_setitem_same. }
    intros s3 H3. apply and_then_keeps.
    { apply conversation_list_keeps; auto.
      - intros k v Hin. unfold active_in_store. cbn. now apply (in_contains _ k v).
      - intros k. now apply active_after_delete. }
    intros s4 H4. apply and_then_keeps.
    { destruct (w_uploaded_file w) as [file|]; [|exact H4].
      apply after_keeps; [now apply active_after_import | now right]. }
    intros s5 H5. destruct (w_clear_all w); [|exact H5].
    apply after_keeps; [now apply active_after_clear_all | now right].
  - intros s H. apply chat_area_keeps; auto.
    intros bot _. now apply active_after_turn.
Qed.

(** X11: with a chatbot, a run on an active conversation that has no
    model, or whose personality is not one of the select box, raises in
    the settings block of the sidebar, before anything is written and
    before the list of the conversations: whatever the widgets return,
    the run ends there with the session as it was, and so does the next
    one. *)
Theorem settings_block_stops_the_run (OpenAI : str -> option str -> backend)
    (env_key env_url : option str) (uuid0 now0 uuid now : str) (w : widgets)
    (s : session) (bot : ChatBot) (d : PyDict.dict pyval) :
  chatbot s = Some bot ->
  PyStr.truthy (active_conversation s) = true ->
  PyDict.keys (models bot) <> [] ->
  PyDict.get (conversations s) (active_conversation s) = Some (PDict d) ->
  (PyDict.get d (U "model") = None ->
   main OpenAI env_key env_url uuid0 now0 uuid now w (stored s)
   = (s, Raised (KeyError (PStr (U "model")))))
  /\ (forall model v,
        PyDict.get d (U "model") = Some model ->
        PyDict.get d (U "personality") = Some v ->
        existsb (eq_str v) (PyDict.keys (system_prompts bot)) = false ->
        main OpenAI env_key env_url uuid0 now0 uuid now w (stored s)
        = (s, Raised (ValueError (U "is not in list")))).
Proof.
  intros Hbot Hactive Hmodels Hd.
  destruct (update_settings_failures (w_selected_model w) (w_personality w)
              (w_temperature w) s bot Hbot Hactive Hmodels) as (_ & Hm & Hp).
  destruct (configure_chatbot_frame OpenAI env_key env_url (w_api_key w) s)
    as (_ & _ & Hsame & _). cbv zeta in Hsame. specialize (Hsame bot Hbot).
  split.
  - intros Hmodel. rewrite main_ended, init_stored. unfold sidebar.
    rewrite Hsame, (Hm d Hd Hmodel). reflexivity.
  - intros model v Hmodel Hv Hunknown. rewrite main_ended, init_stored.
    unfold sidebar. rewrite Hsame, (Hp d model v Hd Hmodel Hv Hunknown).
    reflexivity.
Qed.

(** X17: without "Send" the chat area changes nothing and asks for no
    rerun, whatever is typed and whichever quick action button is
    pressed: the text of a quick action reaches a turn only in a run in
    which the form is submitted as well. *)
Theorem quick_actions_need_send (w : widgets) (s : session) :
  w_submit w = false ->
  match chat_area w s with
  | Go s' => s' = s
  | Halt s' c => s' = s /\ c <> Rerun
  end.
Proof.
  intros Hsubmit. unfold chat_area.
  destruct (chatbot s) as [bot|]; [|now split].
  destruct (PyStr.truthy (active_conversation s)); [|now split].
  unfold process_user_input. rewrite Hsubmit.
  destruct (PyDict.getitem (conversations s) (active_conversation s))
    as [active_conv|]; [|now split].
  destruct (_ <- shown_title active_conv ;; _); [reflexivity | now split].
Qed.

(** *** Well formed sessions *)

Section DictAll.

Context {V : Type} (P : V -> bool).
Implicit Types (d : PyDict.dict V) (k : str) (v : V).

Lemma forallb_setitem d k v :
  forallb P (map snd d) = true -> P v = true ->
  forallb P (map snd (PyDict.setitem d k v)) = true.
Proof.
  rewrite !forallb_forall. intros Hd Hv x Hx.
  destruct (setitem_snd_in _ _ _ _ Hx) as [->|Hin]; auto.
Qed.

Lemma forallb_remove d k :
  forallb P (map snd d) = true -> forallb P (map snd (PyDict.remove d k)) = true.
Proof.
  induction d as [|[k' v'] d IH]; simpl; [reflexivity|].
  intros H. apply andb_true_iff in H. destruct H as [Hv Hd].
  destruct (PyStr.eqb k' k); simpl; [exact Hd|]. now rewrite Hv, IH.
Qed.

Lemma forallb_get d k v :
  forallb P (map snd d) = true -> PyDict.get d k = Some v -> P v = true.
Proof.
  rewrite forallb_forall. intros Hd Hget. apply Hd.
  apply get_some_in in Hget. now apply (in_map snd) in Hget.
Qed.

End DictAll.

Lemma is_message_inv (m : pyval) :
  is_message m = true ->
  exists d r c,
    m = PDict d
    /\ PyDict.get d (U "role") = Some (PStr r)
    /\ PyDict.get d (U "content") = Some (PStr c).
Proof.
  destruct m as [| | | | | |d]; try discriminate. cbn [is_message].
  destruct (PyDict.get d (U "role")) as [[| | | |r| |]|] eqn:Hr;
    try discriminate.
  destruct (PyDict.get d (U "content")) as [[| | | |c| |]|] eqn:Hc;
    try discriminate.
  intros _. now exists d, r, c.
Qed.

Lemma well_formed_inv (c : pyval) :
  well_formed c = true ->
  exists d history,
    c = PDict d
    /\ PyDict.get d (U "messages") = Some (PList history)
    /\ forallb is_message history = true
    /\ valid_conversation (PDict d) = true.
Proof.
  destruct c as [| | | | | |d]; try discriminate. unfold well_formed.
  destruct (PyDict.get d (U "messages")) as [[| | | | |history|]|] eqn:E;
    try discriminate.
  intros H. apply andb_true_iff in H. destruct H as [Hm Hv].
  now exists d, history.
Qed.

Lemma valid_conversation_inv (d : PyDict.dict pyval) :
  valid_conversation (PDict d) = true ->
  exists model personality temperature,
    PyDict.get d (U "model") = Some model
    /\ PyDict.get d (U "personality") = Some (PStr personality)
    /\ In personality (PyDict.keys personalities)
    /\ PyDict.get d (U "temperature") = Some temperature.
Proof.
  unfold valid_conversation, field_satisfies. intros H.
  apply andb_true_iff in H. destruct H as [H Ht].
  apply andb_true_iff in H. destruct H as [Hm Hp].
  destruct (PyDict.get d (U "model")) as [model|] eqn:Em; [|discriminate].
  destruct (PyDict.get d (U "personality")) as [p|] eqn:Ep; [|discriminate].
  destruct (PyDict.get d (U "temperature")) as [t|] eqn:Et; [|discriminate].
  unfold personality_known in Hp.
  destruct p as [| | | |p| |];
    try (apply existsb_exists in Hp; destruct Hp as (x & _ & Hx); discriminate Hx).
  apply existsb_eq_str in Hp. now exists model, p, t.
Qed.

Lemma first_user_message_ok (l : list pyval) :
  forallb is_message l = true ->
  exists r,
    first_user_message l = Ok r
    /\ match r with Some m => is_message m = true | None => True end.
Proof.
  induction l as [|m l IH]; [now exists None|].
  cbn [forallb]. intros H. apply andb_true_iff in H. destruct H as [Hm Hl].
  destruct (is_message_inv m Hm) as (d & r & c & -> & Hr & Hc).
  cbn [first_user_message subscript]. unfold PyDict.getitem. rewrite Hr.
  cbn [bind]. destruct (eq_str (PStr r) (U "user")); [|now apply IH].
  now exists (Some (PDict d)).
Qed.

Lemma title_ok (l : list pyval) :
  forallb is_message l = true ->
  exists title, get_conversation_title (PList l) = Ok title.
Proof.
  intros Hl. unfold get_conversation_title.
  destruct (negb (truthy (PList l))); [now eexists|].
  destruct (first_user_message_ok l Hl) as ([m|] & -> & Hm); cbn [bind];
    [|now eexists].
  destruct (truthy m); [|now eexists].
  destruct (is_message_inv m Hm) as (d & r & c & -> & _ & Hc).
  cbn [subscript]. unfold PyDict.getitem. rewrite Hc. cbn [bind]. now eexists.
Qed.

Lemma render_messages_ok (l : list pyval) :
  forallb is_message l = true -> exists r, render_messages l = Ok r.
Proof.
  induction l as [|m l IH]; [now eexists|].
  cbn [forallb]. intros H. apply andb_true_iff in H. destruct H as [Hm Hl].
  destruct (is_message_inv m Hm) as (d & r & c & -> & Hr & Hc).
  destruct (IH Hl) as (tail & Htail).
  cbn [render_messages subscript]. unfold PyDict.getitem. rewrite Hr, Hc, Htail.
  cbn [bind].
  destruct (eq_str (PStr r) (U "user")); [now eexists|].
  destruct (eq_str (PStr r) (U "assistant")); now eexists.
Qed.

(** The title of a well formed conversation can be computed. *)
Lemma well_formed_not_poisoned (c : pyval) :
  well_formed c = true -> poisoned c = false.
Proof.
  intros H. destruct (well_formed_inv c H) as (d & history & -> & Hm & Hl & _).
  unfold poisoned, shown_title. cbn [subscript]. unfold PyDict.getitem.
  rewrite Hm. cbn [bind]. now destruct (title_ok history Hl) as (t & ->).
Qed.

Lemma well_formed_store_not_poisoned (convs : PyDict.dict pyval) :
  well_formed_store convs = true -> poisoned_store convs = false.
Proof.
  unfold well_formed_store, poisoned_store. intros H.
  destruct (existsb _ convs) eqn:E; [|reflexivity].
  apply existsb_exists in E. destruct E as ((k & v) & Hin & Hv).
  rewrite forallb_forall in H.
  rewrite well_formed_not_poisoned in Hv; [discriminate|].
  apply H. now apply (in_map snd) in Hin.
Qed.

Lemma well_formed_new_conversation (now : str) :
  well_formed (new_conversation now) = true.
Proof. reflexivity. Qed.

Lemma well_formed_after_update (d : PyDict.dict pyval)
    (model_id personality : str) (temperature : Q) :
  well_formed (PDict d) = true ->
  In model_id (map snd available_models) ->
  In personality (PyDict.keys personalities) ->
  (0 <= temperature <= 1)%Q ->
  well_formed
    (PDict (PyDict.update d [ (U "model", PStr model_id);
                              (U "personality", PStr personality);
                              (U "temperature", PFloat temperature) ])) = true.
Proof.
  intros Hd Hm Hp Ht.
  destruct (well_formed_inv _ Hd) as (d0 & history & [= <-] & Hmsgs & Hl & _).
  destruct (get_update_three d (PStr model_id) (PStr personality)
              (PFloat temperature)) as (_ & _ & _ & Hother).
  cbv zeta in Hother. unfold well_formed.
  rewrite Hother, Hmsgs by key_neq. rewrite Hl. cbn [andb].
  now apply valid_after_update.
Qed.

(** With widgets that return what they offer, the settings block goes
    through on a well formed session. *)
Lemma update_settings_well_formed (w : widgets) (s : session) :
  well_formed_session s -> widgets_offered w ->
  exists s',
    update_settings (w_selected_model w) (w_personality w) (w_temperature w) s
    = Ok s'
    /\ well_formed_session s'.
Proof.
  intros (Hstore & Hactive & Hbot) (Hmodel & Hpers & Htemp).
  unfold update_settings.
  assert (Hs : well_formed_session s) by now split.
  unfold catalogue_bot in Hbot.
  destruct (chatbot s) as [bot|] eqn:Ebot; [|now exists s].
  destruct Hbot as [Hmodels Hprompts].
  destruct (PyStr.truthy (active_conversation s)); [|now exists s].
  unfold active_in_store, PyDict.contains in Hactive.
  unfold PyDict.getitem at 1.
  destruct (PyDict.get (conversations s) (active_conversation s))
    as [active_conv|] eqn:Hget; [|discriminate]. cbn [bind].
  pose proof (forallb_get well_formed _ _ _ Hstore Hget) as Hwf.
  destruct (well_formed_inv _ Hwf) as (d & history & -> & Hmsgs & Hl & Hvalid).
  destruct (valid_conversation_inv d Hvalid) as (m & p & t & Hm & Hp & Hpin & Ht).
  assert (Hknown : existsb (eq_str (PStr p)) (PyDict.keys personalities) = true)
    by now apply existsb_eq_str.
  rewrite Hmodels, Hprompts.
  change (PyDict.keys available_models)
    with [U "Claude Sonnet 4"; U "GPT-4o"; U "Gemini 2.0 Flash"].
  cbn [bind subscript]. unfold PyDict.getitem at 1 2 3. rewrite Hm, Hp, Ht.
  cbn [bind]. unfold index_of. rewrite Hknown.
  cbn [bind]. unfold PyDict.getitem.
  destruct (PyDict.get available_models (w_selected_model w)) as [model_id|] eqn:Hid.
  - cbn [bind]. eexists. split; [reflexivity|].
    split; [|split].
    + cbn [conversations set_conversations]. apply forallb_setitem; [exact Hstore|].
      apply well_formed_after_update; auto.
      apply get_some_in in Hid. now apply (in_map snd) in Hid.
    + unfold active_in_store. cbn. apply contains_setitem_same.
    + unfold catalogue_bot. cbn. rewrite Ebot. now split.
  - apply get_none_notin in Hid. contradiction.
Qed.

(** A turn on a well formed session never raises and leaves a well
    formed session. *)
Lemma turn_well_formed (bot : ChatBot) (submit_button : bool) (user_input : str)
    (s : session) :
  well_formed_session s -> chatbot s = Some bot ->
  well_formed_session (state (process_user_input bot submit_button user_input s))
  /\ forall e, ctl (process_user_input bot submit_button user_input s) <> Raised e.
Proof.
  intros (Hstore & Hactive & Hbot) Ebot.
  assert (Hs : well_formed_session s) by now split.
  unfold catalogue_bot in Hbot. rewrite Ebot in Hbot.
  destruct Hbot as [Hmodels Hprompts].
  unfold active_in_store, PyDict.contains in Hactive.
  destruct (PyDict.get (conversations s) (active_conversation s))
    as [active_conv|] eqn:Hget; [|discriminate].
  pose proof (forallb_get well_formed _ _ _ Hstore Hget) as Hwf.
  destruct (well_formed_inv _ Hwf) as (d & history & -> & Hmsgs & Hl & Hvalid).
  destruct (valid_conversation_inv d Hvalid) as (m & p & t & Hm & Hp & Hpin & Ht).
  destruct (submit_button && PyStr.truthy (PyStr.strip user_input)) eqn:Hsend.
  - apply andb_true_iff in Hsend. destruct Hsend as [-> Haccepted].
    assert (Hprompt : exists prompt, PyDict.get (system_prompts bot) p = Some prompt).
    { rewrite Hprompts. destruct (PyDict.get personalities p) eqn:E; [now eexists|].
      apply get_none_notin in E. contradiction. }
    destruct Hprompt as (prompt & Hprompt).
    destruct (turn_completed_well_formed bot s d history user_input Hget Hmsgs
                Haccepted p prompt Hp Hprompt Hwf) as (events & d' & -> & Hd').
    cbn [state ctl]. split; [|discriminate].
    split; [|split].
    + cbn. apply forallb_setitem; assumption.
    + unfold active_in_store. cbn. apply contains_setitem_same.
    + unfold catalogue_bot. cbn. rewrite Ebot. now split.
  - unfold process_user_input, PyDict.getitem. rewrite Hget, Hsend.
    cbn [state ctl]. split; [exact Hs | discriminate].
Qed.

Lemma well_formed_after_delete (k : str) (s : session) :
  well_formed_session s ->
  PyDict.contains (conversations s) k = true ->
  (1 < length (conversations s))%nat ->
  well_formed_session (state (delete_conversation k s)).
Proof.
  intros (Hstore & Hactive & Hbot) Hk Hlen.
  pose proof (active_after_delete k s Hactive Hk Hlen) as Ha.
  destruct (delete_present k s Hk Hlen) as (a & Heq & _).
  rewrite Heq in Ha |- *. cbn [state] in *.
  split; [|split; [exact Ha | exact Hbot]].
  cbn. now apply forallb_remove.
Qed.

Lemma chat_area_well_formed (w : widgets) (s : session) :
  well_formed_session s ->
  step_keeps well_formed_session (fun c => forall e, c <> Raised e)
    (chat_area w s).
Proof.
  intros Hs. unfold chat_area.
  destruct (chatbot s) as [bot|] eqn:Ebot; [|split; [exact Hs | discriminate]].
  destruct (PyStr.truthy (active_conversation s));
    [|split; [exact Hs | discriminate]].
  pose proof Hs as (Hstore & Hactive & _).
  unfold active_in_store, PyDict.contains in Hactive. unfold PyDict.getitem.
  destruct (PyDict.get (conversations s) (active_conversation s))
    as [active_conv|] eqn:Hget; [|discriminate].
  pose proof (forallb_get well_formed _ _ _ Hstore Hget) as Hwf.
  pose proof (well_formed_not_poisoned _ Hwf) as Htitle. unfold poisoned in Htitle.
  destruct (shown_title active_conv) as [title|]; [|discriminate]. cbn [bind].
  destruct (well_formed_inv _ Hwf) as (d & history & -> & Hmsgs & Hl & _).
  cbn [subscript]. unfold PyDict.getitem. rewrite Hmsgs. cbn [bind].
  assert (Hrender : exists r, render_history (PList history) = Ok r).
  { unfold render_history. destruct (truthy (PList history)); [|now eexists].
    now apply render_messages_ok. }
  destruct Hrender as (r & ->).
  destruct (turn_well_formed bot (w_submit w) (quick_input w) s Hs Ebot)
    as [Hstate Hctl].
  apply after_keeps; [exact Hstate | right; exact Hctl].
Qed.

(** X18: from a well formed session (every conversation has a list of
    messages with a role and a content that are strings, a model of the
    catalogue, a known personality and a temperature between 0 and 1;
    the active id is a key of the store; the chatbot, if any, holds the
    catalogue), with widgets that return what they offer and an upload
    that is refused or is a well formed conversation, a run of [main]
    never ends in an exception, whatever is clicked or typed and
    whatever the backend does, and the session it leaves is well formed
    again. *)
Theorem main_never_raises (OpenAI : str -> option str -> backend)
    (env_key env_url : option str) (uuid0 now0 uuid now : str) (w : widgets)
    (s : session) :
  well_formed_session s -> widgets_offered w -> upload_well_formed w ->
  well_formed_session
    (fst (main OpenAI env_key env_url uuid0 now0 uuid now w (stored s)))
  /\ forall e,
       snd (main OpenAI env_key env_url uuid0 now0 uuid now w (stored s))
       <> Raised e.
Proof.
  intros Hs Hw Hupload. rewrite main_ended, init_stored.
  apply (ended_keeps well_formed_session (fun c => forall e, c <> Raised e));
    [|discriminate].
  apply and_then_keeps; [|intros s' H'; now apply chat_area_well_formed].
  unfold sidebar.
  destruct (configure_chatbot_frame OpenAI env_key env_url (w_api_key w) s)
    as (Hc & Ha & _ & Hcat). cbv zeta in Hc, Ha, Hcat.
  set (s1 := fst (configure_chatbot OpenAI env_key env_url (w_api_key w) s)) in *.
  assert (H1 : well_formed_session s1).
  { destruct Hs as (Hstore & Hactive & Hbot). unfold active_in_store in *.
    split; [now rewrite Hc|].
    split; [unfold active_in_store; now rewrite Hc, Ha | now apply Hcat]. }
  apply and_then_keeps.
  { destruct (update_settings_well_formed w s1 H1 Hw) as (s2 & -> & H2).
    exact H2. }
  intros s2 H2. apply and_then_keeps.
  { destruct (w_new_chat w); [|exact H2].
    apply after_keeps; [|right; discriminate].
    destruct H2 as (Hstore & Hactive & Hbot). split; [|split; [|exact Hbot]].
    - cbn. apply forallb_setitem; [exact Hstore|].
      apply well_formed_new_conversation.
    - unfold active_in_store. cbn. apply contains_setitem_same. }
  intros s3 H3. apply and_then_keeps.
  { apply conversation_list_keeps; auto.
    - intros k v Hin. destruct H3 as (Hstore & Hactive & Hbot).
      split; [exact Hstore|]. split; [|exact Hbot].
      unfold active_in_store. cbn. now apply (in_contains _ k v).
    - intros k. now apply well_formed_after_delete.
    - discriminate.
    - destruct H3 as (Hstore & _).
      rewrite (well_formed_store_not_poisoned _ Hstore). discriminate. }
  intros s4 H4. apply and_then_keeps.
  { unfold upload_well_formed in Hupload.
    destruct (w_uploaded_file w) as [file|]; [|exact H4].
    unfold import_conversation.
    destruct (json_load file) as [data|e0];
      [|apply after_keeps; [exact H4 | now left]].
    apply after_keeps; [|right; discriminate].
    destruct H4 as (Hstore & Hactive & Hbot). split; [|split; [|exact Hbot]].
    - cbn. apply forallb_setitem; assumption.
    - unfold active_in_store. cbn. apply contains_setitem_same. }
  intros s5 H5. destruct (w_clear_all w); [|exact H5].
  unfold clear_all. destruct (conversations s5) eqn:E;
    [apply after_keeps; [exact H5 | now left]|].
  apply after_keeps; [|right; discriminate].
  destruct H5 as (_ & _ & Hbot). split; [reflexivity|]. split; [|exact Hbot].
  unfold active_in_store, PyDict.contains. cbn. now rewrite eqb_refl.
Qed.

(** *** Sessions with a conversation whose title fails *)

Section DictIn.

Context {V : Type}.
Implicit Types (d : PyDict.dict V) (k : str) (v : V).

Lemma in_setitem_same d k v : In (k, v) (PyDict.setitem d k v).
Proof.
  induction d as [|[k0 v0] d IH]; simpl; [now left|].
  destruct (PyStr.eqb k0 k) eqn:E; simpl; [|now right].
  apply eqb_eq in E. subst. now left.
Qed.

Lemma in_setitem_other d k k' v v' :
  k <> k' -> In (k', v') d -> In (k', v') (PyDict.setitem d k v).
Proof.
  intros Hne. induction d as [|[k0 v0] d IH]; simpl; [tauto|].
  destruct (PyStr.eqb k0 k) eqn:E; simpl.
  - apply eqb_eq in E. subst. intros [[= <- <-]|H]; [congruence | now right].
  - intros [H|H]; [now left | right; auto].
Qed.

Lemma in_remove_other d k k' v' :
  k <> k' -> In (k', v') d -> In (k', v') (PyDict.remove d k).
Proof.
  intros Hne. induction d as [|[k0 v0] d IH]; simpl; [tauto|].
  destruct (PyStr.eqb k0 k) eqn:E; simpl.
  - apply eqb_eq in E. subst. intros [[= <- <-]|H]; [congruence | exact H].
  - intros [H|H]; [now left | right; auto].
Qed.

Lemma in_get_nodup d k v :
  NoDup (PyDict.keys d) -> In (k, v) d -> PyDict.get d k = Some v.
Proof.
  induction d as [|[k0 v0] d IH]; simpl; [tauto|].
  intros Hnd. inversion Hnd as [|? ? Hnotin Hnd']; subst.
  intros [[= -> ->]|H].
  - now rewrite eqb_refl.
  - destruct (PyStr.eqb k0 k) eqn:E; [|auto].
    apply eqb_eq in E. subst. apply (in_map fst) in H. contradiction.
Qed.

Lemma nodup_keys_remove d k :
  NoDup (PyDict.keys d) -> NoDup (PyDict.keys (PyDict.remove d k)).
Proof.
  intros H. rewrite keys_remove by exact H. now apply NoDup_filter.
Qed.

Lemma nodup_keys_setitem d k v :
  NoDup (PyDict.keys d) -> NoDup (PyDict.keys (PyDict.setitem d k v)).
Proof.
  intros H. destruct (PyDict.contains d k) eqn:E.
  - apply contains_in in E. now rewrite keys_setitem_present.
  - assert (Hk : ~ In k (PyDict.keys d))
      by (intros Hin; apply contains_in in Hin; congruence).
    rewrite keys_setitem_fresh by exact Hk. unfold PyDict.keys in *.
    rewrite map_app. cbn [map fst].
    apply NoDup_rev in H. rewrite <- (rev_involutive (map fst d ++ [k])).
    apply NoDup_rev. rewrite rev_app_distr. cbn [rev app].
    constructor; [rewrite <- in_rev; exact Hk | exact H].
Qed.

End DictIn.

Lemma poisoned_store_in (convs : PyDict.dict pyval) :
  poisoned_store convs = true
  <-> exists k v, In (k, v) convs /\ poisoned v = true.
Proof.
  unfold poisoned_store. rewrite existsb_exists. split.
  - intros ((k & v) & Hin & Hv). now exists k, v.
  - intros (k & v & Hin & Hv). now exists (k, v).
Qed.

(** The title does not look at the settings. *)
Lemma poisoned_update (d : PyDict.dict pyval) (a b c : pyval) :
  poisoned (PDict (PyDict.update d [ (U "model", a); (U "personality", b);
                                     (U "temperature", c) ]))
  = poisoned (PDict d).
Proof.
  destruct (get_update_three d a b c) as (_ & _ & _ & Hother).
  cbv zeta in Hother. unfold poisoned, shown_title. cbn [subscript].
  unfold PyDict.getitem. now rewrite Hother by key_neq.
Qed.

Lemma poisoned_after_update (selected_model personality : str) (temperature : Q)
    (s s' : session) :
  poisoned_session s ->
  update_settings selected_model personality temperature s = Ok s' ->
  poisoned_session s'
  /\ PyDict.keys (conversations s') = PyDict.keys (conversations s).
Proof.
  intros [Hnd Hp] H.
  destruct (update_settings_store _ _ _ _ _ H)
    as [[-> _]|(bot & d & m & _ & Hget & _ & _ & ->)]; [now split|].
  assert (Hkeys : PyDict.keys (conversations
                     (with_active s
                        (PyDict.update d
                           [ (U "model", PStr m);
                             (U "personality", PStr personality);
                             (U "temperature", PFloat temperature) ])))
                  = PyDict.keys (conversations s)).
  { cbn. apply keys_setitem_present, contains_in. unfold PyDict.contains.
    now rewrite Hget. }
  split; [|exact Hkeys]. split; [now rewrite Hkeys|].
  apply poisoned_store_in in Hp. destruct Hp as (k & v & Hin & Hv).
  apply poisoned_store_in.
  cbn [with_active set_conversations conversations].
  destruct (list_eq_dec N.eq_dec (active_conversation s) k) as [E|E].
  - subst k. rewrite (in_get_nodup _ _ _ Hnd Hin) in Hget.
    injection Hget as ->. eexists _, _. split; [apply in_setitem_same|].
    now rewrite poisoned_update.
  - exists k, v. split; [now apply in_setitem_other | exact Hv].
Qed.

Lemma poisoned_after_create (uuid now : str) (s : session) :
  poisoned_session s ->
  ~ In uuid (PyDict.keys (conversations s)) ->
  poisoned_session (state (create_new_conversation uuid now s)).
Proof.
  intros [Hnd Hp] Hfresh. split; [cbn; now apply nodup_keys_setitem|].
  apply poisoned_store_in in Hp. destruct Hp as (k & v & Hin & Hv).
  apply poisoned_store_in. cbn. exists k, v. split; [|exact Hv].
  apply in_setitem_other; [|exact Hin].
  intros ->. apply Hfresh. now apply (in_map fst) in Hin.
Qed.

Lemma poisoned_after_delete (k : str) (v : pyval) (s : session) :
  poisoned_session s ->
  In (k, v) (conversations s) -> poisoned v = false ->
  (1 < length (conversations s))%nat ->
  exists s',
    after (delete_conversation k s) = Halt s' Rerun /\ poisoned_session s'.
Proof.
  intros [Hnd Hp] Hin Hv Hlen.
  destruct (delete_present k s (in_contains _ _ _ Hin) Hlen) as (a & -> & _).
  eexists. split; [reflexivity|]. split; [cbn; now apply nodup_keys_remove|].
  apply poisoned_store_in in Hp. destruct Hp as (k' & v' & Hin' & Hv').
  apply poisoned_store_in. cbn. exists k', v'. split; [|exact Hv'].
  apply in_remove_other; [|exact Hin'].
  intros ->. pose proof (in_get_nodup _ _ _ Hnd Hin) as H1.
  pose proof (in_get_nodup _ _ _ Hnd Hin') as H2. congruence.
Qed.

(** With a conversation whose title fails, the list of the sidebar
    never comes to its end. *)
Lemma conversation_list_poisoned (w : widgets) (s : session) :
  poisoned_session s ->
  exists s' c,
    conversation_list w (conversations s) s = Halt s' c
    /\ c <> Returned
    /\ poisoned_session s'.
Proof.
  intros Hs.
  pose proof (conversation_list_cases w (conversations s) s (fun kv H => H)) as H.
  destruct (conversation_list w (conversations s) s) as [s'|s' c].
  - destruct H as [_ Hall]. destruct Hs as [_ Hp].
    apply poisoned_store_in in Hp. destruct Hp as (k & v & Hin & Hv).
    rewrite forallb_forall in Hall. specialize (Hall _ Hin). cbn in Hall.
    rewrite Hv in Hall. discriminate.
  - exists s', c. split; [reflexivity|].
    destruct H as (before & k & v & rest & Hitems & _ & Hcases).
    assert (Hin : In (k, v) (conversations s))
      by (rewrite Hitems; apply in_elt).
    destruct Hcases as [(-> & _ & e & ->)|[(_ & -> & ->)|(Hv & Hlen & Hdel)]].
    + split; [discriminate | exact Hs].
    + split; [discriminate | exact Hs].
    + destruct (poisoned_after_delete k v s Hs Hin Hv Hlen) as (s'' & Heq & Hs'').
      rewrite Heq in Hdel. injection Hdel as -> ->.
      split; [discriminate | exact Hs''].
Qed.

(** X19: once the store holds a conversation whose title cannot be
    computed (an imported document without a list of messages, say),
    every run ends in the sidebar, with a rerun or an exception: the
    chat area is not reached, the conversation cannot be deleted and
    "clear all" is not reached either, so the next run finds such a
    conversation again. *)
Theorem poisoned_store_stays (OpenAI : str -> option str -> backend)
    (env_key env_url : option str) (uuid0 now0 uuid now : str) (w : widgets)
    (s : session) :
  poisoned_session s ->
  ~ In uuid (PyDict.keys (conversations s)) ->
  exists s' c,
    sidebar OpenAI env_key env_url uuid now w s = Halt s' c
    /\ main OpenAI env_key env_url uuid0 now0 uuid now w (stored s) = (s', c)
    /\ c <> Returned
    /\ poisoned_session s'.
Proof.
  intros Hs Hfresh.
  assert (Hmain : forall s' c,
             sidebar OpenAI env_key env_url uuid now w s = Halt s' c ->
             main OpenAI env_key env_url uuid0 now0 uuid now w (stored s) = (s', c))
    by (intros s' c H; rewrite main_ended, init_stored, H; reflexivity).
  assert (Hgoal : exists s' c,
             sidebar OpenAI env_key env_url uuid now w s = Halt s' c
             /\ c <> Returned /\ poisoned_session s').
  { unfold sidebar.
    destruct (configure_chatbot_frame OpenAI env_key env_url (w_api_key w) s)
      as (Hc & _). cbv zeta in Hc.
    set (s1 := fst (configure_chatbot OpenAI env_key env_url (w_api_key w) s)) in *.
    assert (H1 : poisoned_session s1)
      by (unfold poisoned_session; now rewrite Hc).
    destruct (update_settings _ _ _ s1) as [s2|e] eqn:E; cbn [and_then].
    - destruct (poisoned_after_update _ _ _ s1 s2 H1 E) as [H2 Hkeys].
      destruct (w_new_chat w).
      + eexists _, Rerun. split; [reflexivity|]. split; [discriminate|].
        apply poisoned_after_create; [exact H2|]. now rewrite Hkeys, Hc.
      + cbn [and_then].
        destruct (conversation_list_poisoned w s2 H2) as (s' & c & -> & Hc' & Hs').
        now exists s', c.
    - exists s1, (Raised e). split; [reflexivity|]. split; [discriminate | exact H1]. }
  destruct Hgoal as (s' & c & H & Hc & Hs'). exists s', c.
  split; [exact H|]. split; [now apply Hmain|]. now split.
Qed.

End MoreProperties.

(** ** The scenarios, run *)

Ltac distinct_keys :=
  repeat constructor; cbn;
  repeat match goal with
         | |- ~ _ => intro
         | H : _ \/ _ |- _ => destruct H
         | H : False |- _ => destruct H
         | H : _ = _ |- _ => vm_compute in H; discriminate H
         end.

(** C1, counterexample: the first session is valid; importing the
    export of a conversation with a foreign model, an unknown personality
    and the temperature 1.5 succeeds and leaves an invalid store. *)
Lemma import_breaks_invariant :
  store_valid (conversations first_session) = true
  /\ json_load (json_dumps foreign_conversation) = Ok foreign_conversation
  /\ ctl (import_conversation (U "conv-2") (json_dumps foreign_conversation)
            first_session) = Rerun
  /\ store_valid
       (conversations
          (state (import_conversation (U "conv-2")
                    (json_dumps foreign_conversation) first_session))) = false.
Proof. repeat split; vm_compute; reflexivity. Qed.

Lemma store_invariant_witness :
  store_valid (conversations first_session) = true
  /\ store_valid
       (conversations
          (state (create_new_conversation (U "conv-2") (U "2024-01-01T11:00:00")
                    first_session))) = true.
Proof.
  split; [reflexivity|].
  apply (store_invariant first_session). reflexivity.
Defined.

(** C2, counterexample: the documents [{}] (every key is missing) and
    one with an [id] and an unknown key are imported without an error:
    each is stored as the new active conversation. *)
Lemma import_accepts_any_shape :
  json_load (U "{}") = Ok (PDict [])
  /\ import_conversation (U "conv-2") (U "{}") first_session
     = {| state :=
            {| conversations := conversations first_session ++ [(U "conv-2", PDict [])];
               active_conversation := U "conv-2";
               chatbot := None |};
          shown := [StSuccess import_ok];
          ctl := Rerun |}
  /\ reports_error (import_conversation (U "conv-2") (U "{}") first_session) = false
  /\ json_load (json_dumps odd_document) = Ok odd_document
  /\ import_conversation (U "conv-2") (json_dumps odd_document) first_session
     = {| state :=
            {| conversations := conversations first_session ++ [(U "conv-2", odd_document)];
               active_conversation := U "conv-2";
               chatbot := None |};
          shown := [StSuccess import_ok];
          ctl := Rerun |}.
Proof. repeat split; vm_compute; reflexivity. Qed.

Lemma import_conversation_spec_witness :
  json_load (U "not json") = Err Json.decode_error
  /\ state (import_conversation (U "conv-2") (U "not json") first_session)
     = first_session.
Proof.
  assert (H : json_load (U "not json") = Err Json.decode_error) by reflexivity.
  split; [exact H|].
  destruct (import_conversation_spec (U "conv-2") (U "not json") first_session)
    as [_ Hfail].
  destruct (Hfail _ H) as [Heq _]. rewrite Heq. reflexivity.
Defined.

(** C3, counterexample: deleting the only conversation of the first
    session returns without reporting anything. *)
Lemma delete_last_reports_nothing :
  length (conversations first_session) = 1%nat
  /\ delete_conversation (U "conv-1") first_session
     = {| state := first_session; shown := []; ctl := Returned |}
  /\ reports_error (delete_conversation (U "conv-1") first_session) = false.
Proof. repeat split; vm_compute; reflexivity. Qed.

Lemma delete_conversation_spec_witness :
  NoDup (PyDict.keys (conversations two_conversations))
  /\ (1 < length (conversations two_conversations))%nat
  /\ PyDict.contains (conversations two_conversations) (U "conv-2") = true
  /\ active_conversation two_conversations = U "conv-2"
  /\ hd_error
       (PyDict.keys
          (conversations (state (delete_conversation (U "conv-2") two_conversations))))
     = Some (active_conversation
               (state (delete_conversation (U "conv-2") two_conversations))).
Proof.
  assert (Hnd : NoDup (PyDict.keys (conversations two_conversations)))
    by distinct_keys.
  assert (Hlen : (1 < length (conversations two_conversations))%nat)
    by (vm_compute; lia).
  assert (Hin : PyDict.contains (conversations two_conversations) (U "conv-2") = true)
    by reflexivity.
  split; [exact Hnd|]. split; [exact Hlen|]. split; [exact Hin|].
  split; [reflexivity|].
  destruct (delete_conversation_spec (U "conv-2") two_conversations Hnd)
    as [_ Hmany].
  destruct (Hmany Hlen Hin) as (_ & _ & _ & _ & _ & Hactive & _).
  apply Hactive. reflexivity.
Defined.

(** C4, counterexample: the content " hi" (3 characters) is not returned
    unchanged, and the title of a content of 31 characters whose 30th is
    a space is not its first 30 characters followed by "...". *)
Lemma title_is_stripped :
  get_conversation_title (PList [message (U "user") (U " hi")]) = Ok (U "hi")
  /\ U "hi" <> U " hi"
  /\ (30 < length long_content)%nat
  /\ get_conversation_title (PList [message (U "user") long_content])
     = Ok (U "abcdefghijklmnopqrstuvwxyzabc...")
  /\ U "abcdefghijklmnopqrstuvwxyzabc..." <> firstn 30 long_content ++ ellipsis.
Proof.
  repeat split; try (vm_compute; reflexivity); try (vm_compute; lia);
    intro H; vm_compute in H; discriminate H.
Qed.

Lemma title_of_messages_witness :
  first_user_content [(U "assistant", U "Hello"); (U "user", U "Hi")] = Some (U "Hi")
  /\ get_conversation_title
       (PList (messages_from [(U "assistant", U "Hello"); (U "user", U "Hi")]))
     = Ok (U "Hi").
Proof.
  split; [reflexivity|].
  destruct (title_of_messages [(U "assistant", U "Hello"); (U "user", U "Hi")])
    as (_ & _ & _ & Hsame).
  apply Hsame; [reflexivity | vm_compute; lia | reflexivity].
Defined.

(** C5, counterexample: the backend streams "Hel" and then fails. The
    assistant message that the turn appends is "Hel" followed by the
    error message: it does not begin with the error marker, nor with
    the cross mark. *)
Lemma fault_after_text_not_marked :
  let bot := stub_bot faulty_backend in
  let o := process_user_input bot true (U "Hi") (with_bot bot first_session) in
  let content := U "Hel" ++ error_marker ++ U "Connection error." in
  ctl o = Rerun
  /\ (conv <- PyDict.getitem (conversations (state o)) (U "conv-1") ;;
      subscript conv (U "messages"))
     = Ok (PList [message (U "user") (U "Hi"); message (U "assistant") content])
  /\ PyStr.startswith error_marker content = false
  /\ hd_error content <> Some cross_mark.
Proof.
  repeat split; try (vm_compute; reflexivity).
  intro H. vm_compute in H. discriminate H.
Qed.

Lemma fault_is_committed_witness :
  let bot := stub_bot faulty_backend in
  let s := with_bot bot first_session in
  PyDict.get (conversations s) (active_conversation s) = Some (PDict first_conversation)
  /\ PyStr.truthy (PyStr.strip (U " Hi ")) = true
  /\ exists events d3,
       process_user_input bot true (U " Hi ") s
       = {| state := with_active s d3; shown := events; ctl := Rerun |}
       /\ messages_of d3
          = Ok [message (U "user") (U "Hi");
                message (U "assistant")
                  (U "Hel" ++ error_marker ++ U "Connection error.")].
Proof.
  intros bot s. split; [reflexivity|]. split; [reflexivity|].
  destruct (fault_is_committed bot s first_conversation [] default_personality
              assistant_prompt (U " Hi ") eq_refl eq_refl eq_refl eq_refl
              (PStr default_model) (PFloat default_temperature)
              [Some (U "Hel")] (APIError (U "Connection error."))
              eq_refl eq_refl eq_refl
              (or_intror (ex_intro _ _ (conj eq_refl eq_refl))))
    as (events & d3 & Hrun & _ & Hmessages & _).
  exists events, d3. split; [exact Hrun | exact Hmessages].
Defined.

Lemma stream_response_on_failure_witness :
  backend_fails faulty_backend
    {| req_model := PStr default_model; req_messages := [];
       req_temperature := PFloat default_temperature;
       req_max_tokens := 2000; req_stream := true |}
    [Some (U "Hel")] (APIError (U "Connection error."))
  /\ run_gen (stream_response (stub_bot faulty_backend) []
                (PStr default_model) (PFloat default_temperature))
     = ([U "Hel"; error_marker ++ U "Connection error."], None).
Proof.
  assert (H : backend_fails faulty_backend
                {| req_model := PStr default_model; req_messages := [];
                   req_temperature := PFloat default_temperature;
                   req_max_tokens := 2000; req_stream := true |}
                [Some (U "Hel")] (APIError (U "Connection error."))).
  { right. eexists. split; reflexivity. }
  split; [exact H|].
  exact (stream_response_on_failure (stub_bot faulty_backend) [] _ _ _ _ H).
Defined.

Lemma request_of_turn_witness :
  let bot := stub_bot faulty_backend in
  let s := with_bot bot first_session in
  PyDict.get (conversations s) (active_conversation s) = Some (PDict first_conversation)
  /\ PyStr.truthy (PyStr.strip (U " Hi ")) = true
  /\ exists d2,
       assemble_request bot d2
       = Ok [message (U "system") assistant_prompt; message (U "user") (U "Hi")].
Proof.
  intros bot s. split; [reflexivity|]. split; [reflexivity|].
  destruct (request_of_turn bot s first_conversation [] default_personality
              assistant_prompt (U " Hi ") eq_refl eq_refl eq_refl eq_refl eq_refl)
    as (d2 & Hrequest & _).
  exists d2. exact Hrequest.
Defined.

Lemma turn_adds_two_messages_witness :
  let bot := stub_bot (stub_backend [Some (U "Hel"); None; Some (U "lo!")] None) in
  let s := with_bot bot first_session in
  PyDict.get (conversations s) (active_conversation s) = Some (PDict first_conversation)
  /\ PyStr.truthy (PyStr.strip (U "Hi")) = true
  /\ exists content events d3,
       process_user_input bot true (U "Hi") s
       = {| state := with_active s d3; shown := events; ctl := Rerun |}
       /\ messages_of d3
          = Ok [message (U "user") (U "Hi"); message (U "assistant") content].
Proof.
  intros bot s. split; [reflexivity|]. split; [reflexivity|].
  destruct (turn_adds_two_messages bot s first_conversation [] default_personality
              assistant_prompt (U "Hi") eq_refl eq_refl eq_refl eq_refl)
    as [Haccepted _].
  destruct (Haccepted eq_refl) as (content & events & d3 & Hrun & _ & Hmessages & _).
  exists content, events, d3. split; [exact Hrun | exact Hmessages].
Defined.

Lemma export_import_roundtrip_witness :
  PyDict.get (conversations first_session) (U "conv-1") = Some (PDict first_conversation)
  /\ json_load (json_dumps (PDict first_conversation)) = Ok (PDict first_conversation)
  /\ exists blob,
       export_conversation (U "conv-1") first_session = Some blob
       /\ PyDict.get
            (conversations (state (import_conversation (U "conv-2") blob first_session)))
            (U "conv-2")
          = Some (PDict first_conversation).
Proof.
  assert (Hjson : json_load (json_dumps (PDict first_conversation))
                  = Ok (PDict first_conversation)) by (vm_compute; reflexivity).
  split; [reflexivity|]. split; [exact Hjson|].
  destruct (export_import_roundtrip (U "conv-1") (U "conv-2") first_session
              (PDict first_conversation) eq_refl Hjson)
    as (blob & c' & Hexport & Hget & _ & Hsame & _).
  exists blob. split; [exact Hexport|]. rewrite Hget, Hsame. reflexivity.
Defined.

Lemma delete_absent_raises_witness :
  (1 < length (conversations two_conversations))%nat
  /\ PyDict.contains (conversations two_conversations) (U "conv-9") = false
  /\ delete_conversation (U "conv-9") two_conversations
     = {| state := two_conversations; shown := [];
          ctl := Raised (KeyError (PStr (U "conv-9"))) |}.
Proof.
  assert (Hlen : (1 < length (conversations two_conversations))%nat)
    by (vm_compute; lia).
  split; [exact Hlen|]. split; [reflexivity|].
  apply (delete_absent_raises (U "conv-9") two_conversations Hlen). reflexivity.
Defined.

(** With the reference runtime the hypothesis of the round trip holds
    for every canonical conversation: such a conversation of the store
    is exported and imported back without a change. *)
Lemma reference_export_import (id uuid : str) (s : session) (c : pyval) :
  PyDict.get (conversations s) id = Some c ->
  Json.canonical c = true ->
  exists blob,
    export_conversation id s = Some blob
    /\ PyDict.get (conversations (state (import_conversation uuid blob s))) uuid
       = Some c.
Proof.
  intros Hc Hcanonical. exists (Json.dumps c).
  unfold export_conversation, import_conversation. rewrite Hc.
  split; [reflexivity|].
  change (json_load (Json.dumps c)) with (Json.loads (Json.dumps c)).
  rewrite (JsonFacts.loads_dumps c Hcanonical). cbn [state conversations].
  apply get_setitem_same.
Qed.

(** The conversations that the program creates are canonical when the
    time stamp is text, and so is a message made of text. *)
Lemma new_conversation_canonical (now : str) :
  forallb Json.scalar now = true ->
  Json.canonical (new_conversation now) = true.
Proof.
  intros H. cbn [Json.canonical new_conversation map fst snd forallb].
  rewrite H. reflexivity.
Qed.

Lemma message_canonical (role content : str) :
  forallb Json.scalar role = true -> forallb Json.scalar content = true ->
  Json.canonical (message role content) = true.
Proof.
  intros Hr Hc. cbn [Json.canonical message map fst snd forallb].
  rewrite Hr, Hc. reflexivity.
Qed.

(** The first turn of a session: the backend streams "Hel", an empty
    chunk and "lo!". The conversation then holds the user message and
    the answer "Hello!", and its title is "Hi". *)
Lemma hello_scenario :
  let bot := stub_bot (stub_backend [Some (U "Hel"); None; Some (U "lo!")] None) in
  let o := process_user_input bot true (U " Hi ") (with_bot bot first_session) in
  ctl o = Rerun
  /\ (conv <- PyDict.getitem (conversations (state o)) (U "conv-1") ;;
      subscript conv (U "messages"))
     = Ok (PList [message (U "user") (U "Hi");
                  message (U "assistant") (U "Hello!")])
  /\ (conv <- PyDict.getitem (conversations (state o)) (U "conv-1") ;;
      subscript conv (U "title"))
     = Ok (PStr (U "Hi")).
Proof. repeat split; vm_compute; reflexivity. Qed.

(** *** The rest of the script, run *)

(** X1: an empty key in the argument and a key in the environment. *)
Lemma chatbot_init_spec_witness :
  exists bot,
    ChatBot_init stub_openai (Some (U "Sk-kkAI-env")) None (Some []) None = Ok bot
    /\ api_key bot = U "Sk-kkAI-env".
Proof.
  destruct (chatbot_init_spec stub_openai (Some (U "Sk-kkAI-env")) None
              (Some []) None) as (_ & Henv & _).
  destruct (Henv (U "Sk-kkAI-env") (or_intror eq_refl) eq_refl eq_refl)
    as (bot & Hinit & Hkey & _).
  exists bot. split; [exact Hinit | exact Hkey].
Defined.

(** X2: another key is entered when the chatbot exists. *)
Lemma configure_chatbot_spec_witness :
  chatbot (fst (configure_chatbot stub_openai None None (U "Sk-kkAI-other")
                  (with_bot keyed_bot first_session)))
  = Some keyed_bot.
Proof.
  destruct (configure_chatbot_spec stub_openai None None (U "Sk-kkAI-other")
              (with_bot keyed_bot first_session)) as (_ & _ & Hkept & _).
  exact (Hkept keyed_bot eq_refl).
Defined.

(** X3: the backend streams "Hel", a chunk without content and "lo!". *)
Lemma stream_response_on_success_witness :
  let bot := stub_bot (stub_backend [Some (U "Hel"); None; Some (U "lo!")] None) in
  run_gen (stream_response bot [] (PStr default_model) (PFloat default_temperature))
  = ([U "Hel"; U "lo!"], None)
  /\ snd (consume (stream_response bot [] (PStr default_model)
                     (PFloat default_temperature)) [])
     = Ok (U "Hello!").
Proof.
  intros bot.
  exact (stream_response_on_success bot [] (PStr default_model)
           (PFloat default_temperature)
           (chunks_then [Some (U "Hel"); None; Some (U "lo!")] None)
           [Some (U "Hel"); None; Some (U "lo!")] eq_refl eq_refl).
Defined.

(** X4: a message is sent in the imported conversation of the
    personality "Pirate". *)
Lemma turn_raises_after_append_witness :
  PyDict.get (conversations foreign_session) (active_conversation foreign_session)
  = Some (PDict foreign_dict)
  /\ PyDict.get (system_prompts keyed_bot) (U "Pirate") = None
  /\ ctl (process_user_input keyed_bot true (U "Ahoy") foreign_session)
     = Raised (KeyError (PStr (U "Pirate")))
  /\ (conv <- PyDict.getitem
                (conversations
                   (state (process_user_input keyed_bot true (U "Ahoy")
                             foreign_session)))
                (U "conv-2") ;;
      subscript conv (U "messages"))
     = Ok (PList [message (U "user") (U "Ahoy")]).
Proof.
  split; [reflexivity|]. split; [reflexivity|].
  destruct (turn_raises_after_append keyed_bot foreign_session foreign_dict []
              (U "Ahoy") eq_refl eq_refl eq_refl) as (_ & Hunknown & _).
  rewrite (Hunknown (U "Pirate") eq_refl eq_refl).
  split; reflexivity.
Defined.

(** X5: a message is sent in the imported conversation [{}]. *)
Lemma turn_raises_before_append_witness :
  PyDict.get (conversations locked_session) (active_conversation locked_session)
  = Some (PDict [])
  /\ process_user_input keyed_bot true (U "Hi") locked_session
     = {| state := locked_session; shown := [];
          ctl := Raised (KeyError (PStr (U "messages"))) |}.
Proof.
  split; [reflexivity|].
  exact (turn_raises_before_append keyed_bot locked_session (U "Hi") (PDict [])
           eq_refl eq_refl).
Defined.

(** X6: the first message of the second of two conversations. *)
Lemma turn_frame_witness :
  let s := with_bot keyed_bot two_conversations in
  let s' := state (process_user_input keyed_bot true (U " Hi ") s) in
  active_conversation s' = U "conv-2"
  /\ PyDict.keys (conversations s') = [U "conv-1"; U "conv-2"]
  /\ PyDict.get (conversations s') (U "conv-1")
     = PyDict.get (conversations s) (U "conv-1").
Proof.
  intros s s'.
  destruct (turn_frame keyed_bot s
              [ (U "title", PStr new_chat);
                (U "messages", PList []);
                (U "created_at", PStr (U "2024-01-01T11:00:00"));
                (U "model", PStr default_model);
                (U "personality", PStr default_personality);
                (U "temperature", PFloat default_temperature) ]
              [] (U " Hi ") eq_refl eq_refl eq_refl
              default_personality assistant_prompt eq_refl eq_refl)
    as (Hactive & _ & Hkeys & Hothers & _).
  split; [exact Hactive|]. split; [exact Hkeys|].
  apply Hothers. intro H. vm_compute in H. discriminate H.
Defined.

(** X7: a message is sent in a conversation without a model. *)
Lemma turn_without_model_witness :
  PyDict.get (conversations bare_session) (active_conversation bare_session)
  = Some (PDict bare_conversation)
  /\ PyDict.get bare_conversation (U "model") = None
  /\ exists events d3,
       process_user_input keyed_bot true (U "Hi") bare_session
       = {| state := with_active bare_session d3; shown := events; ctl := Rerun |}
       /\ messages_of d3
          = Ok [message (U "user") (U "Hi");
                message (U "assistant")
                  (generation_failed (KeyError (PStr (U "model"))))].
Proof.
  split; [reflexivity|]. split; [reflexivity|].
  destruct (turn_without_model keyed_bot bare_session bare_conversation []
              (U "Hi") eq_refl eq_refl eq_refl
              default_personality assistant_prompt eq_refl eq_refl)
    as (Hanswer & _ & events & Hrun & Hmessages).
  eexists events, _. split; [exact Hrun|].
  rewrite Hmessages, (Hanswer eq_refl). reflexivity.
Defined.

(** X8: the backend streams "Hel", a chunk without content and "lo!". *)
Lemma turn_on_success_witness :
  let bot := stub_bot (stub_backend [Some (U "Hel"); None; Some (U "lo!")] None) in
  let s := with_bot bot first_session in
  exists events d',
    process_user_input bot true (U "Hi") s
    = {| state := with_active s d'; shown := events; ctl := Rerun |}
    /\ messages_of d'
       = Ok [message (U "user") (U "Hi"); message (U "assistant") (U "Hello!")].
Proof.
  intros bot s.
  exact (turn_on_success bot s first_conversation [] (U "Hi")
           eq_refl eq_refl eq_refl default_personality assistant_prompt
           eq_refl eq_refl (PStr default_model) (PFloat default_temperature)
           (chunks_then [Some (U "Hel"); None; Some (U "lo!")] None)
           [Some (U "Hel"); None; Some (U "lo!")]
           eq_refl eq_refl eq_refl eq_refl).
Defined.

(** X9: with two conversations, the delete button of the first one is
    pressed. *)
Lemma active_stays_in_store_witness :
  active_in_store two_conversations = true
  /\ active_in_store
       (fst (main stub_openai None None (U "conv-0") (U "2024-01-01T09:00:00")
               (U "conv-3") (U "2024-01-01T12:00:00") deleting_widgets
               (stored two_conversations))) = true.
Proof.
  split; [reflexivity|].
  apply (active_stays_in_store stub_openai None None (U "conv-0")
           (U "2024-01-01T09:00:00") (U "conv-3") (U "2024-01-01T12:00:00")
           deleting_widgets (stored two_conversations)).
  exists (conversations two_conversations). split; reflexivity.
Defined.

(** X10: "GPT-4o", "Teacher" and 0.5 are selected in the first
    session. *)
Lemma update_settings_writes_witness :
  let s := with_bot keyed_bot first_session in
  exists s' d',
    update_settings (U "GPT-4o") (U "Teacher") (1 # 2) s = Ok s'
    /\ PyDict.get (conversations s') (U "conv-1") = Some (PDict d')
    /\ PyDict.get d' (U "model") = Some (PStr (U "openai/gpt-4o"))
    /\ PyDict.get d' (U "personality") = Some (PStr (U "Teacher"))
    /\ PyDict.get d' (U "temperature") = Some (PFloat (1 # 2))
    /\ PyDict.get d' (U "created_at") = Some (PStr (U "2024-01-01T10:00:00")).
Proof.
  intros s.
  assert (Hrun : update_settings (U "GPT-4o") (U "Teacher") (1 # 2) s
                 = Ok (with_active s
                         (PyDict.update first_conversation
                            [ (U "model", PStr (U "openai/gpt-4o"));
                              (U "personality", PStr (U "Teacher"));
                              (U "temperature", PFloat (1 # 2)) ])))
    by reflexivity.
  destruct (update_settings_writes (U "GPT-4o") (U "Teacher") (1 # 2) s _
              keyed_bot Hrun eq_refl eq_refl)
    as (d & d' & model_id & Hd & Hid & Hd' & Hm & Hp & Ht & Hother & _).
  change (Some (PDict first_conversation) = Some (PDict d)) in Hd.
  injection Hd as <-.
  change (Some (U "openai/gpt-4o") = Some model_id) in Hid.
  injection Hid as <-.
  eexists _, d'. split; [exact Hrun|]. split; [exact Hd'|].
  split; [exact Hm|]. split; [exact Hp|]. split; [exact Ht|].
  rewrite Hother; [reflexivity | | |]; intro H; vm_compute in H; discriminate H.
Defined.

(** X11: a run after [foreign_conversation] is imported, whose
    personality is "Pirate". *)
Lemma settings_block_stops_the_run_witness :
  PyDict.get (conversations foreign_session) (active_conversation foreign_session)
  = Some (PDict foreign_dict)
  /\ main stub_openai None None (U "conv-0") (U "2024-01-01T09:00:00")
       (U "conv-3") (U "2024-01-01T12:00:00") deleting_widgets
       (stored foreign_session)
     = (foreign_session, Raised (ValueError (U "is not in list"))).
Proof.
  split; [reflexivity|].
  destruct (settings_block_stops_the_run stub_openai None None (U "conv-0")
              (U "2024-01-01T09:00:00") (U "conv-3") (U "2024-01-01T12:00:00")
              deleting_widgets foreign_session keyed_bot foreign_dict
              eq_refl eq_refl) as [_ Hpersonality].
  - intro H. vm_compute in H. discriminate H.
  - reflexivity.
  - exact (Hpersonality (PStr (U "acme/parrot-1")) (PStr (U "Pirate"))
             eq_refl eq_refl eq_refl).
Defined.

(** X12: what follows the first user message is not read, here a
    number among the messages. *)
Lemma title_reads_prefix_witness :
  first_user_content [(U "assistant", U "Hello")] = None
  /\ get_conversation_title
       (PList [message (U "assistant") (U "Hello"); message (U "user") (U " Hi ");
               PInt 7])
     = Ok (U "Hi")
  /\ get_conversation_title
       (PList [message (U "assistant") (U "Hello"); PInt 7;
               message (U "user") (U " Hi ")])
     = Err TypeError.
Proof.
  assert (H : first_user_content [(U "assistant", U "Hello")] = None)
    by reflexivity.
  split; [exact H|].
  split.
  - destruct (title_reads_prefix [(U "assistant", U "Hello")] [PInt 7] H)
      as [Hfound _].
    exact (Hfound (U " Hi ")).
  - destruct (title_reads_prefix [(U "assistant", U "Hello")]
                [message (U "user") (U " Hi ")] H) as [_ Hbad].
    exact (Hbad (PInt 7) TypeError eq_refl).
Defined.

(** X13: a content of 31 characters. *)
Lemma title_length_witness :
  get_conversation_title (PList [message (U "user") long_content])
  = Ok (U "abcdefghijklmnopqrstuvwxyzabc...")
  /\ (length (U "abcdefghijklmnopqrstuvwxyzabc...") <= 33)%nat.
Proof.
  assert (H : get_conversation_title (PList [message (U "user") long_content])
              = Ok (U "abcdefghijklmnopqrstuvwxyzabc...")) by reflexivity.
  split; [exact H|].
  exact (title_length _ _ H).
Defined.

(** X15: "new chat" draws the identifier of the first conversation. *)
Lemma create_new_conversation_spec_witness :
  In (U "conv-1") (PyDict.keys (conversations two_conversations))
  /\ PyDict.keys
       (conversations
          (state (create_new_conversation (U "conv-1") (U "2024-01-01T12:00:00")
                    two_conversations)))
     = PyDict.keys (conversations two_conversations).
Proof.
  assert (H : In (U "conv-1") (PyDict.keys (conversations two_conversations)))
    by (left; reflexivity).
  split; [exact H|].
  destruct (create_new_conversation_spec (U "conv-1") (U "2024-01-01T12:00:00")
              two_conversations) as (_ & _ & _ & _ & _ & _ & Hpresent).
  exact (Hpresent H).
Defined.

(** X16: the export of what was imported from the text of an export. *)
Lemma export_conversation_spec_witness :
  json_load (json_dumps foreign_conversation) = Ok foreign_conversation
  /\ export_conversation (U "conv-2")
       (state (import_conversation (U "conv-2") (json_dumps foreign_conversation)
                 first_session))
     = Some (json_dumps foreign_conversation)
  /\ export_conversation (U "conv-9") first_session = None.
Proof.
  assert (H : json_load (json_dumps foreign_conversation) = Ok foreign_conversation)
    by (vm_compute; reflexivity).
  split; [exact H|].
  split.
  - destruct (export_conversation_spec (U "conv-2") first_session) as [_ Himport].
    exact (Himport (U "conv-2") (json_dumps foreign_conversation)
             foreign_conversation H).
  - destruct (export_conversation_spec (U "conv-9") first_session) as [Habsent _].
    apply Habsent. reflexivity.
Defined.

(** X17: "Explain" is pressed in the first session. *)
Lemma quick_actions_need_send_witness :
  w_submit explain_widgets = false
  /\ quick_input explain_widgets = U "Can you explain this concept in simple terms?"
  /\ chat_area explain_widgets (with_bot keyed_bot first_session)
     = Go (with_bot keyed_bot first_session).
Proof.
  split; [reflexivity|]. split; [reflexivity|].
  pose proof (quick_actions_need_send explain_widgets
                (with_bot keyed_bot first_session) eq_refl) as H.
  destruct (chat_area explain_widgets (with_bot keyed_bot first_session))
    as [s'|s' c] eqn:E.
  - now rewrite H.
  - vm_compute in E. discriminate E.
Defined.

(** X18: the key is entered, "Hello" is typed and sent in the first
    session. *)
Lemma main_never_raises_witness :
  well_formed_session first_session
  /\ widgets_offered sending_widgets
  /\ snd (main stub_openai None None (U "conv-0") (U "2024-01-01T09:00:00")
            (U "conv-3") (U "2024-01-01T12:00:00") sending_widgets
            (stored first_session))
     = Rerun
  /\ well_formed_session
       (fst (main stub_openai None None (U "conv-0") (U "2024-01-01T09:00:00")
               (U "conv-3") (U "2024-01-01T12:00:00") sending_widgets
               (stored first_session))).
Proof.
  assert (Hs : well_formed_session first_session)
    by (split; [reflexivity|]; split; [reflexivity | exact I]).
  assert (Hw : widgets_offered sending_widgets).
  { split; [right; left; reflexivity|]. split; [right; right; left; reflexivity|].
    split; apply Qle_bool_iff; reflexivity. }
  split; [exact Hs|]. split; [exact Hw|]. split; [reflexivity|].
  exact (proj1 (main_never_raises stub_openai None None (U "conv-0")
                  (U "2024-01-01T09:00:00") (U "conv-3") (U "2024-01-01T12:00:00")
                  sending_widgets first_session Hs Hw I)).
Defined.

(** X19: a run after the document [{}] is imported, in which the
    delete button of every conversation and "clear all" are pressed:
    the first conversation is deleted, the imported one stays. *)
Lemma poisoned_store_stays_witness :
  poisoned_session locked_session
  /\ exists s',
       main stub_openai None None (U "conv-0") (U "2024-01-01T09:00:00")
         (U "conv-3") (U "2024-01-01T12:00:00") deleting_widgets
         (stored locked_session)
       = (s', Rerun)
       /\ conversations s' = [(U "conv-2", PDict [])]
       /\ poisoned_session s'.
Proof.
  assert (Hs : poisoned_session locked_session)
    by (split; [distinct_keys | reflexivity]).
  split; [exact Hs|].
  destruct (poisoned_store_stays stub_openai None None (U "conv-0")
              (U "2024-01-01T09:00:00") (U "conv-3") (U "2024-01-01T12:00:00")
              deleting_widgets locked_session Hs)
    as (s' & c & _ & Hmain & _ & Hs').
  - intro H. vm_compute in H.
    repeat match goal with
           | H : _ \/ _ |- _ => destruct H
           | H : False |- _ => destruct H
           | H : _ = _ |- _ => discriminate H
           end.
  - exists s'. vm_compute in Hmain. injection Hmain as <- <-.
    split; [reflexivity|]. split; [reflexivity | exact Hs'].
Defined.

(** X20: the generator yields "Hel" and "lo!". *)
Lemma consume_shows_prefixes_witness :
  nth_error (fst (consume (GYield (U "Hel") (GYield (U "lo!") GStop)) [])) 1
  = Some (StMarkdown (U "Hello!" ++ [cursor])).
Proof.
  destruct (consume_shows_prefixes (GYield (U "Hel") (GYield (U "lo!") GStop)) [])
    as [_ Hnth].
  rewrite (Hnth 1%nat); [reflexivity | vm_compute; lia].
Defined.
